(** * Placement Companion: a shallow embedding of the client handlers and
    edge functions, with the properties stated in the specification.

    The application is a set of React page components (TypeScript) that talk
    to a hosted backend, and two Deno edge functions.  Each handler is
    embedded as a function over the component's state; what a network call
    answers is an argument of the handler. *)

From Stdlib Require Import ZArith Floats Ascii String.
From stdpp Require Import base list strings sorting pretty.

Set Warnings "-register-all".


Local Open Scope Z_scope.

(** ** Calendar days

    [date_practiced] is a Postgres DATE and reaches the client as the text
    YYYY-MM-DD; [new Date().toISOString().split('T')[0]] has the same shape.
    Such a text is represented by its day number (days since the epoch):
    equality of the texts is equality of day numbers, the default
    [Array.prototype.sort] (code-unit order) is the numeric order, and
    [setDate(getDate() - i)] moves back [i] days.  [today] is the date the
    clock gives in UTC; a change of the local offset between the two days
    (daylight saving) is not modelled. *)
Abbreviation Day := Z.

(** [[...new Set(xs)].sort().reverse()]: duplicates dropped, ascending sort,
    reversed.  Which of two equal texts the [Set] keeps cannot be seen once
    the array is sorted. *)
Definition sorted_unique_desc (xs : list Day) : list Day :=
  reverse (merge_sort Z.le (remove_dups xs)).

(** The body of the streak loop, shared by the two copies of it: index [i]
    walks [dates]; the loop breaks at the first date that is not the
    expected one. *)
Fixpoint streak_loop (today : Day) (i : nat) (dates : list Day) : nat :=
  match dates with
  | [] => 0%nat
  | d :: rest =>
      let expected := today - Z.of_nat i in
      if (d =? expected) || ((i =? 0)%nat && (d =? today))
      then S (streak_loop today (S i) rest)
      else 0%nat
  end.

(** ** JavaScript strings

    A string is a sequence of ASCII characters; the white space that [trim]
    and the regular expressions' [\s] strip is the ASCII white space (tab,
    line feed, vertical tab, form feed, carriage return, space). *)
Module Js.

Fixpoint trimStart (s : string) : string :=
  match s with
  | String c rest => if Ascii.is_space c then trimStart rest else s
  | EmptyString => EmptyString
  end.

Definition trimEnd (s : string) : string :=
  String.rev (trimStart (String.rev s)).

Definition trim (s : string) : string := trimEnd (trimStart s).

(** [!s] for a string [s]. *)
Definition falsy (s : string) : bool := bool_decide (s = "").

(** [s.startsWith(p)]. *)
Definition startsWith (s p : string) : bool := String.prefix p s.

(** [s.slice(n)], for [n >= 0]. *)
Fixpoint slice (n : nat) (s : string) : string :=
  match n, s with
  | O, _ => s
  | S n', String _ rest => slice n' rest
  | S _, EmptyString => EmptyString
  end.

(** [s.split(sep)] for a one-character separator; [cur] holds the current
    piece in reverse. *)
Fixpoint split_go (sep : ascii) (cur : string) (s : string) : list string :=
  match s with
  | EmptyString => [String.rev cur]
  | String c rest =>
      if bool_decide (c = sep) then String.rev cur :: split_go sep EmptyString rest
      else split_go sep (String c cur) rest
  end.

Definition split (sep : ascii) (s : string) : list string :=
  split_go sep EmptyString s.

(** [a || b] on strings: [b] when [a] is empty. *)
Definition or_else (a b : string) : string := if falsy a then b else a.

(** The index of the first occurrence of [p] in [s] at or after the start. *)
Fixpoint indexOf (p s : string) : option nat :=
  if String.prefix p s then Some O
  else match s with
       | EmptyString => None
       | String _ rest => S <$> indexOf p rest
       end.

(** The first [n] characters. *)
Fixpoint take (n : nat) (s : string) : string :=
  match n, s with
  | S n', String c rest => String c (take n' rest)
  | _, _ => EmptyString
  end.

End Js.

(** ** JSON values and [JSON.parse]

    [JSON.parse] belongs to the runtime, not to the repository.  Handlers
    take it as a parameter; [JSON_parse] below follows the JSON grammar
    (RFC 8259) and instantiates the parameter on concrete inputs.  A number
    is kept as its lexeme. *)
Inductive Json :=
  | JNull
  | JBool (b : bool)
  | JNumber (lexeme : string)
  | JString (s : string)
  | JArray (items : list Json)
  | JObject (fields : list (string * Json)).

(** [o[key]] on a parsed object: the last member with that name wins. *)
Fixpoint json_field (key : string) (fields : list (string * Json)) : option Json :=
  match fields with
  | [] => None
  | (k, v) :: rest =>
      match json_field key rest with
      | Some v' => Some v'
      | None => if bool_decide (k = key) then Some v else None
      end
  end.

(** [v?.[key]] for a string key: [undefined] on anything but an object. *)
Definition json_get (key : string) (v : option Json) : option Json :=
  match v with
  | Some (JObject fields) => json_field key fields
  | _ => None
  end.

(** [v?.[0]]: the first element of an array, the member "0" of an object. *)
Definition json_first (v : option Json) : option Json :=
  match v with
  | Some (JArray items) => head items
  | Some (JObject fields) => json_field "0" fields
  | _ => None
  end.

Module JsonText.

Fixpoint skip_ws (s : string) : string :=
  match s with
  | String c rest =>
      if bool_decide (c = " "%char) || bool_decide (c = "009"%char)
         || bool_decide (c = "010"%char) || bool_decide (c = "013"%char)
      then skip_ws rest else s
  | EmptyString => EmptyString
  end.

Definition is_digit (c : ascii) : bool :=
  let n := nat_of_ascii c in (48 <=? n)%nat && (n <=? 57)%nat.

Definition hex_value (c : ascii) : option nat :=
  let n := nat_of_ascii c in
  if (48 <=? n)%nat && (n <=? 57)%nat then Some (n - 48)%nat
  else if (65 <=? n)%nat && (n <=? 70)%nat then Some (n - 55)%nat
  else if (97 <=? n)%nat && (n <=? 102)%nat then Some (n - 87)%nat
  else None.

(** The UTF-8 bytes of a 16-bit code unit. *)
Definition utf8 (n : nat) : string :=
  if (n <? 128)%nat then String (ascii_of_nat n) EmptyString
  else if (n <? 2048)%nat then
    String (ascii_of_nat (192 + n / 64)) (String (ascii_of_nat (128 + n mod 64)) EmptyString)
  else
    String (ascii_of_nat (224 + n / 4096))
      (String (ascii_of_nat (128 + (n / 64) mod 64))
         (String (ascii_of_nat (128 + n mod 64)) EmptyString)).

(** The characters of a string literal after its opening quote (character
    034); [acc] is the decoded text in reverse. *)
Fixpoint string_body (acc : string) (s : string) : option (string * string) :=
  match s with
  | EmptyString => None
  | String c rest =>
      if bool_decide (c = "034"%char) then Some (String.rev acc, rest)
      else if bool_decide (c = "\"%char) then
        match rest with
        | String e rest' =>
            let plain (d : ascii) := string_body (String d acc) rest' in
            if bool_decide (e = "034"%char) then plain "034"%char
            else if bool_decide (e = "\"%char) then plain "\"%char
            else if bool_decide (e = "/"%char) then plain "/"%char
            else if bool_decide (e = "b"%char) then plain "008"%char
            else if bool_decide (e = "f"%char) then plain "012"%char
            else if bool_decide (e = "n"%char) then plain "010"%char
            else if bool_decide (e = "r"%char) then plain "013"%char
            else if bool_decide (e = "t"%char) then plain "009"%char
            else if bool_decide (e = "u"%char) then
              match rest' with
              | String h1 (String h2 (String h3 (String h4 rest''))) =>
                  match hex_value h1, hex_value h2, hex_value h3, hex_value h4 with
                  | Some a, Some b, Some c', Some d =>
                      string_body
                        (String.rev_app (utf8 (((a * 16 + b) * 16 + c') * 16 + d)) acc)
                        rest''
                  | _, _, _, _ => None
                  end
              | _ => None
              end
            else None
        | EmptyString => None
        end
      else if (nat_of_ascii c <? 32)%nat then None
      else string_body (String c acc) rest
  end.

(** One or more digits. *)
Fixpoint digits (s : string) : string * string :=
  match s with
  | String c rest =>
      if is_digit c then let '(ds, r) := digits rest in (String c ds, r)
      else (EmptyString, s)
  | EmptyString => (EmptyString, EmptyString)
  end.

Definition digits1 (s : string) : option (string * string) :=
  let '(ds, r) := digits s in
  if Js.falsy ds then None else Some (ds, r).

(** A number: an optional minus sign, then 0 or a digit string that does not
    start with 0, then an optional fraction and an optional exponent. *)
Definition number (s : string) : option (string * string) :=
  let '(sign, s1) :=
    match s with
    | String "-" r => ("-", r)
    | _ => ("", s)
    end in
  int ← match s1 with
        | String "0" r => Some ("0", r)
        | _ => digits1 s1
        end;
  let '(ip, s2) := int in
  frac ← match s2 with
         | String "." r => '(ds, r') ← digits1 r; Some ("." +:+ ds, r')
         | _ => Some ("", s2)
         end;
  let '(fp, s3) := frac in
  ex ← match s3 with
       | String c r =>
           if bool_decide (c = "e"%char) || bool_decide (c = "E"%char) then
             let '(sg, r1) :=
               match r with
               | String "+" r' => ("+", r')
               | String "-" r' => ("-", r')
               | _ => ("", r)
               end in
             '(ds, r2) ← digits1 r1; Some (String c (sg +:+ ds), r2)
           else Some ("", s3)
       | EmptyString => Some ("", s3)
       end;
  let '(ep, s4) := ex in
  Some (sign +:+ ip +:+ fp +:+ ep, s4).

Definition keyword (kw : string) (v : Json) (s : string) : option (Json * string) :=
  if String.prefix kw s then Some (v, Js.slice (String.length kw) s) else None.

Fixpoint value (fuel : nat) (s : string) : option (Json * string) :=
  match fuel with
  | O => None
  | S fuel' =>
      match skip_ws s with
      | String "{" r =>
          match skip_ws r with
          | String "}" r' => Some (JObject [], r')
          | r' => '(fs, r'') ← members fuel' r' []; Some (JObject fs, r'')
          end
      | String "[" r =>
          match skip_ws r with
          | String "]" r' => Some (JArray [], r')
          | r' => '(vs, r'') ← elements fuel' r' []; Some (JArray vs, r'')
          end
      | String "034" r => '(str, r') ← string_body "" r; Some (JString str, r')
      | String "t" _ as s' => keyword "true" (JBool true) s'
      | String "f" _ as s' => keyword "false" (JBool false) s'
      | String "n" _ as s' => keyword "null" JNull s'
      | s' => '(lexeme, r) ← number s'; Some (JNumber lexeme, r)
      end
  end
with elements (fuel : nat) (s : string) (acc : list Json) : option (list Json * string) :=
  match fuel with
  | O => None
  | S fuel' =>
      '(v, r) ← value fuel' s;
      match skip_ws r with
      | String "," r' => elements fuel' r' (v :: acc)
      | String "]" r' => Some (reverse (v :: acc), r')
      | _ => None
      end
  end
with members (fuel : nat) (s : string) (acc : list (string * Json))
    : option (list (string * Json) * string) :=
  match fuel with
  | O => None
  | S fuel' =>
      match skip_ws s with
      | String "034" r =>
          '(k, r1) ← string_body "" r;
          match skip_ws r1 with
          | String ":" r2 =>
              '(v, r3) ← value fuel' r2;
              match skip_ws r3 with
              | String "," r4 => members fuel' r4 ((k, v) :: acc)
              | String "}" r4 => Some (reverse ((k, v) :: acc), r4)
              | _ => None
              end
          | _ => None
          end
      | _ => None
      end
  end.

End JsonText.

(** [JSON.parse(text)]: [None] stands for the [SyntaxError] it throws. *)
Definition JSON_parse (text : string) : option Json :=
  '(v, rest) ← JsonText.value (S (String.length text)) text;
  if Js.falsy (JsonText.skip_ws rest) then Some v else None.

(** ** Event handlers

    A handler runs on the state of its component as it was rendered (the
    values its closure captured), replaces state through the setters,
    leaves a trace of what can be observed from outside (notifications,
    console output, network requests), and either returns or throws. *)
(** What is thrown: an [Error] with its message, or the [error] object of
    a backend result ([if (error) throw error]). *)
Inductive Thrown :=
  | Error (message : string)
  | backend_error.

(** [error instanceof Error ? error.message : fallback] *)
Definition message_or (e : Thrown) (fallback : string) : string :=
  match e with
  | Error message => message
  | backend_error => fallback
  end.

Inductive Outcome (A : Type) :=
  | Returned (a : A)
  | Threw (e : Thrown).
Arguments Returned {A} a.
Arguments Threw {A} e.

Definition Handler (St Ev A : Type) : Type := St → Outcome A * St * list Ev.

Section Handler.
Context {St Ev : Type}.

Definition ret {A} (a : A) : Handler St Ev A := λ st, (Returned a, st, []).

Definition throw {A} (e : Thrown) : Handler St Ev A :=
  λ st, (Threw e, st, []).

Definition bind {A B} (m : Handler St Ev A) (k : A → Handler St Ev B)
    : Handler St Ev B :=
  λ st,
    match m st with
    | (Returned a, st1, log1) =>
        let '(o, st2, log2) := k a st1 in (o, st2, log1 ++ log2)
    | (Threw e, st1, log1) => (Threw e, st1, log1)
    end.

(** The state the handler sees. *)
Definition get : Handler St Ev St := λ st, (Returned st, st, []).

(** A setter call. *)
Definition set (f : St → St) : Handler St Ev unit := λ st, (Returned tt, f st, []).

Definition emit (e : Ev) : Handler St Ev unit := λ st, (Returned tt, st, [e]).

(** [try { m } catch (e) { h e }] *)
Definition try_catch {A} (m : Handler St Ev A) (h : Thrown → Handler St Ev A)
    : Handler St Ev A :=
  λ st,
    match m st with
    | (Threw e, st1, log1) =>
        let '(o, st2, log2) := h e st1 in (o, st2, log1 ++ log2)
    | r => r
    end.

(** [try { m } finally { f }] *)
Definition finally {A} (m : Handler St Ev A) (f : Handler St Ev unit)
    : Handler St Ev A :=
  λ st,
    let '(o, st1, log1) := m st in
    let '(o', st2, log2) := f st1 in
    (match o' with Threw e => Threw e | Returned _ => o end, st2, log1 ++ log2).

End Handler.

(** The parts of a run. *)
Definition outcome_of {St Ev A} (r : Outcome A * St * list Ev) : Outcome A := r.1.1.
Definition state_after {St Ev A} (r : Outcome A * St * list Ev) : St := r.1.2.
Definition log_of {St Ev A} (r : Outcome A * St * list Ev) : list Ev := r.2.

Declare Scope handler_scope.
Delimit Scope handler_scope with handler.
Notation "x <- m ;; k" := (bind m (λ x, k))
  (at level 100, m at next level, right associativity) : handler_scope.
Notation "m ;; k" := (bind m (λ _, k))
  (at level 100, right associativity) : handler_scope.

(** What a handler lets the outside observe.  [P] is the type of request
    bodies. *)
Inductive Request (P : Type) :=
  | Select (table : string)
  | Insert (table : string) (row : P)
  | Update (table : string) (id : string) (changes : P)
  | Delete (table : string) (id : string)
  | Post (function_name : string) (body : P).
Arguments Select {P} table.
Arguments Insert {P} table row.
Arguments Update {P} table id changes.
Arguments Delete {P} table id.
Arguments Post {P} function_name body.

Inductive Effect (P : Type) :=
  | toast_success (message : string)
  | toast_error (message : string)
  | console_error (message : string)
  | request (r : Request P).
Arguments toast_success {P} message.
Arguments toast_error {P} message.
Arguments console_error {P} message.
Arguments request {P} r.

(** The notifications shown to the user, in order. *)
Definition toasts {P} (log : list (Effect P)) : list string :=
  omap (λ e, match e with
             | toast_success m | toast_error m => Some m
             | _ => None
             end) log.

Definition requests {P} (log : list (Effect P)) : list (Request P) :=
  omap (λ e, match e with request r => Some r | _ => None end) log.

(** The signed-in user ([useAuth]). *)
Record User := { user_id_of : string }.

(** The body of an HTTP response as its receiver finds it: a text written
    as it is, a value the sender passed through [JSON.stringify], or
    nothing. *)
Inductive Payload :=
  | payload_text (text : string)
  | payload_json (v : Json)
  | payload_none.

Record HttpResponse := { http_status : nat; http_body : Payload }.

(** [response.ok] *)
Definition http_ok (r : HttpResponse) : bool :=
  (200 <=? http_status r)%nat && (http_status r <=? 299)%nat.

(** ** The backend's tables

    A table is the list of its rows.  [select('*').eq('user_id', uid)
    .order(col, { ascending: false })] keeps the caller's rows and orders
    them by the column, rows with equal values in table order. *)
Section Table.
Context {Row : Type} (owner : Row → string) (key : Row → Z).

Fixpoint insert_desc (x : Row) (rows : list Row) : list Row :=
  match rows with
  | [] => [x]
  | y :: rest =>
      if key y <=? key x then x :: rows else y :: insert_desc x rest
  end.

Definition order_desc (rows : list Row) : list Row :=
  foldr insert_desc [] rows.

Definition select_own (uid : string) (table : list Row) : list Row :=
  order_desc (filter (λ r, owner r = uid) table).

End Table.

(** ** CodingPractice.tsx *)
Module CodingPractice.

(** A row of [coding_problems]. *)
Record CodingProblem := {
  id : string;
  user_id : string;
  platform : string;
  problem_name : string;
  difficulty : string;
  status : string;
  date_practiced : Day;
  notes : option string;
  created_at : string
}.

Record DeleteConfirm := { open : bool; problemId : option string }.

Record State := {
  problems : list CodingProblem;
  loading : bool;
  submitting : bool;
  isDialogOpen : bool;
  editingProblem : option CodingProblem;
  filterPlatform : string;
  filterDifficulty : string;
  streak : nat;
  deleteConfirm : DeleteConfirm
}.

Definition setProblems v st :=
  {| problems := v; loading := loading st; submitting := submitting st;
     isDialogOpen := isDialogOpen st; editingProblem := editingProblem st;
     filterPlatform := filterPlatform st; filterDifficulty := filterDifficulty st;
     streak := streak st; deleteConfirm := deleteConfirm st |}.
Definition setLoading v st :=
  {| problems := problems st; loading := v; submitting := submitting st;
     isDialogOpen := isDialogOpen st; editingProblem := editingProblem st;
     filterPlatform := filterPlatform st; filterDifficulty := filterDifficulty st;
     streak := streak st; deleteConfirm := deleteConfirm st |}.
Definition setSubmitting v st :=
  {| problems := problems st; loading := loading st; submitting := v;
     isDialogOpen := isDialogOpen st; editingProblem := editingProblem st;
     filterPlatform := filterPlatform st; filterDifficulty := filterDifficulty st;
     streak := streak st; deleteConfirm := deleteConfirm st |}.
Definition setIsDialogOpen v st :=
  {| problems := problems st; loading := loading st; submitting := submitting st;
     isDialogOpen := v; editingProblem := editingProblem st;
     filterPlatform := filterPlatform st; filterDifficulty := filterDifficulty st;
     streak := streak st; deleteConfirm := deleteConfirm st |}.
Definition setEditingProblem v st :=
  {| problems := problems st; loading := loading st; submitting := submitting st;
     isDialogOpen := isDialogOpen st; editingProblem := v;
     filterPlatform := filterPlatform st; filterDifficulty := filterDifficulty st;
     streak := streak st; deleteConfirm := deleteConfirm st |}.
Definition setStreak v st :=
  {| problems := problems st; loading := loading st; submitting := submitting st;
     isDialogOpen := isDialogOpen st; editingProblem := editingProblem st;
     filterPlatform := filterPlatform st; filterDifficulty := filterDifficulty st;
     streak := v; deleteConfirm := deleteConfirm st |}.
Definition setDeleteConfirm v st :=
  {| problems := problems st; loading := loading st; submitting := submitting st;
     isDialogOpen := isDialogOpen st; editingProblem := editingProblem st;
     filterPlatform := filterPlatform st; filterDifficulty := filterDifficulty st;
     streak := streak st; deleteConfirm := v |}.

(** The component and the table it reads and writes. *)
Record World := { ui : State; coding_problems : list CodingProblem }.

Definition on_ui (f : State → State) (w : World) : World :=
  {| ui := f (ui w); coding_problems := coding_problems w |}.
Definition on_table (f : list CodingProblem → list CodingProblem) (w : World) : World :=
  {| ui := ui w; coding_problems := f (coding_problems w) |}.

(** The dialog's fields as [FormData] returns them; an empty date input is
    [None]. *)
Record Form := {
  form_problem_name : string;
  form_platform : string;
  form_date_practiced : option Day;
  form_difficulty : string;
  form_status : string;
  form_notes : string
}.

(** [problemData] *)
Record ProblemData := {
  data_user_id : string;
  data_platform : string;
  data_problem_name : string;
  data_difficulty : string;
  data_status : string;
  data_date_practiced : Day;
  data_notes : option string
}.

Definition Action := Handler World (Effect ProblemData).

(** [calculateStreak]: the value passed to [setStreak]. *)
Definition calculateStreak (today : Day) (problemList : list CodingProblem) : nat :=
  if (length problemList =? 0)%nat then 0%nat
  else streak_loop today 0 (sorted_unique_desc (map date_practiced problemList)).

(** [fetchProblems]; [select_ok] tells whether the select succeeds. *)
Definition fetchProblems (user : option User) (today : Day) (select_ok : bool)
    : Action unit :=
  match user with
  | None => ret tt
  | Some u =>
      (set (on_ui (setLoading true));;
       finally
         (try_catch
            (emit (request (Select "coding_problems"));;
             w <- get;;
             if select_ok then
               let data := select_own user_id date_practiced (user_id_of u)
                             (coding_problems w) in
               set (on_ui (setProblems data));;
               set (on_ui (setStreak (calculateStreak today data)))
             else throw backend_error)
            (λ _, emit (toast_error "Failed to fetch problems")))
         (set (on_ui (setLoading false))))%handler
  end.

(** What the backend does with an accepted insert and update. *)
Definition inserted (fresh_id now : string) (d : ProblemData) : CodingProblem :=
  {| id := fresh_id; user_id := data_user_id d; platform := data_platform d;
     problem_name := data_problem_name d; difficulty := data_difficulty d;
     status := data_status d; date_practiced := data_date_practiced d;
     notes := data_notes d; created_at := now |}.

Definition updated (x : string) (d : ProblemData) (r : CodingProblem) : CodingProblem :=
  if bool_decide (id r = x) then
    {| id := id r; user_id := data_user_id d; platform := data_platform d;
       problem_name := data_problem_name d; difficulty := data_difficulty d;
       status := data_status d; date_practiced := data_date_practiced d;
       notes := data_notes d; created_at := created_at r |}
  else r.

(** [handleSubmit]; [write_ok] tells whether the insert or update succeeds,
    [fresh_id] and [now] are the id and timestamp the backend gives a new
    row. *)
Definition handleSubmit (user : option User) (form : Form)
    (write_ok : bool) (fresh_id now : string) (today : Day) (select_ok : bool)
    : Action unit :=
  match user with
  | None => ret tt
  | Some u =>
      (w <- get;;
       set (on_ui (setSubmitting true));;
       let problemName := Js.trim (form_problem_name form) in
       let platform := form_platform form in
       if Js.falsy problemName then
         emit (toast_error "Problem name is required");;
         set (on_ui (setSubmitting false))
       else if Js.falsy platform then
         emit (toast_error "Please select a platform");;
         set (on_ui (setSubmitting false))
       else
         match form_date_practiced form with
         | None =>
             emit (toast_error "Date is required");;
             set (on_ui (setSubmitting false))
         | Some datePracticed =>
             let problemData :=
               {| data_user_id := user_id_of u; data_platform := platform;
                  data_problem_name := problemName;
                  data_difficulty := form_difficulty form;
                  data_status := form_status form;
                  data_date_practiced := datePracticed;
                  data_notes := if Js.falsy (form_notes form) then None
                                else Some (form_notes form) |} in
             finally
               (try_catch
                  (match editingProblem (ui w) with
                   | Some editing =>
                       emit (request (Update "coding_problems" (id editing) problemData));;
                       (if write_ok
                        then set (on_table (map (updated (id editing) problemData)))
                        else throw backend_error);;
                       emit (toast_success "Problem updated successfully")
                   | None =>
                       emit (request (Insert "coding_problems" problemData));;
                       (if write_ok
                        then set (on_table (λ t, t ++ [inserted fresh_id now problemData]))
                        else throw backend_error);;
                       emit (toast_success "Problem logged successfully")
                   end;;
                   fetchProblems user today select_ok;;
                   set (on_ui (setIsDialogOpen false));;
                   set (on_ui (setEditingProblem None)))
                  (λ _, emit (toast_error
                                match editingProblem (ui w) with
                                | Some _ => "Failed to update problem"
                                | None => "Failed to log problem"
                                end)))
               (set (on_ui (setSubmitting false)))
         end)%handler
  end.

(** The row-level policy on delete: only the caller's own rows match. *)
Definition delete_own (user : option User) (x : string)
    (table : list CodingProblem) : list CodingProblem :=
  match user with
  | Some u => filter (λ r, ¬ (id r = x ∧ user_id r = user_id_of u)) table
  | None => table
  end.

(** [handleDelete]; [delete_ok] tells whether the delete succeeds. *)
Definition handleDelete (user : option User) (delete_ok : bool)
    (today : Day) (select_ok : bool) : Action unit :=
  (w <- get;;
   match problemId (deleteConfirm (ui w)) with
   | None => ret tt
   | Some x =>
       if Js.falsy x then ret tt
       else
         finally
           (try_catch
              (emit (request (Delete "coding_problems" x));;
               (if delete_ok then set (on_table (delete_own user x))
                else throw backend_error);;
               emit (toast_success "Problem deleted");;
               fetchProblems user today select_ok)
              (λ _, emit (toast_error "Failed to delete problem")))
           (set (on_ui (setDeleteConfirm {| open := false; problemId := None |})))
   end)%handler.

(** [filteredProblems] *)
Definition filteredProblems (st : State) : list CodingProblem :=
  List.filter
    (λ problem,
       if negb (filterPlatform st =? "all")%string
          && negb (platform problem =? filterPlatform st)%string then false
       else if negb (filterDifficulty st =? "all")%string
               && negb (difficulty problem =? filterDifficulty st)%string then false
       else true)
    (problems st).

(** [stats] *)
Record Stats := {
  total : nat;
  solved : nat;
  revision : nat;
  easy : nat;
  medium : nat;
  hard : nat
}.

Definition stats (st : State) : Stats :=
  {| total := length (problems st);
     solved := length (List.filter (λ p, (status p =? "solved")%string) (problems st));
     revision :=
       length (List.filter (λ p, (status p =? "revision_needed")%string) (problems st));
     easy :=
       length (List.filter
                 (λ p, (difficulty p =? "easy")%string && (status p =? "solved")%string)
                 (problems st));
     medium :=
       length (List.filter
                 (λ p, (difficulty p =? "medium")%string && (status p =? "solved")%string)
                 (problems st));
     hard :=
       length (List.filter
                 (λ p, (difficulty p =? "hard")%string && (status p =? "solved")%string)
                 (problems st)) |}.

End CodingPractice.

(** ** Dashboard.tsx: the dashboard *)
Module Dashboard.

(** The columns [fetchStats] selects from [coding_problems]. *)
Record ProblemRow := {
  status : string;
  date_practiced : Day
}.

(** The streak block of [fetchStats]; [data] of a failed select is [null]. *)
Definition fetchStats_streak (today : Day) (codingProblems : option (list ProblemRow)) : nat :=
  match codingProblems with
  | Some rows =>
      if (0 <? length rows)%nat
      then streak_loop today 0 (sorted_unique_desc (map date_practiced rows))
      else 0%nat
  | None => 0%nat
  end.

(** The column [fetchStats] selects from [learning_goals] and from
    [applications]. *)
Record StatusRow := { row_status : string }.

Record DashboardStats := {
  totalLearningGoals : nat;
  completedSkills : nat;
  problemsSolved : nat;
  currentStreak : nat;
  applicationsSent : nat;
  interviewsAttended : nat
}.

(** An element of [last7Days]. *)
Record DayActivity := { name : string; date : Day; problems : nat }.

(** An element of [applicationStatus]. *)
Record Slice := { slice_name : string; value : nat; color : string }.

Record State := {
  loading : bool;
  stats : DashboardStats;
  weeklyActivity : list (string * nat);
  applicationStatus : list Slice
}.

Definition setLoading v st :=
  {| loading := v; stats := stats st; weeklyActivity := weeklyActivity st;
     applicationStatus := applicationStatus st |}.
Definition setStats v st :=
  {| loading := loading st; stats := v; weeklyActivity := weeklyActivity st;
     applicationStatus := applicationStatus st |}.
Definition setWeeklyActivity v st :=
  {| loading := loading st; stats := stats st; weeklyActivity := v;
     applicationStatus := applicationStatus st |}.
Definition setApplicationStatus v st :=
  {| loading := loading st; stats := stats st; weeklyActivity := weeklyActivity st;
     applicationStatus := v |}.

(** [data?.filter(f).length || 0] *)
Definition count_where {A} (f : A → bool) (data : option (list A)) : nat :=
  match data with
  | Some rows => length (List.filter f rows)
  | None => 0%nat
  end.

(** [data?.length || 0] *)
Definition count_all {A} (data : option (list A)) : nat :=
  match data with
  | Some rows => length rows
  | None => 0%nat
  end.

(** [Array.from({ length: 7 }, ...)]: the seven days ending today, oldest
    first.  [weekday i] is the name the locale gives the i-th of them. *)
Definition last7Days (weekday : nat → string) (today : Day) : list DayActivity :=
  (λ i, {| name := weekday i; date := today - (6 - Z.of_nat i); problems := 0 |})
    <$> seq 0 7.

(** [const day = last7Days.find((d) => d.date === date); if (day)
    day.problems++]: the first entry with that date is incremented in
    place. *)
Fixpoint count_on (d : Day) (days : list DayActivity) : list DayActivity :=
  match days with
  | [] => []
  | day :: rest =>
      if date day =? d
      then {| name := name day; date := date day; problems := S (problems day) |} :: rest
      else day :: count_on d rest
  end.

(** [last7Days] after the [forEach] over the problems. *)
Definition week_counted (weekday : nat → string) (today : Day)
    (codingProblems : option (list ProblemRow)) : list DayActivity :=
  match codingProblems with
  | Some rows =>
      foldl (λ days p, count_on (date_practiced p) days) (last7Days weekday today) rows
  | None => last7Days weekday today
  end.

(** The five slices before the zero ones are dropped. *)
Definition status_slices (applications : option (list StatusRow)) : list Slice :=
  let counted (s : string) := count_where (λ a, (row_status a =? s)%string) applications in
  [ {| slice_name := "Applied"; value := counted "applied"; color := "hsl(var(--info))" |};
    {| slice_name := "OA"; value := counted "oa"; color := "hsl(var(--primary))" |};
    {| slice_name := "Interview"; value := counted "interview";
       color := "hsl(var(--warning))" |};
    {| slice_name := "Rejected"; value := counted "rejected";
       color := "hsl(var(--destructive))" |};
    {| slice_name := "Selected"; value := counted "selected";
       color := "hsl(var(--success))" |} ].

Definition Action := Handler State (Effect unit).

(** [fetchStats]; the three arguments after [weekday] are the [data] of the
    three selects, [None] for a select that failed. *)
Definition fetchStats (user : option User) (today : Day) (weekday : nat → string)
    (learningGoals : option (list StatusRow))
    (codingProblems : option (list ProblemRow))
    (applications : option (list StatusRow)) : Action unit :=
  match user with
  | None => ret tt
  | Some _ =>
      (set (setLoading true);;
       finally
         (try_catch
            (emit (request (Select "learning_goals"));;
             emit (request (Select "coding_problems"));;
             emit (request (Select "applications"));;
             set (setStats
                    {| totalLearningGoals := count_all learningGoals;
                       completedSkills :=
                         count_where (λ g, (row_status g =? "completed")%string)
                           learningGoals;
                       problemsSolved :=
                         count_where (λ p, (status p =? "solved")%string) codingProblems;
                       currentStreak := fetchStats_streak today codingProblems;
                       applicationsSent := count_all applications;
                       interviewsAttended :=
                         count_where
                           (λ a, (row_status a =? "interview")%string
                                 || (row_status a =? "selected")%string)
                           applications |});;
             set (setWeeklyActivity
                    ((λ day, (name day, problems day))
                       <$> week_counted weekday today codingProblems));;
             set (setApplicationStatus
                    (List.filter (λ s, (0 <? value s)%nat) (status_slices applications))))
            (λ _, emit (console_error "Error fetching stats:")))
         (set (setLoading false)))%handler
  end.

End Dashboard.

(** ** Dashboard.tsx: the application tracker (the version that validates
    the form and asks before deleting) *)
Module Applications.

(** A row of [applications]. *)
Record Application := {
  id : string;
  user_id : string;
  company_name : string;
  role : string;
  job_type : string;
  status : string;
  application_link : option string;
  apply_date : Day;
  interview_date : option Day;
  notes : option string;
  created_at : string
}.

Record DeleteConfirm := { open : bool; appId : option string }.

Record State := {
  applications : list Application;
  loading : bool;
  submitting : bool;
  isDialogOpen : bool;
  editingApp : option Application;
  filterStatus : string;
  filterType : string;
  deleteConfirm : DeleteConfirm
}.

Definition setApplications v st :=
  {| applications := v; loading := loading st; submitting := submitting st;
     isDialogOpen := isDialogOpen st; editingApp := editingApp st;
     filterStatus := filterStatus st; filterType := filterType st;
     deleteConfirm := deleteConfirm st |}.
Definition setLoading v st :=
  {| applications := applications st; loading := v; submitting := submitting st;
     isDialogOpen := isDialogOpen st; editingApp := editingApp st;
     filterStatus := filterStatus st; filterType := filterType st;
     deleteConfirm := deleteConfirm st |}.
Definition setSubmitting v st :=
  {| applications := applications st; loading := loading st; submitting := v;
     isDialogOpen := isDialogOpen st; editingApp := editingApp st;
     filterStatus := filterStatus st; filterType := filterType st;
     deleteConfirm := deleteConfirm st |}.
Definition setIsDialogOpen v st :=
  {| applications := applications st; loading := loading st; submitting := submitting st;
     isDialogOpen := v; editingApp := editingApp st;
     filterStatus := filterStatus st; filterType := filterType st;
     deleteConfirm := deleteConfirm st |}.
Definition setEditingApp v st :=
  {| applications := applications st; loading := loading st; submitting := submitting st;
     isDialogOpen := isDialogOpen st; editingApp := v;
     filterStatus := filterStatus st; filterType := filterType st;
     deleteConfirm := deleteConfirm st |}.
Definition setDeleteConfirm v st :=
  {| applications := applications st; loading := loading st; submitting := submitting st;
     isDialogOpen := isDialogOpen st; editingApp := editingApp st;
     filterStatus := filterStatus st; filterType := filterType st;
     deleteConfirm := v |}.

Record World := { ui : State; table : list Application }.

Definition on_ui (f : State → State) (w : World) : World :=
  {| ui := f (ui w); table := table w |}.
Definition on_table (f : list Application → list Application) (w : World) : World :=
  {| ui := ui w; table := f (table w) |}.

(** The dialog's fields; an empty date input is [None]. *)
Record Form := {
  form_company_name : string;
  form_role : string;
  form_job_type : string;
  form_status : string;
  form_application_link : string;
  form_apply_date : option Day;
  form_interview_date : option Day;
  form_notes : string
}.

(** [appData] *)
Record AppData := {
  data_user_id : string;
  data_company_name : string;
  data_role : string;
  data_job_type : string;
  data_status : string;
  data_application_link : option string;
  data_apply_date : option Day;
  data_interview_date : option Day;
  data_notes : option string
}.

Definition Action := Handler World (Effect AppData).

(** [s || null] *)
Definition or_null (s : string) : option string :=
  if Js.falsy s then None else Some s.

(** [fetchApplications] *)
Definition fetchApplications (user : option User) (select_ok : bool) : Action unit :=
  match user with
  | None => ret tt
  | Some u =>
      (set (on_ui (setLoading true));;
       finally
         (try_catch
            (emit (request (Select "applications"));;
             w <- get;;
             if select_ok then
               set (on_ui (setApplications
                             (select_own user_id apply_date (user_id_of u) (table w))))
             else throw backend_error)
            (λ _, emit (toast_error "Failed to fetch applications")))
         (set (on_ui (setLoading false))))%handler
  end.

(** What the backend does with an accepted insert and update; [apply_date]
    is a DATE column, which an empty text does not fit. *)
Definition inserted (fresh_id now : string) (d : AppData) (applied : Day) : Application :=
  {| id := fresh_id; user_id := data_user_id d; company_name := data_company_name d;
     role := data_role d; job_type := data_job_type d; status := data_status d;
     application_link := data_application_link d; apply_date := applied;
     interview_date := data_interview_date d; notes := data_notes d;
     created_at := now |}.

Definition updated (x : string) (d : AppData) (applied : Day) (r : Application)
    : Application :=
  if bool_decide (id r = x) then
    {| id := id r; user_id := data_user_id d; company_name := data_company_name d;
       role := data_role d; job_type := data_job_type d; status := data_status d;
       application_link := data_application_link d; apply_date := applied;
       interview_date := data_interview_date d; notes := data_notes d;
       created_at := created_at r |}
  else r.

(** The backend's answer to a write: it changes the table and reports no
    error ([true]), or reports an error. *)
Definition write (ok : bool) (d : AppData)
    (change : Day → list Application → list Application) : Action bool :=
  match ok, data_apply_date d with
  | true, Some applied => (set (on_table (change applied));; ret true)%handler
  | _, _ => ret false
  end.

(** [if (error) throw error] *)
Definition throw_unless (ok : bool) : Action unit :=
  if ok then ret tt else throw backend_error.

(** [handleSubmit] *)
Definition handleSubmit (user : option User) (form : Form)
    (write_ok : bool) (fresh_id now : string) (select_ok : bool) : Action unit :=
  match user with
  | None => ret tt
  | Some u =>
      (w <- get;;
       set (on_ui (setSubmitting true));;
       let companyName := Js.trim (form_company_name form) in
       let role := Js.trim (form_role form) in
       if Js.falsy companyName || Js.falsy role then
         emit (toast_error "Company name and role are required");;
         set (on_ui (setSubmitting false))
       else
         let appData :=
           {| data_user_id := user_id_of u; data_company_name := companyName;
              data_role := role; data_job_type := form_job_type form;
              data_status := form_status form;
              data_application_link := or_null (form_application_link form);
              data_apply_date := form_apply_date form;
              data_interview_date := form_interview_date form;
              data_notes := or_null (form_notes form) |} in
         finally
           (try_catch
              (match editingApp (ui w) with
               | Some editing =>
                   emit (request (Update "applications" (id editing) appData));;
                   ok <- write write_ok appData
                           (λ applied, map (updated (id editing) appData applied));;
                   throw_unless ok;;
                   emit (toast_success "Application updated")
               | None =>
                   emit (request (Insert "applications" appData));;
                   ok <- write write_ok appData
                           (λ applied t, t ++ [inserted fresh_id now appData applied]);;
                   throw_unless ok;;
                   emit (toast_success "Application added")
               end;;
               fetchApplications user select_ok;;
               set (on_ui (setIsDialogOpen false));;
               set (on_ui (setEditingApp None)))
              (λ _, emit (toast_error
                            match editingApp (ui w) with
                            | Some _ => "Failed to update application"
                            | None => "Failed to add application"
                            end)))
           (set (on_ui (setSubmitting false))))%handler
  end.

(** The row-level policy on delete: only the caller's own rows match. *)
Definition delete_own (user : option User) (x : string)
    (rows : list Application) : list Application :=
  match user with
  | Some u => filter (λ r, ¬ (id r = x ∧ user_id r = user_id_of u)) rows
  | None => rows
  end.

(** [handleDelete] *)
Definition handleDelete (user : option User) (delete_ok select_ok : bool)
    : Action unit :=
  (w <- get;;
   match appId (deleteConfirm (ui w)) with
   | None => ret tt
   | Some x =>
       if Js.falsy x then ret tt
       else
         finally
           (try_catch
              (emit (request (Delete "applications" x));;
               (if delete_ok then set (on_table (delete_own user x))
                else throw backend_error);;
               emit (toast_success "Application deleted");;
               fetchApplications user select_ok)
              (λ _, emit (toast_error "Failed to delete application")))
           (set (on_ui (setDeleteConfirm {| open := false; appId := None |})))
   end)%handler.

(** [filteredApps] *)
Definition filteredApps (st : State) : list Application :=
  List.filter
    (λ app,
       if negb (filterStatus st =? "all")%string
          && negb (status app =? filterStatus st)%string then false
       else if negb (filterType st =? "all")%string
               && negb (job_type app =? filterType st)%string then false
       else true)
    (applications st).

(** Instants are milliseconds since the epoch.  [new Date(text)] for the
    text of a DATE column is midnight UTC of that day. *)
Definition ms_per_day : Z := 86400000.

Definition midnight (d : Day) : Z := d * ms_per_day.

(** [addDays(t, n)] of date-fns: the same time of day [n] days later (no
    change of the local offset in between). *)
Definition addDays (t : Z) (n : Z) : Z := t + n * ms_per_day.

(** [upcomingInterviews]; [now] is the instant [new Date()] gives. *)
Definition upcomingInterviews (now : Z) (st : State) : list Application :=
  List.filter
    (λ app,
       match interview_date app with
       | Some d =>
           (status app =? "interview")%string
           && (now <? midnight d)
           && (midnight d <? addDays now 7)
       | None => false
       end)
    (applications st).

(** *** The earlier version of the page (no validation, no confirmation) *)

(** [handleSubmit] of the earlier version.  Its state has no [submitting]
    and no [deleteConfirm]; those fields of [State] are left alone. *)
Definition fetchApplications_early (user : option User) (select_ok : bool)
    : Action unit :=
  match user with
  | None => ret tt
  | Some u =>
      (set (on_ui (setLoading true));;
       emit (request (Select "applications"));;
       w <- get;;
       (if select_ok then
          set (on_ui (setApplications
                        (select_own user_id apply_date (user_id_of u) (table w))))
        else emit (toast_error "Failed to fetch applications"));;
       set (on_ui (setLoading false)))%handler
  end.

Definition handleSubmit_early (user : option User) (form : Form)
    (write_ok : bool) (fresh_id now : string) (select_ok : bool) : Action unit :=
  match user with
  | None => ret tt
  | Some u =>
      (w <- get;;
       let appData :=
         {| data_user_id := user_id_of u;
            data_company_name := form_company_name form;
            data_role := form_role form; data_job_type := form_job_type form;
            data_status := form_status form;
            data_application_link := or_null (form_application_link form);
            data_apply_date := form_apply_date form;
            data_interview_date := form_interview_date form;
            data_notes := or_null (form_notes form) |} in
       match editingApp (ui w) with
       | Some editing =>
           emit (request (Update "applications" (id editing) appData));;
           ok <- write write_ok appData
                   (λ applied, map (updated (id editing) appData applied));;
           if ok then
             emit (toast_success "Application updated");;
             fetchApplications_early user select_ok
           else emit (toast_error "Failed to update application")
       | None =>
           emit (request (Insert "applications" appData));;
           ok <- write write_ok appData
                   (λ applied t, t ++ [inserted fresh_id now appData applied]);;
           if ok then
             emit (toast_success "Application added");;
             fetchApplications_early user select_ok
           else emit (toast_error "Failed to add application")
       end;;
       set (on_ui (setIsDialogOpen false));;
       set (on_ui (setEditingApp None)))%handler
  end.

End Applications.

(** ** Learning.tsx *)
Module Learning.

(** A row of [learning_goals]; [created_at] as a time stamp. *)
Record LearningGoal := {
  id : string;
  user_id : string;
  skill_name : string;
  topic_name : string;
  status : string;
  start_date : option Day;
  target_date : option Day;
  resource_links : option (list string);
  notes : option string;
  created_at : Z
}.

Record DeleteConfirm := { open : bool; goalId : option string }.

Record State := {
  goals : list LearningGoal;
  loading : bool;
  submitting : bool;
  isDialogOpen : bool;
  editingGoal : option LearningGoal;
  filterSkill : string;
  filterStatus : string;
  deleteConfirm : DeleteConfirm
}.

Definition setGoals v st :=
  {| goals := v; loading := loading st; submitting := submitting st;
     isDialogOpen := isDialogOpen st; editingGoal := editingGoal st;
     filterSkill := filterSkill st; filterStatus := filterStatus st;
     deleteConfirm := deleteConfirm st |}.
Definition setLoading v st :=
  {| goals := goals st; loading := v; submitting := submitting st;
     isDialogOpen := isDialogOpen st; editingGoal := editingGoal st;
     filterSkill := filterSkill st; filterStatus := filterStatus st;
     deleteConfirm := deleteConfirm st |}.
Definition setSubmitting v st :=
  {| goals := goals st; loading := loading st; submitting := v;
     isDialogOpen := isDialogOpen st; editingGoal := editingGoal st;
     filterSkill := filterSkill st; filterStatus := filterStatus st;
     deleteConfirm := deleteConfirm st |}.
Definition setIsDialogOpen v st :=
  {| goals := goals st; loading := loading st; submitting := submitting st;
     isDialogOpen := v; editingGoal := editingGoal st;
     filterSkill := filterSkill st; filterStatus := filterStatus st;
     deleteConfirm := deleteConfirm st |}.
Definition setEditingGoal v st :=
  {| goals := goals st; loading := loading st; submitting := submitting st;
     isDialogOpen := isDialogOpen st; editingGoal := v;
     filterSkill := filterSkill st; filterStatus := filterStatus st;
     deleteConfirm := deleteConfirm st |}.

Record World := { ui : State; learning_goals : list LearningGoal }.

Definition on_ui (f : State → State) (w : World) : World :=
  {| ui := f (ui w); learning_goals := learning_goals w |}.
Definition on_table (f : list LearningGoal → list LearningGoal) (w : World) : World :=
  {| ui := ui w; learning_goals := f (learning_goals w) |}.

Record Form := {
  form_topic_name : string;
  form_skill_name : string;
  form_status : string;
  form_start_date : option Day;
  form_target_date : option Day;
  form_resource_links : string;
  form_notes : string
}.

(** [goalData] *)
Record GoalData := {
  data_user_id : string;
  data_skill_name : string;
  data_topic_name : string;
  data_status : string;
  data_start_date : option Day;
  data_target_date : option Day;
  data_resource_links : option (list string);
  data_notes : option string
}.

Definition Action := Handler World (Effect GoalData).

(** [fetchGoals] *)
Definition fetchGoals (user : option User) (select_ok : bool) : Action unit :=
  match user with
  | None => ret tt
  | Some u =>
      (set (on_ui (setLoading true));;
       finally
         (try_catch
            (emit (request (Select "learning_goals"));;
             w <- get;;
             if select_ok then
               set (on_ui (setGoals
                             (select_own user_id created_at (user_id_of u)
                                (learning_goals w))))
             else throw backend_error)
            (λ _, emit (toast_error "Failed to fetch learning goals")))
         (set (on_ui (setLoading false))))%handler
  end.

Definition inserted (fresh_id : string) (now : Z) (d : GoalData) : LearningGoal :=
  {| id := fresh_id; user_id := data_user_id d; skill_name := data_skill_name d;
     topic_name := data_topic_name d; status := data_status d;
     start_date := data_start_date d; target_date := data_target_date d;
     resource_links := data_resource_links d; notes := data_notes d;
     created_at := now |}.

Definition updated (x : string) (d : GoalData) (r : LearningGoal) : LearningGoal :=
  if bool_decide (id r = x) then
    {| id := id r; user_id := data_user_id d; skill_name := data_skill_name d;
       topic_name := data_topic_name d; status := data_status d;
       start_date := data_start_date d; target_date := data_target_date d;
       resource_links := data_resource_links d; notes := data_notes d;
       created_at := created_at r |}
  else r.

(** [handleSubmit] *)
Definition handleSubmit (user : option User) (form : Form)
    (write_ok : bool) (fresh_id : string) (now : Z) (select_ok : bool)
    : Action unit :=
  match user with
  | None => ret tt
  | Some u =>
      (w <- get;;
       set (on_ui (setSubmitting true));;
       let topicName := Js.trim (form_topic_name form) in
       let skillName := form_skill_name form in
       if Js.falsy topicName then
         emit (toast_error "Topic name is required");;
         set (on_ui (setSubmitting false))
       else if Js.falsy skillName then
         emit (toast_error "Please select a skill");;
         set (on_ui (setSubmitting false))
       else
         let resourceLinksRaw := form_resource_links form in
         let resourceLinks :=
           if Js.falsy resourceLinksRaw then None
           else Some (List.filter (λ link, negb (Js.falsy (Js.trim link)))
                        (Js.split "010" resourceLinksRaw)) in
         let goalData :=
           {| data_user_id := user_id_of u; data_skill_name := skillName;
              data_topic_name := topicName; data_status := form_status form;
              data_start_date := form_start_date form;
              data_target_date := form_target_date form;
              data_resource_links := resourceLinks;
              data_notes := if Js.falsy (form_notes form) then None
                            else Some (form_notes form) |} in
         finally
           (try_catch
              (match editingGoal (ui w) with
               | Some editing =>
                   emit (request (Update "learning_goals" (id editing) goalData));;
                   (if write_ok
                    then set (on_table (map (updated (id editing) goalData)))
                    else throw backend_error);;
                   emit (toast_success "Goal updated successfully")
               | None =>
                   emit (request (Insert "learning_goals" goalData));;
                   (if write_ok
                    then set (on_table (λ t, t ++ [inserted fresh_id now goalData]))
                    else throw backend_error);;
                   emit (toast_success "Goal created successfully")
               end;;
               fetchGoals user select_ok;;
               set (on_ui (setIsDialogOpen false));;
               set (on_ui (setEditingGoal None)))
              (λ _, emit (toast_error
                            match editingGoal (ui w) with
                            | Some _ => "Failed to update goal"
                            | None => "Failed to create goal"
                            end)))
           (set (on_ui (setSubmitting false))))%handler
  end.

Definition setDeleteConfirm v st :=
  {| goals := goals st; loading := loading st; submitting := submitting st;
     isDialogOpen := isDialogOpen st; editingGoal := editingGoal st;
     filterSkill := filterSkill st; filterStatus := filterStatus st;
     deleteConfirm := v |}.

(** The row-level policy on delete: only the caller's own rows match. *)
Definition delete_own (user : option User) (x : string)
    (rows : list LearningGoal) : list LearningGoal :=
  match user with
  | Some u => filter (λ r, ¬ (id r = x ∧ user_id r = user_id_of u)) rows
  | None => rows
  end.

(** [handleDelete] *)
Definition handleDelete (user : option User) (delete_ok select_ok : bool)
    : Action unit :=
  (w <- get;;
   match goalId (deleteConfirm (ui w)) with
   | None => ret tt
   | Some x =>
       if Js.falsy x then ret tt
       else
         finally
           (try_catch
              (emit (request (Delete "learning_goals" x));;
               (if delete_ok then set (on_table (delete_own user x))
                else throw backend_error);;
               emit (toast_success "Goal deleted");;
               fetchGoals user select_ok)
              (λ _, emit (toast_error "Failed to delete goal")))
           (set (on_ui (setDeleteConfirm {| open := false; goalId := None |})))
   end)%handler.

(** [filteredGoals] *)
Definition filteredGoals (st : State) : list LearningGoal :=
  List.filter
    (λ goal,
       if negb (filterSkill st =? "all")%string
          && negb (skill_name goal =? filterSkill st)%string then false
       else if negb (filterStatus st =? "all")%string
               && negb (status goal =? filterStatus st)%string then false
       else true)
    (goals st).

Definition skills : list string :=
  ["DSA"; "Web Development"; "Blockchain"; "SAP"; "Machine Learning";
   "System Design"; "Databases"; "Other"].

(** An element of [skillProgress]. *)
Record Progress := {
  skill : string;
  total : nat;
  completed : nat;
  percentage : float
}.

Section SkillProgress.

(** The runtime's [Math.round]. *)
Variable Math_round : float → float.

(** [skillProgress]: [map] to an entry or [null], then [filter(Boolean)]. *)
Definition skillProgress (st : State) : list Progress :=
  omap
    (λ skill,
       let skillGoals := List.filter (λ g, (skill_name g =? skill)%string) (goals st) in
       if (length skillGoals =? 0)%nat then None
       else
         let completed :=
           length (List.filter (λ g, (status g =? "completed")%string) skillGoals) in
         let ratio :=
           (PrimFloat.of_uint63 (Uint63.of_Z (Z.of_nat completed))
            / PrimFloat.of_uint63 (Uint63.of_Z (Z.of_nat (length skillGoals))))%float in
         Some {| skill := skill; total := length skillGoals; completed := completed;
                 percentage := Math_round (ratio * 100)%float |})
    skills.

End SkillProgress.

End Learning.

(** ** MockInterviews.tsx: the [MockTests] component *)
Module MockTests.

Record Question := {
  id : Z;
  question : string;
  options : list (string * string);
  correctAnswer : string;
  explanation : string
}.

(** An element of a JavaScript array of strings: a string, or [undefined]
    (a hole, or an index past the end). *)
Definition Slot := option string.

(** [a[i]] *)
Definition js_get (a : list Slot) (i : nat) : Slot := mjoin (a !! i).

(** [a[i] = x] on a copy of [a]: an index past the end extends the array
    and leaves holes in between. *)
Definition js_set (a : list Slot) (i : nat) (x : string) : list Slot :=
  if (i <? length a)%nat then <[i := Some x]> a
  else a ++ replicate (i - length a) None ++ [Some x].

(** A row of [mock_tests]. *)
Record MockTest := {
  test_id : string;
  category : string;
  subcategory : option string;
  difficulty : string;
  total_questions : nat;
  correct_answers : nat;
  time_taken : option Z;
  max_time : Z;
  questions : list Question;
  answers : list Slot;
  status : string;
  score : float;
  created_at : string;
  completed_at : option string
}.

Inductive View := setup | test | result | history.

#[global] Instance View_eq_dec : EqDecision View.
Proof. solve_decision. Defined.

Record State := {
  view : View;
  loading : bool;
  testHistory : list MockTest;
  currentTest : option MockTest;
  currentQuestionIndex : nat;
  selectedAnswers : list Slot;
  timeRemaining : Z;
  setup_category : string;
  setup_subcategory : string;
  setup_difficulty : string;
  numQuestions : nat
}.

Definition setView v st :=
  {| view := v; loading := loading st; testHistory := testHistory st;
     currentTest := currentTest st; currentQuestionIndex := currentQuestionIndex st;
     selectedAnswers := selectedAnswers st; timeRemaining := timeRemaining st;
     setup_category := setup_category st; setup_subcategory := setup_subcategory st;
     setup_difficulty := setup_difficulty st; numQuestions := numQuestions st |}.
Definition setLoading v st :=
  {| view := view st; loading := v; testHistory := testHistory st;
     currentTest := currentTest st; currentQuestionIndex := currentQuestionIndex st;
     selectedAnswers := selectedAnswers st; timeRemaining := timeRemaining st;
     setup_category := setup_category st; setup_subcategory := setup_subcategory st;
     setup_difficulty := setup_difficulty st; numQuestions := numQuestions st |}.
Definition setTestHistory v st :=
  {| view := view st; loading := loading st; testHistory := v;
     currentTest := currentTest st; currentQuestionIndex := currentQuestionIndex st;
     selectedAnswers := selectedAnswers st; timeRemaining := timeRemaining st;
     setup_category := setup_category st; setup_subcategory := setup_subcategory st;
     setup_difficulty := setup_difficulty st; numQuestions := numQuestions st |}.
Definition setCurrentTest v st :=
  {| view := view st; loading := loading st; testHistory := testHistory st;
     currentTest := v; currentQuestionIndex := currentQuestionIndex st;
     selectedAnswers := selectedAnswers st; timeRemaining := timeRemaining st;
     setup_category := setup_category st; setup_subcategory := setup_subcategory st;
     setup_difficulty := setup_difficulty st; numQuestions := numQuestions st |}.
Definition setCurrentQuestionIndex v st :=
  {| view := view st; loading := loading st; testHistory := testHistory st;
     currentTest := currentTest st; currentQuestionIndex := v;
     selectedAnswers := selectedAnswers st; timeRemaining := timeRemaining st;
     setup_category := setup_category st; setup_subcategory := setup_subcategory st;
     setup_difficulty := setup_difficulty st; numQuestions := numQuestions st |}.
Definition setSelectedAnswers v st :=
  {| view := view st; loading := loading st; testHistory := testHistory st;
     currentTest := currentTest st; currentQuestionIndex := currentQuestionIndex st;
     selectedAnswers := v; timeRemaining := timeRemaining st;
     setup_category := setup_category st; setup_subcategory := setup_subcategory st;
     setup_difficulty := setup_difficulty st; numQuestions := numQuestions st |}.
Definition setTimeRemaining v st :=
  {| view := view st; loading := loading st; testHistory := testHistory st;
     currentTest := currentTest st; currentQuestionIndex := currentQuestionIndex st;
     selectedAnswers := selectedAnswers st; timeRemaining := v;
     setup_category := setup_category st; setup_subcategory := setup_subcategory st;
     setup_difficulty := setup_difficulty st; numQuestions := numQuestions st |}.

(** Request bodies. *)
Record GenerateTest := {
  gen_category : string;
  gen_subcategory : option string;
  gen_difficulty : string;
  gen_numQuestions : nat
}.

Record NewTest := {
  new_user_id : string;
  new_category : string;
  new_subcategory : option string;
  new_difficulty : string;
  new_total_questions : nat;
  new_max_time : Z;
  new_questions : list Question;
  new_status : string
}.

Record TestResult := {
  res_correct_answers : nat;
  res_time_taken : Z;
  res_answers : list Slot;
  res_status : string;
  res_score : float;
  res_completed_at : string
}.

Inductive Body :=
  | generate (g : GenerateTest)
  | new_test (n : NewTest)
  | test_result (r : TestResult)
  | no_body.

Definition Action := Handler State (Effect Body).

(** A count as a JavaScript number. *)
Definition number_of (n : nat) : float :=
  PrimFloat.of_uint63 (Uint63.of_Z (Z.of_nat n)).

(** The [forEach] of [handleSubmitTest]: [index] is the index of the first
    of [qs], [correctCount] the counter so far. *)
Fixpoint count_correct (selected : list Slot) (index : nat) (qs : list Question)
    (correctCount : nat) : nat :=
  match qs with
  | [] => correctCount
  | q :: rest =>
      count_correct selected (S index) rest
        (if bool_decide (js_get selected index = Some (correctAnswer q))
         then S correctCount else correctCount)
  end.

(** [handleSubmitTest] as the render [render] defines it: whenever it is
    called, the function reads the [currentTest], [selectedAnswers] and
    [timeRemaining] of that render, and its setters act on the state at
    the time of the call.  [now] is the clock's [toISOString()],
    [update_ok] tells whether the update succeeds. *)
Definition handleSubmitTest_of (render : State) (user : option User) (now : string)
    (update_ok : bool) : Action unit :=
  match currentTest render, user with
  | Some current, Some _ =>
      (set (setLoading true);;
       finally
         (try_catch
            (let qs := questions current in
             let correctCount := count_correct (selectedAnswers render) 0 qs 0 in
             let score :=
               (number_of correctCount / number_of (length qs) * 100)%float in
             let timeTaken := max_time current - timeRemaining render in
             emit (request
                     (Update "mock_tests" (test_id current)
                        (test_result
                           {| res_correct_answers := correctCount;
                              res_time_taken := timeTaken;
                              res_answers := selectedAnswers render;
                              res_status := "completed";
                              res_score := score;
                              res_completed_at := now |})));;
             (if update_ok then ret tt else throw backend_error);;
             set (setCurrentTest
                    (Some {| test_id := test_id current; category := category current;
                             subcategory := subcategory current;
                             difficulty := difficulty current;
                             total_questions := total_questions current;
                             correct_answers := correctCount;
                             time_taken := Some timeTaken;
                             max_time := max_time current;
                             questions := questions current;
                             answers := selectedAnswers render;
                             status := "completed";
                             score := score;
                             created_at := created_at current;
                             completed_at := completed_at current |}));;
             set (setView result);;
             emit (toast_success "Test completed!"))
            (λ _, emit (console_error "Error submitting test:");;
                  emit (toast_error "Failed to submit test")))
         (set (setLoading false)))%handler
  | _, _ => ret tt
  end.

(** [handleSubmitTest] as the Submit button calls it: the function of the
    render on screen. *)
Definition handleSubmitTest (user : option User) (now : string) (update_ok : bool)
    : Action unit :=
  (st <- get;; handleSubmitTest_of st user now update_ok)%handler.

(** The guard of the timer effect: an interval is running only then. *)
Definition timer_running (st : State) : bool :=
  bool_decide (view st = test) && bool_decide (is_Some (currentTest st))
  && (0 <? timeRemaining st).

(** The updater passed to [setTimeRemaining] on a tick: the next value, and
    whether it called [handleSubmitTest]. *)
Definition tick_update (prev : Z) : Z * bool :=
  if prev <=? 1 then (0, true) else (prev - 1, false).

(** One firing of the interval that the timer effect created in the render
    [render]; returns whether [handleSubmitTest] was called.  The effect
    runs again only when [view], [currentTest] or [timeRemaining] is set,
    so the callback, and the [handleSubmitTest] it calls, are those of
    [render]: answers selected since then are on screen and not in that
    function.  The updater gets the [timeRemaining] of the state. *)
Definition tick (render : State) (user : option User) (now : string)
    (update_ok : bool) : Action bool :=
  if timer_running render then
    (st <- get;;
     let '(next, submit) := tick_update (timeRemaining st) in
     (if submit then handleSubmitTest_of render user now update_ok else ret tt);;
     set (setTimeRemaining next);;
     ret submit)%handler
  else ret false.

(** What the generator and the insert answer. *)
Inductive Generated :=
  | fetch_failed (message : string)
  | not_ok (error : string)
  | generated (questions : list Question).

(** [startTest]; [fresh_id] and [now] are the id and timestamp the backend
    gives the new row, [insert_ok] tells whether the insert succeeds. *)
Definition startTest (user : option User) (response : Generated)
    (insert_ok : bool) (fresh_id now : string) : Action unit :=
  match user with
  | None => ret tt
  | Some u =>
      (st <- get;;
       set (setLoading true);;
       finally
         (try_catch
            (let sub := if bool_decide (setup_category st = "technical")
                        then Some (setup_subcategory st) else None in
             emit (request
                     (Post "generate-test"
                        (generate {| gen_category := setup_category st;
                                     gen_subcategory := sub;
                                     gen_difficulty := setup_difficulty st;
                                     gen_numQuestions := numQuestions st |})));;
             match response with
             | fetch_failed message => throw (Error message)
             | not_ok error => throw (Error (Js.or_else error "Failed to generate test"))
             | generated qs =>
                 let maxTime := Z.of_nat (numQuestions st) * 60 in
                 emit (request
                         (Insert "mock_tests"
                            (new_test {| new_user_id := user_id_of u;
                                         new_category := setup_category st;
                                         new_subcategory := sub;
                                         new_difficulty := setup_difficulty st;
                                         new_total_questions := numQuestions st;
                                         new_max_time := maxTime;
                                         new_questions := qs;
                                         new_status := "in_progress" |})));;
                 (if insert_ok then ret tt else throw backend_error);;
                 set (setCurrentTest
                        (Some {| test_id := fresh_id; category := setup_category st;
                                 subcategory := sub;
                                 difficulty := setup_difficulty st;
                                 total_questions := numQuestions st;
                                 correct_answers := 0;
                                 time_taken := None;
                                 max_time := maxTime;
                                 questions := qs;
                                 answers := [];
                                 status := "in_progress";
                                 score := 0%float;
                                 created_at := now;
                                 completed_at := None |}));;
                 set (setSelectedAnswers (replicate (length qs) (Some "")));;
                 set (setCurrentQuestionIndex 0);;
                 set (setTimeRemaining maxTime);;
                 set (setView test);;
                 emit (toast_success "Test started! Good luck!")
             end)
            (λ error,
               emit (console_error "Error starting test:");;
               emit (toast_error (message_or error "Failed to start test"))))
         (set (setLoading false)))%handler
  end.

(** [handleAnswerSelect] *)
Definition handleAnswerSelect (answer : string) (st : State) : State :=
  let newAnswers := js_set (selectedAnswers st) (currentQuestionIndex st) answer in
  setSelectedAnswers newAnswers st.

(** [currentQuestion] *)
Definition currentQuestion (st : State) : option Question :=
  current ← currentTest st; questions current !! currentQuestionIndex st.

(** The test view is on screen. *)
Definition test_view (st : State) : Prop :=
  view st = test ∧ is_Some (currentQuestion st).

(** What the user can do in the test view: the option buttons of the
    current question, Previous (disabled on the first question), Next
    (shown before the last of [total_questions]) and the numbered buttons
    of the question navigator. *)
Inductive click : State → State → Prop :=
  | click_option st key text q :
      test_view st →
      currentQuestion st = Some q → (key, text) ∈ options q →
      click st (handleAnswerSelect key st)
  | click_previous st :
      test_view st → currentQuestionIndex st ≠ 0%nat →
      click st (setCurrentQuestionIndex (Nat.max 0 (currentQuestionIndex st - 1)) st)
  | click_next st current :
      test_view st → currentTest st = Some current →
      (currentQuestionIndex st < total_questions current - 1)%nat →
      click st (setCurrentQuestionIndex (currentQuestionIndex st + 1) st)
  | click_navigator st current index :
      test_view st → currentTest st = Some current →
      (index < length (questions current))%nat →
      click st (setCurrentQuestionIndex index st).

(** [fetchTestHistory]; [data] is what the select answers, [None] for an
    error. *)
Definition fetchTestHistory (user : option User) (data : option (list MockTest))
    : Action unit :=
  match user with
  | None => ret tt
  | Some _ =>
      (try_catch
         (emit (request (Select "mock_tests"));;
          match data with
          | Some rows => set (setTestHistory rows)
          | None => throw backend_error
          end)
         (λ _, emit (console_error "Error fetching test history:")))%handler
  end.

(** [s.padStart(n, c)] for a one-character filler. *)
Definition padStart (n : nat) (c : ascii) (s : string) : string :=
  string_of_list_ascii (replicate (n - String.length s) c) +:+ s.

(** [formatTime]: [Math.floor(seconds / 60)] rounds down, [%] takes the
    sign of [seconds]; [toString()] writes an integer in decimal. *)
Definition formatTime (seconds : Z) : string :=
  let mins := seconds / 60 in
  let secs := Z.rem seconds 60 in
  padStart 2 "0" (pretty mins) +:+ ":" +:+ padStart 2 "0" (pretty secs).

(** An entry of the question review in the result view. *)
Record Reviewed := {
  reviewed : Question;
  userAnswer : Slot;
  isCorrect : bool
}.

(** [currentTest.questions.map((q, index) => ...)] of the result view. *)
Definition review (current : MockTest) : list Reviewed :=
  imap
    (λ index q,
       let userAnswer := js_get (answers current) index in
       {| reviewed := q; userAnswer := userAnswer;
          isCorrect := bool_decide (userAnswer = Some (correctAnswer q)) |})
    (questions current).

End MockTests.

(** ** MockInterviews.tsx: the [MockInterviews] component *)
Module MockInterviews.

Inductive Role := user | assistant.

#[global] Instance Role_eq_dec : EqDecision Role.
Proof. solve_decision. Defined.

Record Message := { role : Role; content : string }.

#[global] Instance Message_eq_dec : EqDecision Message.
Proof. solve_decision. Defined.

(** A row of [mock_interviews]; [feedback] is kept as the JSON it is. *)
Record MockInterview := {
  id : string;
  interview_type : string;
  target_role : option string;
  difficulty : string;
  messages_of : list Message;
  questions_asked : nat;
  feedback_of : option Json;
  status : string
}.

Inductive View := setup | interview | feedback_view | history.

Record State := {
  view : View;
  loading : bool;
  sendingMessage : bool;
  interviewHistory : list MockInterview;
  currentInterview : option MockInterview;
  messages : list Message;
  inputMessage : string;
  feedback : option Json;
  interviewType : string;
  targetRole : string;
  setup_difficulty : string
}.

Definition setView v st :=
  {| view := v; loading := loading st; sendingMessage := sendingMessage st;
     interviewHistory := interviewHistory st; currentInterview := currentInterview st;
     messages := messages st; inputMessage := inputMessage st; feedback := feedback st;
     interviewType := interviewType st; targetRole := targetRole st;
     setup_difficulty := setup_difficulty st |}.
Definition setLoading v st :=
  {| view := view st; loading := v; sendingMessage := sendingMessage st;
     interviewHistory := interviewHistory st; currentInterview := currentInterview st;
     messages := messages st; inputMessage := inputMessage st; feedback := feedback st;
     interviewType := interviewType st; targetRole := targetRole st;
     setup_difficulty := setup_difficulty st |}.
Definition setSendingMessage v st :=
  {| view := view st; loading := loading st; sendingMessage := v;
     interviewHistory := interviewHistory st; currentInterview := currentInterview st;
     messages := messages st; inputMessage := inputMessage st; feedback := feedback st;
     interviewType := interviewType st; targetRole := targetRole st;
     setup_difficulty := setup_difficulty st |}.
Definition setInterviewHistory v st :=
  {| view := view st; loading := loading st; sendingMessage := sendingMessage st;
     interviewHistory := v; currentInterview := currentInterview st;
     messages := messages st; inputMessage := inputMessage st; feedback := feedback st;
     interviewType := interviewType st; targetRole := targetRole st;
     setup_difficulty := setup_difficulty st |}.
Definition setCurrentInterview v st :=
  {| view := view st; loading := loading st; sendingMessage := sendingMessage st;
     interviewHistory := interviewHistory st; currentInterview := v;
     messages := messages st; inputMessage := inputMessage st; feedback := feedback st;
     interviewType := interviewType st; targetRole := targetRole st;
     setup_difficulty := setup_difficulty st |}.
Definition setMessages v st :=
  {| view := view st; loading := loading st; sendingMessage := sendingMessage st;
     interviewHistory := interviewHistory st; currentInterview := currentInterview st;
     messages := v; inputMessage := inputMessage st; feedback := feedback st;
     interviewType := interviewType st; targetRole := targetRole st;
     setup_difficulty := setup_difficulty st |}.
Definition setInputMessage v st :=
  {| view := view st; loading := loading st; sendingMessage := sendingMessage st;
     interviewHistory := interviewHistory st; currentInterview := currentInterview st;
     messages := messages st; inputMessage := v; feedback := feedback st;
     interviewType := interviewType st; targetRole := targetRole st;
     setup_difficulty := setup_difficulty st |}.

(** The component, and the transcript and question count stored in the
    row of the interview in progress. *)
Record World := {
  ui : State;
  stored_messages : list Message;
  stored_questions_asked : nat
}.

Definition on_ui (f : State → State) (w : World) : World :=
  {| ui := f (ui w); stored_messages := stored_messages w;
     stored_questions_asked := stored_questions_asked w |}.

(** Request bodies. *)
Record Chat := {
  chat_messages : list Message;
  chat_interviewType : string;
  chat_targetRole : option string;
  chat_difficulty : string;
  chat_action : string
}.

Record NewInterview := {
  new_user_id : string;
  new_interview_type : string;
  new_target_role : string;
  new_difficulty : string;
  new_messages : list Message;
  new_status : string
}.

Record Transcript := {
  upd_messages : list Message;
  upd_questions_asked : nat
}.

Inductive Body :=
  | chat (c : Chat)
  | new_interview (n : NewInterview)
  | transcript (t : Transcript).

Definition Action := Handler World (Effect Body).

(** What the interview function answers: the fetch fails, the status is
    not ok (with the [error] of the body), or a stream of decoded chunks
    that ends or breaks with an error. *)
Inductive Reply :=
  | fetch_failed (message : string)
  | not_ok (error : string)
  | streamed (chunks : list string) (broken : option string).

(** [update(...).eq("id", currentInterview.id)]; its result is not looked
    at by the callers. *)
Definition store (row_id : string) (update_ok : bool) (t : Transcript) : Action unit :=
  (emit (request (Update "mock_interviews" row_id (transcript t)));;
   if update_ok then
     set (λ w, {| ui := ui w; stored_messages := upd_messages t;
                  stored_questions_asked := upd_questions_asked t |})
   else ret tt)%handler.

Section Streaming.

(** The runtime's [JSON.parse]; whether the number a lexeme denotes is
    zero, and the text of that number ([String(n)]). *)
Variable JSON_parse : string → option Json.
Variable is_zero : string → bool.
Variable Number_text : string → string.

(** [String(v)], the text that [+=] appends to a string: an array gives
    the texts of its elements joined by commas, [null] among them giving
    nothing, and an object gives [[object Object]]. *)
Fixpoint text_of (v : Json) : string :=
  match v with
  | JNull => "null"
  | JBool b => if b then "true" else "false"
  | JNumber lexeme => Number_text lexeme
  | JString s => s
  | JArray items =>
      String.concat ","
        (List.map (λ item, match item with JNull => "" | _ => text_of item end) items)
  | JObject _ => "[object Object]"
  end.

(** [json.choices?.[0]?.delta?.content] when it is truthy, as the text
    that [aiMessage += content] appends: [null], [false], zero and the
    empty string are not truthy, every array and object is. *)
Definition delta_content (json : Json) : option string :=
  match json_get "content" (json_get "delta" (json_first (json_get "choices" (Some json)))) with
  | None | Some JNull | Some (JBool false) => None
  | Some (JNumber lexeme) => if is_zero lexeme then None else Some (Number_text lexeme)
  | Some (JString s) => if Js.falsy s then None else Some s
  | Some v => Some (text_of v)
  end.

(** The token a line of the stream carries, if any. *)
Definition token (line : string) : option string :=
  if Js.startsWith line "data: " && negb (line =? "data: [DONE]")%string then
    match JSON_parse (Js.slice 6 line) with
    | Some json => delta_content json
    | None => None
    end
  else None.

(** The inner [for] loop; [before] are the messages shown before the
    assistant's partial message. *)
Fixpoint read_lines (before : list Message) (lines : list string) (aiMessage : string)
    : Action string :=
  match lines with
  | [] => ret aiMessage
  | line :: rest =>
      match token line with
      | Some content =>
          (let aiMessage := aiMessage +:+ content in
           set (on_ui (setMessages
                         (before ++ [{| role := assistant; content := aiMessage |}])));;
           read_lines before rest aiMessage)%handler
      | None => read_lines before rest aiMessage
      end
  end.

(** The [while] loop over the reader. *)
Fixpoint read_chunks (before : list Message) (chunks : list string) (aiMessage : string)
    : Action string :=
  match chunks with
  | [] => ret aiMessage
  | chunk :: rest =>
      (aiMessage <- read_lines before (Js.split "010" chunk) aiMessage;;
       read_chunks before rest aiMessage)%handler
  end.

Definition read_stream (before : list Message) (chunks : list string)
    (broken : option string) : Action string :=
  (aiMessage <- read_chunks before chunks "";;
   match broken with
   | Some message => throw (Error message)
   | None => ret aiMessage
   end)%handler.

(** [startInterview] *)
Definition startInterview (who : option User) (insert : option MockInterview)
    (reply : Reply) (update_ok : bool) : Action unit :=
  match who with
  | None => ret tt
  | Some u =>
      (w <- get;;
       set (on_ui (setLoading true));;
       finally
         (try_catch
            (emit (request
                     (Insert "mock_interviews"
                        (new_interview
                           {| new_user_id := user_id_of u;
                              new_interview_type := interviewType (ui w);
                              new_target_role := targetRole (ui w);
                              new_difficulty := setup_difficulty (ui w);
                              new_messages := [];
                              new_status := "in_progress" |})));;
             match insert with
             | None => throw backend_error
             | Some interviewData =>
                 set (λ w, {| ui := ui w; stored_messages := [];
                              stored_questions_asked := 0 |});;
                 emit (request
                         (Post "mock-interview"
                            (chat {| chat_messages := [];
                                     chat_interviewType := interviewType (ui w);
                                     chat_targetRole := Some (targetRole (ui w));
                                     chat_difficulty := setup_difficulty (ui w);
                                     chat_action := "start" |})));;
                 aiMessage <-
                   match reply with
                   | fetch_failed message => throw (Error message)
                   | not_ok error => throw (Error (Js.or_else error "Failed to start interview"))
                   | streamed chunks broken => read_stream [] chunks broken
                   end;;
                 let initialMessages := [{| role := assistant; content := aiMessage |}] in
                 set (on_ui (setMessages initialMessages));;
                 store (id interviewData) update_ok
                   {| upd_messages := initialMessages; upd_questions_asked := 1 |};;
                 set (on_ui (setCurrentInterview (Some interviewData)));;
                 set (on_ui (setView interview));;
                 emit (toast_success "Interview started! Good luck!")
             end)
            (λ error,
               emit (console_error "Error starting interview:");;
               emit (toast_error (message_or error "Failed to start interview"))))
         (set (on_ui (setLoading false))))%handler
  end.

(** [sendMessage] *)
Definition sendMessage (reply : Reply) (update_ok : bool) : Action unit :=
  (w <- get;;
   match currentInterview (ui w) with
   | Some current =>
       if Js.falsy (Js.trim (inputMessage (ui w))) || sendingMessage (ui w) then ret tt
       else
         let userMessage := {| role := user; content := Js.trim (inputMessage (ui w)) |} in
         let updatedMessages := messages (ui w) ++ [userMessage] in
         set (on_ui (setMessages updatedMessages));;
         set (on_ui (setInputMessage ""));;
         set (on_ui (setSendingMessage true));;
         finally
           (try_catch
              (emit (request
                       (Post "mock-interview"
                          (chat {| chat_messages := updatedMessages;
                                   chat_interviewType := interview_type current;
                                   chat_targetRole := target_role current;
                                   chat_difficulty := difficulty current;
                                   chat_action := "continue" |})));;
               aiMessage <-
                 match reply with
                 | fetch_failed message => throw (Error message)
                 | not_ok error => throw (Error (Js.or_else error "Failed to get response"))
                 | streamed chunks broken => read_stream updatedMessages chunks broken
                 end;;
               let finalMessages :=
                 updatedMessages ++ [{| role := assistant; content := aiMessage |}] in
               set (on_ui (setMessages finalMessages));;
               let questionsAsked :=
                 length (List.filter (λ m, bool_decide (role m = assistant)) finalMessages) in
               store (id current) update_ok
                 {| upd_messages := finalMessages;
                    upd_questions_asked := questionsAsked |})
              (λ error,
                 emit (console_error "Error sending message:");;
                 emit (toast_error (message_or error "Failed to send message"))))
           (set (on_ui (setSendingMessage false)))
   | None => ret tt
   end)%handler.

(** [fetchInterviewHistory]; [data] is what the select answers, [None] for
    an error. *)
Definition fetchInterviewHistory (who : option User)
    (data : option (list MockInterview)) : Action unit :=
  match who with
  | None => ret tt
  | Some _ =>
      (try_catch
         (emit (request (Select "mock_interviews"));;
          match data with
          | Some rows => set (on_ui (setInterviewHistory rows))
          | None => throw backend_error
          end)
         (λ _, emit (console_error "Error fetching interview history:")))%handler
  end.

End Streaming.

Definition setFeedback v st :=
  {| view := view st; loading := loading st; sendingMessage := sendingMessage st;
     interviewHistory := interviewHistory st; currentInterview := currentInterview st;
     messages := messages st; inputMessage := inputMessage st; feedback := v;
     interviewType := interviewType st; targetRole := targetRole st;
     setup_difficulty := setup_difficulty st |}.

(** The update that closes the interview. *)
Record Completion := {
  upd_feedback : Json;
  upd_overall_rating : option Json;
  upd_status : string;
  upd_completed_at : string
}.

Inductive EndBody :=
  | feedback_chat (c : Chat)
  | completion (c : Completion).

(** What the feedback request answers: the fetch fails, or a response. *)
Inductive FeedbackReply :=
  | feedback_fetch_failed (message : string)
  | feedback_answered (response : HttpResponse).

Section Feedback.

(** The runtime's [JSON.parse], and the message of the [SyntaxError] it
    throws on a text. *)
Variable JSON_parse : string → option Json.
Variable SyntaxError_message : string → string.

(** [await response.json()] *)
Definition response_json (response : HttpResponse)
    : Handler World (Effect EndBody) Json :=
  match http_body response with
  | payload_json v => ret v
  | payload_text text =>
      match JSON_parse text with
      | Some v => ret v
      | None => throw (Error (SyntaxError_message text))
      end
  | payload_none => throw (Error (SyntaxError_message ""))
  end.

(** [endInterview]; [now] is the clock's [toISOString()].  The result of
    the update is not looked at. *)
Definition endInterview (reply : FeedbackReply) (now : string)
    : Handler World (Effect EndBody) unit :=
  (w <- get;;
   match currentInterview (ui w) with
   | None => ret tt
   | Some current =>
       set (on_ui (setLoading true));;
       finally
         (try_catch
            (emit (request
                     (Post "mock-interview"
                        (feedback_chat
                           {| chat_messages := messages (ui w);
                              chat_interviewType := interview_type current;
                              chat_targetRole := target_role current;
                              chat_difficulty := difficulty current;
                              chat_action := "feedback" |})));;
             feedbackData <-
               match reply with
               | feedback_fetch_failed message => throw (Error message)
               | feedback_answered response =>
                   if http_ok response then response_json response
                   else throw (Error "Failed to get feedback")
               end;;
             match feedbackData with
             | JNull =>
                 set (on_ui (setFeedback None));;
                 throw (Error "Cannot read properties of null (reading 'overallRating')")
             | _ =>
                 set (on_ui (setFeedback (Some feedbackData)));;
                 emit (request
                         (Update "mock_interviews" (id current)
                            (completion
                               {| upd_feedback := feedbackData;
                                  upd_overall_rating :=
                                    json_get "overallRating" (Some feedbackData);
                                  upd_status := "completed";
                                  upd_completed_at := now |})));;
                 set (on_ui (setView feedback_view));;
                 emit (toast_success "Interview completed!")
             end)
            (λ _,
               emit (console_error "Error ending interview:");;
               emit (toast_error "Failed to get feedback. Please try again.")))
         (set (on_ui (setLoading false)))
   end)%handler.

End Feedback.

End MockInterviews.

(** ** The edge functions *)
Module EdgeFunctions.

(** A response: its status and the JSON its body carries, if any. *)
Record Response := { status : nat; body : option Json }.

Definition json_response (code : nat) (v : Json) : Response :=
  {| status := code; body := Some v |}.

(** [JSON.stringify({ error: message })] *)
Definition error_object (message : string) : Json :=
  JObject [("error", JString message)].

(** What the AI gateway answers: a status that is not ok, or a body whose
    [choices?.[0]?.message?.content] is the given text ([None] when it is
    missing). *)
Inductive Gateway :=
  | gateway_status (code : nat)
  | gateway_ok (content : option string).

(** [s.lastIndexOf(c)] *)
Fixpoint lastIndexOf (c : ascii) (s : string) : option nat :=
  match s with
  | EmptyString => None
  | String d rest =>
      match lastIndexOf c rest with
      | Some i => Some (S i)
      | None => if bool_decide (d = c) then Some O else None
      end
  end.

(** [content.match(/\{[\s\S]*\}/)?.[0]]: from the first opening brace to
    the last closing brace after it. *)
Definition braces (content : string) : option string :=
  i ← Js.indexOf "{" content;
  let from := Js.slice i content in
  j ← lastIndexOf "}" from;
  Some (Js.take (S j) from).

(** The capture of the fence pattern when the match starts here: three
    backquotes, an optional "json", white space, then as little as possible
    up to the next three backquotes. *)
Definition fence_here (s : string) : option string :=
  if String.prefix "```" s then
    let r1 := Js.slice 3 s in
    let r2 := if String.prefix "json" r1 then Js.slice 4 r1 else r1 in
    let r3 := Js.trimStart r2 in
    k ← Js.indexOf "```" r3;
    Some (Js.take k r3)
  else None.

(** [content.match(fence)?.[1]]: the capture of the leftmost match. *)
Fixpoint fenced (content : string) : option string :=
  match fence_here content with
  | Some capture => Some capture
  | None =>
      match content with
      | EmptyString => None
      | String _ rest => fenced rest
      end
  end.

Section Functions.

(** The runtime's [JSON.parse], the message of the [SyntaxError] it
    throws on a text, and the message of the [TypeError] thrown when the
    members of [null] are taken apart. *)
Variable JSON_parse : string → option Json.
Variable SyntaxError_message : string → string.
Variable TypeError_message : string.

(** *** analyze-resume *)

Record AnalyzeRequest := {
  method : string;
  resumeText : string;
  targetRole : string
}.

(** The text handed to [JSON.parse]. *)
Definition jsonStr (content : string) : string :=
  match fenced content with
  | Some capture => Js.or_else (Js.trim capture) (Js.trim content)
  | None => Js.or_else (Js.trim content) (Js.trim content)
  end.

(** The object returned in place of an analysis that does not parse. *)
Definition placeholder (content : string) : Json :=
  JObject
    [("score", JNumber "0");
     ("summary", JString "Unable to parse analysis. Please try again.");
     ("strengths", JArray []);
     ("improvements", JArray []);
     ("atsScore", JNumber "0");
     ("atsNotes", JString "");
     ("contentAnalysis",
      JObject [("quantifiedAchievements", JBool false);
               ("actionOriented", JBool false);
               ("skillsHighlighted", JBool false);
               ("notes", JString "")]);
     ("formatNotes", JString "");
     ("recommendations", JArray []);
     ("rawResponse", JString content)].

(** The inner [try]/[catch]. *)
Definition analysis (content : string) : Json :=
  match JSON_parse (jsonStr content) with
  | Some parsed => parsed
  | None => placeholder content
  end.

(** What the body of the outer [try] does once the key is known: a
    response, or a thrown error. *)
Definition analyze_body (gateway : Gateway) : Response + string :=
  match gateway with
  | gateway_status 429 =>
      inl (json_response 429 (error_object "Rate limit exceeded. Please try again later."))
  | gateway_status 402 =>
      inl (json_response 402 (error_object "AI credits exhausted. Please add more credits."))
  | gateway_status _ => inr "AI gateway error"
  | gateway_ok None => inr "No response from AI"
  | gateway_ok (Some content) =>
      if Js.falsy content then inr "No response from AI"
      else inl (json_response 200 (analysis content))
  end.

Definition analyze_resume (req : AnalyzeRequest) (LOVABLE_API_KEY : string)
    (gateway : Gateway) : Response :=
  if (method req =? "OPTIONS")%string then {| status := 200; body := None |}
  else if Js.falsy (resumeText req) then
    json_response 400 (error_object "Resume text is required")
  else
    match (if Js.falsy LOVABLE_API_KEY then inr "LOVABLE_API_KEY is not configured"
           else analyze_body gateway) with
    | inl response => response
    | inr message => json_response 500 (error_object message)
    end.

(** *** generate-test *)

Definition generate_body (gateway : Gateway) : Response + string :=
  match gateway with
  | gateway_status 429 =>
      inl (json_response 429 (error_object "Rate limit exceeded. Please try again later."))
  | gateway_status 402 =>
      inl (json_response 402 (error_object "AI credits exhausted. Please add more credits."))
  | gateway_status code => inr ("AI gateway error: " +:+ pretty code)
  | gateway_ok None => inr "Cannot read properties of undefined (reading 'match')"
  | gateway_ok (Some content) =>
      match braces content with
      | None => inr "Failed to parse questions from AI response"
      | Some jsonMatch =>
          match JSON_parse jsonMatch with
          | Some questions => inl (json_response 200 questions)
          | None => inr (SyntaxError_message jsonMatch)
          end
      end
  end.

(** [req_body] is the text of the request's body.  [await req.json()]
    parses it as [JSON.parse] does and throws on a text that is not JSON;
    taking the members of [null] apart throws a [TypeError], whose message
    is [TypeError_message]; any other value has members, [undefined] when
    absent, which only reach the prompt. *)
Definition generate_test (req_method req_body : string) (LOVABLE_API_KEY : string)
    (gateway : Gateway) : Response :=
  if (req_method =? "OPTIONS")%string then {| status := 200; body := None |}
  else
    match (match JSON_parse req_body with
           | None => inr (SyntaxError_message req_body)
           | Some JNull => inr TypeError_message
           | Some _ =>
               if Js.falsy LOVABLE_API_KEY then inr "LOVABLE_API_KEY is not configured"
               else generate_body gateway
           end) with
    | inl response => response
    | inr message => json_response 500 (error_object message)
    end.

End Functions.

(** *** mock-interview

    [action] is the member of that name of the request's body; [stream] is
    the body of the gateway's response, which the function passes on when
    the conversation is streamed. *)
Definition interview_body (action : string) (gateway : Gateway) (stream : string)
    : HttpResponse + string :=
  match gateway with
  | gateway_status 429 =>
      inl {| http_status := 429;
             http_body := payload_json
                            (error_object "Rate limit exceeded. Please try again later.") |}
  | gateway_status 402 =>
      inl {| http_status := 402;
             http_body := payload_json
                            (error_object "AI credits exhausted. Please add more credits.") |}
  | gateway_status code => inr ("AI gateway error: " +:+ pretty code)
  | gateway_ok content =>
      if (action =? "feedback")%string then
        match content with
        | None => inr "Cannot read properties of undefined (reading 'match')"
        | Some content =>
            match braces content with
            | None => inr "Failed to parse feedback from AI response"
            | Some jsonMatch =>
                inl {| http_status := 200; http_body := payload_text jsonMatch |}
            end
        end
      else inl {| http_status := 200; http_body := payload_text stream |}
  end.

Definition mock_interview (req_method action : string) (LOVABLE_API_KEY : string)
    (gateway : Gateway) (stream : string) : HttpResponse :=
  if (req_method =? "OPTIONS")%string
  then {| http_status := 200; http_body := payload_none |}
  else
    match (if Js.falsy LOVABLE_API_KEY then inr "LOVABLE_API_KEY is not configured"
           else interview_body action gateway stream) with
    | inl response => response
    | inr message =>
        {| http_status := 500; http_body := payload_json (error_object message) |}
    end.

(** A JSON response as its receiver finds it. *)
Definition sent (r : Response) : HttpResponse :=
  {| http_status := status r;
     http_body := match body r with
                  | Some v => payload_json v
                  | None => payload_none
                  end |}.

End EdgeFunctions.

(** ** ResumeAnalyzer.tsx *)
Module ResumeAnalyzer.

(** What the component reads of a [File]. *)
Record File := { file_name : string; file_type : string; file_size : Z }.

Inductive InputMethod := paste | upload.

Record State := {
  resumeText : string;
  customTargetRole : string;
  analyzing : bool;
  parsing : bool;
  analysis : option Json;
  selectedFile : option File;
  inputMethod : InputMethod
}.

Definition setResumeText v st :=
  {| resumeText := v; customTargetRole := customTargetRole st;
     analyzing := analyzing st; parsing := parsing st; analysis := analysis st;
     selectedFile := selectedFile st; inputMethod := inputMethod st |}.
Definition setCustomTargetRole v st :=
  {| resumeText := resumeText st; customTargetRole := v;
     analyzing := analyzing st; parsing := parsing st; analysis := analysis st;
     selectedFile := selectedFile st; inputMethod := inputMethod st |}.
Definition setAnalyzing v st :=
  {| resumeText := resumeText st; customTargetRole := customTargetRole st;
     analyzing := v; parsing := parsing st; analysis := analysis st;
     selectedFile := selectedFile st; inputMethod := inputMethod st |}.
Definition setParsing v st :=
  {| resumeText := resumeText st; customTargetRole := customTargetRole st;
     analyzing := analyzing st; parsing := v; analysis := analysis st;
     selectedFile := selectedFile st; inputMethod := inputMethod st |}.
Definition setAnalysis v st :=
  {| resumeText := resumeText st; customTargetRole := customTargetRole st;
     analyzing := analyzing st; parsing := parsing st; analysis := v;
     selectedFile := selectedFile st; inputMethod := inputMethod st |}.
Definition setSelectedFile v st :=
  {| resumeText := resumeText st; customTargetRole := customTargetRole st;
     analyzing := analyzing st; parsing := parsing st; analysis := analysis st;
     selectedFile := v; inputMethod := inputMethod st |}.
Definition setInputMethod v st :=
  {| resumeText := resumeText st; customTargetRole := customTargetRole st;
     analyzing := analyzing st; parsing := parsing st; analysis := analysis st;
     selectedFile := selectedFile st; inputMethod := v |}.

(** Request bodies. *)
Record AnalyzeBody := { body_resumeText : string; body_targetRole : string }.

Inductive Body :=
  | parse_body (file : File)
  | analyze_body (b : AnalyzeBody).

Definition Action := Handler State (Effect Body).

(** What [supabase.functions.invoke] resolves to: [{ data: null, error }]
    when the request fails or the status of the response is not ok, else
    [{ data, error: null }]. *)
Inductive Invoked :=
  | invoke_error
  | invoke_data (data : Json).

(** The same for parse-resume-pdf, a function that is not part of the
    repository: its [data] is taken to carry two texts, [error] and [text],
    a missing one being empty. *)
Inductive Parsed :=
  | parse_failed
  | parse_data (error text : string).

(** [s.includes(p)] *)
Definition includes (s p : string) : bool :=
  match Js.indexOf p s with
  | Some _ => true
  | None => false
  end.

(** [handleFileSelect]; [file] is [e.target.files?.[0]]. *)
Definition handleFileSelect (file : option File) : Action unit :=
  match file with
  | Some file =>
      if negb (includes (file_type file) "pdf") then
        emit (toast_error "Please upload a PDF file")
      else if 10 * 1024 * 1024 <? file_size file then
        emit (toast_error "File size must be less than 10MB")
      else
        (set (setSelectedFile (Some file));;
         set (setResumeText ""))%handler
  | None => ret tt
  end.

(** [handleParsePdf] *)
Definition handleParsePdf (parsed : Parsed) : Action unit :=
  (st <- get;;
   match selectedFile st with
   | None => emit (toast_error "Please select a PDF file")
   | Some file =>
       set (setParsing true);;
       finally
         (try_catch
            (emit (request (Post "parse-resume-pdf" (parse_body file)));;
             match parsed with
             | parse_failed => throw backend_error
             | parse_data error text =>
                 if negb (Js.falsy error) then emit (toast_error error)
                 else
                   set (setResumeText text);;
                   emit (toast_success
                           ("PDF parsed successfully! Click "
                            +:+ String "034" "Analyze Resume"
                            +:+ String "034" " to continue."))
             end)
            (λ _,
               emit (console_error "Parse error:");;
               emit (toast_error "Failed to parse PDF. Please try pasting text instead.")))
         (set (setParsing false))
   end)%handler.

Section Analyze.

(** Whether the number a lexeme denotes is zero, and what a notification
    shows for a value that is not a string: both belong to the runtime. *)
Variable is_zero : string → bool.
Variable rendered : Json → string.

(** The truth value of [v] in a condition; [None] is [undefined]. *)
Definition truthy (v : option Json) : bool :=
  match v with
  | None | Some JNull => false
  | Some (JBool b) => b
  | Some (JNumber lexeme) => negb (is_zero lexeme)
  | Some (JString s) => negb (Js.falsy s)
  | Some (JArray _) | Some (JObject _) => true
  end.

(** What [toast.error(v)] shows. *)
Definition shown (v : option Json) : string :=
  match v with
  | Some (JString s) => s
  | Some v => rendered v
  | None => ""
  end.

(** What both handlers do with the [data] of the analysis: [if
    (data.error) { toast.error(data.error); return; } setAnalysis(data);
    toast.success(...)]. *)
Definition take_analysis (data : Json) : Action unit :=
  match data with
  | JNull => throw (Error "Cannot read properties of null (reading 'error')")
  | _ =>
      let error := json_get "error" (Some data) in
      if truthy error then emit (toast_error (shown error))
      else
        (set (setAnalysis (Some data));;
         emit (toast_success "Resume analyzed successfully!"))%handler
  end.

(** What invoking analyze-resume with a body resolves to. *)
Variable invoke_analyze : AnalyzeBody → Invoked.

(** [handleAnalyze] from [setAnalyzing(true)] on; [st] is the state the
    handler was created with. *)
Definition analyze (st : State) : Action unit :=
  (set (setAnalyzing true);;
   set (setAnalysis None);;
   finally
     (try_catch
        (let body := {| body_resumeText := resumeText st;
                        body_targetRole := customTargetRole st |} in
         emit (request (Post "analyze-resume" (analyze_body body)));;
         match invoke_analyze body with
         | invoke_error => throw backend_error
         | invoke_data data => take_analysis data
         end)
        (λ _,
           emit (console_error "Analysis error:");;
           emit (toast_error "Failed to analyze resume. Please try again.")))
     (set (setAnalyzing false)))%handler.

(** [handleAnalyze]; after [handleParsePdf] the handler still tests the
    [resumeText] it was created with. *)
Definition handleAnalyze (parsed : Parsed) : Action unit :=
  (st <- get;;
   if Js.falsy (Js.trim (resumeText st)) then
     match selectedFile st, inputMethod st with
     | Some _, upload =>
         handleParsePdf parsed;;
         if Js.falsy (Js.trim (resumeText st)) then ret tt else analyze st
     | _, _ => emit (toast_error "Please paste your resume content or upload a PDF")
     end
   else analyze st)%handler.

(** [handleAnalyzeWithParse], which the Analyze button calls. *)
Definition handleAnalyzeWithParse (parsed : Parsed) : Action unit :=
  (st <- get;;
   match inputMethod st, selectedFile st with
   | upload, Some file =>
       if Js.falsy (Js.trim (resumeText st)) then
         set (setParsing true);;
         finally
           (try_catch
              (emit (request (Post "parse-resume-pdf" (parse_body file)));;
               match parsed with
               | parse_failed => throw backend_error
               | parse_data error text =>
                   if negb (Js.falsy error) then
                     emit (toast_error error);;
                     set (setParsing false)
                   else
                     set (setResumeText text);;
                     set (setParsing false);;
                     set (setAnalyzing true);;
                     let body := {| body_resumeText := text;
                                    body_targetRole := customTargetRole st |} in
                     emit (request (Post "analyze-resume" (analyze_body body)));;
                     match invoke_analyze body with
                     | invoke_error => throw backend_error
                     | invoke_data data => take_analysis data
                     end
               end)
              (λ _,
                 emit (console_error "Error:");;
                 emit (toast_error "Failed to process resume. Please try again.")))
           (set (setParsing false);; set (setAnalyzing false))
       else handleAnalyze parsed
   | _, _ => handleAnalyze parsed
   end)%handler.

End Analyze.

(** [resetAnalysis] *)
Definition resetAnalysis (st : State) : State :=
  setSelectedFile None (setResumeText "" (setAnalysis None st)).

End ResumeAnalyzer.

(** * Notions used to state the properties *)

(** Written after the specification's words: the number of consecutive
    calendar days, ending with day [e], that each have an entry. *)
Fixpoint days_in_a_row (fuel : nat) (e : Day) (dates : list Day) : nat :=
  match fuel with
  | O => 0%nat
  | S fuel' =>
      if bool_decide (e ∈ dates)
      then S (days_in_a_row fuel' (e - 1) dates)
      else 0%nat
  end.

Definition consecutive_days_ending (e : Day) (dates : list Day) : nat :=
  days_in_a_row (length dates) e dates.

(** Written after the specification's words: the run ends today or, when
    today has no entry, yesterday. *)
Definition streak_spec (today : Day) (dates : list Day) : nat :=
  if bool_decide (today ∈ dates)
  then consecutive_days_ending today dates
  else consecutive_days_ending (today - 1) dates.

(** Strictly descending lists of days. *)
Definition descending (l : list Day) : Prop := StronglySorted (flip Z.lt) l.

(** Rows in descending order of their key. *)
Definition desc_by {Row : Type} (key : Row → Z) (rows : list Row) : Prop :=
  StronglySorted (λ a b, key b ≤ key a) rows.

(** Written after the specification's words: a filter setting lets a value
    through when it is 'all' or equal to the value. *)
Definition passes (setting value : string) : Prop :=
  setting = "all" ∨ value = setting.

#[local] Instance passes_dec setting value : Decision (passes setting value).
Proof. unfold passes. apply _. Defined.

(** Empty, or white space only. *)
Fixpoint all_whitespace (s : string) : bool :=
  match s with
  | EmptyString => true
  | String c rest => Ascii.is_space c && all_whitespace rest
  end.

Section MockTestNotions.
Import MockTests.

(** Written after the specification's words: index [i] is a correct
    selection when [selectedAnswers[i]] equals [questions[i].correctAnswer]. *)
Definition correct_at (selected : list Slot) (qs : list Question) (i : nat) : bool :=
  match qs !! i with
  | Some q => bool_decide (js_get selected i = Some (correctAnswer q))
  | None => false
  end.

(** The number of correct selections among the indices of the questions. *)
Definition correct_selections (selected : list Slot) (qs : list Question) : nat :=
  length (List.filter (correct_at selected qs) (seq 0 (length qs))).

(** The states of a test, each with the render in which the timer effect
    last ran: the test was started, and since then option buttons and
    navigation buttons were clicked, the timer ticked, and submissions were
    attempted.  The effect runs again when [view], [currentTest] or
    [timeRemaining] is set, that is after the start, a tick and a
    submission that succeeds; clicks and submissions that fail leave the
    interval in place, and with it the render its callback belongs to. *)
Inductive timed_from : State → State → Prop :=
  | test_started u qs fresh_id now st0 :
      timed_from
        (state_after (startTest (Some u) (generated qs) true fresh_id now st0))
        (state_after (startTest (Some u) (generated qs) true fresh_id now st0))
  | test_clicked render st st' :
      timed_from render st → click st st' → timed_from render st'
  | test_ticked render who now update_ok st :
      timed_from render st → timer_running render = true →
      timed_from
        (state_after (tick render who now update_ok st))
        (state_after (tick render who now update_ok st))
  | test_submitted render u now st :
      timed_from render st →
      timed_from
        (state_after (handleSubmitTest (Some u) now true st))
        (state_after (handleSubmitTest (Some u) now true st))
  | test_submit_failed render who now st :
      timed_from render st →
      timed_from render (state_after (handleSubmitTest who now false st)).

(** The states of a test. *)
Definition in_test (st : State) : Prop := ∃ render, timed_from render st.

(** What the timer effect depends on is the same in both states. *)
Definition same_timer (render st : State) : Prop :=
  view render = view st
  ∧ currentTest render = currentTest st
  ∧ timeRemaining render = timeRemaining st.

(** There is a current test and one slot per question. *)
Definition answers_fit (st : State) : Prop :=
  ∃ current, currentTest st = Some current
    ∧ length (selectedAnswers st) = length (questions current).

End MockTestNotions.

Section InterviewNotions.
Import MockInterviews.

Variable JSON_parse : string → option Json.
Variable is_zero : string → bool.
Variable Number_text : string → string.

(** The tokens the reader finds in a chunk, line by line. *)
Definition tokens_of_chunk (chunk : string) : list string :=
  omap (token JSON_parse is_zero Number_text) (Js.split "010" chunk).

(** The text the reader gathers from the chunks as they arrive. *)
Definition received_text (chunks : list string) : string :=
  foldr String.append "" (concat (tokens_of_chunk <$> chunks)).

(** Written after the specification's words: the concatenation of all
    streamed partial tokens.  The stream is the text that the chunks make
    up together, however it was cut into chunks; its partial tokens are
    those of its lines, in order. *)
Definition streamed_text (chunks : list string) : string :=
  foldr String.append ""
    (omap (token JSON_parse is_zero Number_text)
       (Js.split "010" (foldr String.append "" chunks))).

(** The text is empty or ends with a line feed. *)
Fixpoint at_line_end (s : string) : bool :=
  match s with
  | EmptyString => true
  | String c EmptyString => bool_decide (c = "010"%char)
  | String _ rest => at_line_end rest
  end.

(** No line of the stream is cut between two chunks: every chunk but the
    last is empty or ends with a line feed. *)
Fixpoint whole_lines (chunks : list string) : bool :=
  match chunks with
  | [] => true
  | chunk :: rest =>
      match rest with
      | [] => true
      | _ => at_line_end chunk && whole_lines rest
      end
  end.

(** The same world with other messages on screen. *)
Definition shows (w w' : World) : Prop := ∃ m, w' = on_ui (setMessages m) w.

End InterviewNotions.

(** Unfolds the handler combinators; what is left is the handler's run on
    the given state. *)
Ltac run_handler :=
  cbv beta iota zeta delta
    [bind get set emit ret throw try_catch finally
     state_after log_of outcome_of fst snd];
  cbn [app].

(** The character does not occur in the text. *)
Fixpoint lacks (c : ascii) (s : string) : bool :=
  match s with
  | EmptyString => true
  | String d rest => negb (bool_decide (d = c)) && lacks c rest
  end.

(** The goals filed under a skill. *)
Definition goals_of (st : Learning.State) (s : string) : list Learning.LearningGoal :=
  List.filter (λ g, (Learning.skill_name g =? s)%string) (Learning.goals st).

Section DashboardNotions.
Import Dashboard.

(** The number of problems practiced on a day. *)
Definition practiced (rows : list ProblemRow) (d : Day) : nat :=
  length (filter (λ p, date_practiced p = d) rows).

(** A day of the week with [n] of its date more problems. *)
Definition add_problems (n : Day → nat) (day : DayActivity) : DayActivity :=
  {| name := name day; date := date day; problems := problems day + n (date day) |}.

End DashboardNotions.

(** The value of a decimal digit. *)
Definition digit_value (c : ascii) : option Z :=
  if JsonText.is_digit c then Some (Z.of_nat (nat_of_ascii c) - 48) else None.

(** The seconds a clock text of the shape mm:ss stands for. *)
Definition clock_reading (text : string) : option Z :=
  match text with
  | String m1 (String m2 (String ":" (String s1 (String s2 EmptyString)))) =>
      a ← digit_value m1; b ← digit_value m2;
      c ← digit_value s1; d ← digit_value s2;
      if 10 * c + d <? 60 then Some ((10 * a + b) * 60 + (10 * c + d)) else None
  | _ => None
  end.

Section MockTestInvariants.
Import MockTests.

(** There is a current test, and the time left lies between zero and the
    time allowed, one minute for each question asked for. *)
Definition within_limit (st : State) : Prop :=
  ∃ current, currentTest st = Some current
    ∧ 0 ≤ timeRemaining st ≤ max_time current
    ∧ max_time current = Z.of_nat (total_questions current) * 60.

(** There is a current test, and when it has as many questions as were
    asked for, the index on screen is at most that of the last one. *)
Definition on_a_question (st : State) : Prop :=
  ∃ current, currentTest st = Some current
    ∧ (total_questions current = length (questions current) →
       (currentQuestionIndex st ≤ length (questions current) - 1)%nat).

End MockTestInvariants.

Section InterviewInvariants.
Import MockInterviews.

Variable JSON_parse : string → option Json.
Variable is_zero : string → bool.
Variable Number_text : string → string.

(** The worlds of an interview: it was started, and since then the input
    was typed in and messages were sent, whatever the function and the
    backend answered. *)
Inductive in_interview : World → Prop :=
  | interview_started u interviewData chunks update_ok w0 :
      in_interview
        (state_after (startInterview JSON_parse is_zero Number_text (Some u)
                        (Some interviewData)
                        (streamed chunks None) update_ok w0))
  | interview_typed text w :
      in_interview w → in_interview (on_ui (setInputMessage text) w)
  | interview_sent reply update_ok w :
      in_interview w →
      in_interview
        (state_after (sendMessage JSON_parse is_zero Number_text reply update_ok w)).

(** The assistant's entries of a transcript. *)
Definition asked (transcript : list Message) : nat :=
  length (filter (λ m, role m = assistant) transcript).

(** The stored count is the count of the stored transcript, and the
    stored transcript is the beginning of the one on screen. *)
Definition transcript_kept (w : World) : Prop :=
  stored_questions_asked w = asked (stored_messages w)
  ∧ stored_messages w `prefix_of` messages (ui w).

End InterviewInvariants.

(** An answer of an edge function that refuses: a response with status 429
    or 402 that carries an error object, or a thrown message. *)
Definition refused (r : EdgeFunctions.Response + string) : bool :=
  match r with
  | inl {| EdgeFunctions.status := code;
           EdgeFunctions.body := Some (JObject [(k, JString _)]) |} =>
      ((code =? 429)%nat || (code =? 402)%nat) && (k =? "error")%string
  | inl _ => false
  | inr _ => true
  end.

(** The same for a response as its receiver finds it. *)
Definition refused_http (r : HttpResponse + string) : bool :=
  match r with
  | inl {| http_status := code; http_body := payload_json (JObject [(k, JString _)]) |} =>
      ((code =? 429)%nat || (code =? 402)%nat) && (k =? "error")%string
  | inl _ => false
  | inr _ => true
  end.

(** What [startTest] reads from a response of generate-test that is not
    ok: the [error] of its body. *)
Definition refused_generation (r : EdgeFunctions.Response) : MockTests.Generated :=
  MockTests.not_ok
    match json_get "error" (EdgeFunctions.body r) with
    | Some (JString message) => message
    | _ => ""
    end.

(** [supabase.functions.invoke] on a response: the status decides between
    [error] and [data]; a JSON body is parsed, any other body is the text
    it holds. *)
Definition invoked (response : HttpResponse) : ResumeAnalyzer.Invoked :=
  if http_ok response then
    ResumeAnalyzer.invoke_data
      match http_body response with
      | payload_json v => v
      | payload_text text => JString text
      | payload_none => JString ""
      end
  else ResumeAnalyzer.invoke_error.

Section CompositionNotions.

Variable JSON_parse : string → option Json.

(** The feedback that [endInterview] gets out of the gateway's answer
    through the mock-interview function. *)
Definition feedback_in (key : string) (gateway : EdgeFunctions.Gateway) : option Json :=
  match gateway with
  | EdgeFunctions.gateway_ok (Some content) =>
      if Js.falsy key then None
      else
        jsonMatch ← EdgeFunctions.braces content;
        v ← JSON_parse jsonMatch;
        match v with JNull => None | _ => Some v end
  | _ => None
  end.

(** Invoking analyze-resume, the function holding [key] and the gateway
    answering [gateway]. *)
Definition invoke_analyze_resume (key : string) (gateway : EdgeFunctions.Gateway)
    (b : ResumeAnalyzer.AnalyzeBody) : ResumeAnalyzer.Invoked :=
  invoked
    (EdgeFunctions.sent
       (EdgeFunctions.analyze_resume JSON_parse
          {| EdgeFunctions.method := "POST";
             EdgeFunctions.resumeText := ResumeAnalyzer.body_resumeText b;
             EdgeFunctions.targetRole := ResumeAnalyzer.body_targetRole b |}
          key gateway)).

(** The questions that generate-test gets out of a request and the
    gateway's answer: the body of the request must be JSON other than
    null, the key configured, and the span from the first opening to the
    last closing brace of the AI's reply must parse. *)
Definition questions_in (req_body key : string) (gateway : EdgeFunctions.Gateway)
    : option Json :=
  match JSON_parse req_body with
  | None | Some JNull => None
  | Some _ =>
      if Js.falsy key then None
      else
        match gateway with
        | EdgeFunctions.gateway_ok (Some content) =>
            jsonMatch ← EdgeFunctions.braces content; JSON_parse jsonMatch
        | _ => None
        end
  end.

End CompositionNotions.

Section AnalyzerNotions.
Import ResumeAnalyzer.

Variable is_zero : string → bool.
Variable rendered : Json → string.

(** The states of the dialog: it opens empty, on the upload tab; then a
    file is chosen, text is typed, the tab is switched, Analyze is
    clicked, the analysis is reset. *)
Inductive reachable : State → Prop :=
  | dialog_opened targetRole :
      reachable {| resumeText := ""; customTargetRole := targetRole;
                   analyzing := false; parsing := false; analysis := None;
                   selectedFile := None; inputMethod := upload |}
  | file_chosen file st :
      reachable st → reachable (state_after (handleFileSelect file st))
  | text_typed text st : reachable st → reachable (setResumeText text st)
  | role_typed text st : reachable st → reachable (setCustomTargetRole text st)
  | tab_switched tab st : reachable st → reachable (setInputMethod tab st)
  | analyze_clicked invoke_analyze parsed st :
      reachable st →
      reachable (state_after
                   (handleAnalyzeWithParse is_zero rendered invoke_analyze parsed st))
  | analysis_reset st : reachable st → reachable (resetAnalysis st).

(** A file the dialog accepts. *)
Definition accepted (file : File) : Prop :=
  includes (file_type file) "pdf" = true ∧ file_size file ≤ 10 * 1024 * 1024.

(** A handler is tidy for a selection when, run on a state with that
    selection, it keeps the selection and sends the PDF parser no other
    file. *)
Definition tidy {A} (sel : option File) (m : Action A) : Prop :=
  ∀ st, selectedFile st = sel →
    selectedFile (state_after (m st)) = sel
    ∧ Forall (λ e, ∀ file, e = request (Post "parse-resume-pdf" (parse_body file)) →
                           sel = Some file)
        (log_of (m st)).

End AnalyzerNotions.

(** * Sample data *)

Definition practiced_on (d : Day) : CodingPractice.CodingProblem :=
  {| CodingPractice.id := "p"; CodingPractice.user_id := "u1";
     CodingPractice.created_at := "2024-10-01T09:00:00Z";
     CodingPractice.platform := "LeetCode";
     CodingPractice.problem_name := "Two Sum"; CodingPractice.difficulty := "easy";
     CodingPractice.status := "solved"; CodingPractice.date_practiced := d;
     CodingPractice.notes := None |}.

Definition solved_on (d : Day) : Dashboard.ProblemRow :=
  {| Dashboard.status := "solved"; Dashboard.date_practiced := d |}.

Definition coding_problem (x uid : string) (d : Day) : CodingPractice.CodingProblem :=
  {| CodingPractice.id := x; CodingPractice.user_id := uid;
     CodingPractice.platform := "LeetCode"; CodingPractice.problem_name := "Two Sum";
     CodingPractice.difficulty := "easy"; CodingPractice.status := "solved";
     CodingPractice.date_practiced := d; CodingPractice.notes := None;
     CodingPractice.created_at := "2024-10-01T09:00:00Z" |}.

(** The coding page showing the two problems of user u1, the confirmation
    dialog open on the first. *)
Definition coding_world : CodingPractice.World :=
  let rows := [coding_problem "p1" "u1" 20000; coding_problem "p2" "u1" 19999] in
  {| CodingPractice.ui :=
       {| CodingPractice.problems := rows; CodingPractice.loading := false;
          CodingPractice.submitting := false; CodingPractice.isDialogOpen := false;
          CodingPractice.editingProblem := None;
          CodingPractice.filterPlatform := "all";
          CodingPractice.filterDifficulty := "all"; CodingPractice.streak := 2;
          CodingPractice.deleteConfirm :=
            {| CodingPractice.open := true; CodingPractice.problemId := Some "p1" |} |};
     CodingPractice.coding_problems := coding_problem "p9" "u2" 20000 :: rows |}.

Definition application (x uid status job_type : string) (d : Day)
    : Applications.Application :=
  {| Applications.id := x; Applications.user_id := uid;
     Applications.company_name := "Acme"; Applications.role := "Engineer";
     Applications.job_type := job_type; Applications.status := status;
     Applications.application_link := None; Applications.apply_date := d;
     Applications.interview_date := None; Applications.notes := None;
     Applications.created_at := "2024-10-01T09:00:00Z" |}.

Definition applications_world : Applications.World :=
  let rows := [application "a1" "u1" "applied" "internship" 20000;
               application "a2" "u1" "interview" "full_time" 19990] in
  {| Applications.ui :=
       {| Applications.applications := rows; Applications.loading := false;
          Applications.submitting := false; Applications.isDialogOpen := true;
          Applications.editingApp := None;
          Applications.filterStatus := "all"; Applications.filterType := "all";
          Applications.deleteConfirm :=
            {| Applications.open := true; Applications.appId := Some "a1" |} |};
     Applications.table := rows |}.

Definition blank_application : Applications.Form :=
  {| Applications.form_company_name := "Acme";
     Applications.form_role := "   ";
     Applications.form_job_type := "internship";
     Applications.form_status := "applied";
     Applications.form_application_link := "";
     Applications.form_apply_date := Some 20000;
     Applications.form_interview_date := None;
     Applications.form_notes := "" |}.

Definition blank_problem : CodingPractice.Form :=
  {| CodingPractice.form_problem_name := "";
     CodingPractice.form_platform := "LeetCode";
     CodingPractice.form_date_practiced := Some 20000;
     CodingPractice.form_difficulty := "easy";
     CodingPractice.form_status := "solved";
     CodingPractice.form_notes := "" |}.

Definition blank_goal : Learning.Form :=
  {| Learning.form_topic_name := String "009" " ";
     Learning.form_skill_name := "DSA";
     Learning.form_status := "not_started";
     Learning.form_start_date := None;
     Learning.form_target_date := None;
     Learning.form_resource_links := "";
     Learning.form_notes := "" |}.

Definition learning_world : Learning.World :=
  {| Learning.ui :=
       {| Learning.goals := []; Learning.loading := false;
          Learning.submitting := false; Learning.isDialogOpen := true;
          Learning.editingGoal := None; Learning.filterSkill := "all";
          Learning.filterStatus := "all";
          Learning.deleteConfirm :=
            {| Learning.open := false; Learning.goalId := None |} |};
     Learning.learning_goals := [] |}.

Section MockTestSamples.
Import MockTests.

Definition sample_questions : list Question :=
  [ {| id := 1; question := "2 + 2 = ?";
       options := [("A", "3"); ("B", "4"); ("C", "5"); ("D", "22")];
       correctAnswer := "B"; explanation := "Addition." |};
    {| id := 2; question := "Which structure is LIFO?";
       options := [("A", "Queue"); ("B", "Heap"); ("C", "Stack"); ("D", "Tree")];
       correctAnswer := "C"; explanation := "A stack pops the last push." |};
    {| id := 3; question := "Plural of mouse?";
       options := [("A", "mice"); ("B", "mouses"); ("C", "meese"); ("D", "mouse")];
       correctAnswer := "A"; explanation := "Irregular plural." |};
    {| id := 4; question := "10 / 4 = ?";
       options := [("A", "2"); ("B", "2.5"); ("C", "3"); ("D", "4")];
       correctAnswer := "B"; explanation := "Division." |} ].

Definition sample_test : MockTest :=
  {| test_id := "t1"; category := "aptitude"; subcategory := None;
     difficulty := "medium"; total_questions := 4; correct_answers := 0;
     time_taken := None; max_time := 240; questions := sample_questions;
     answers := []; status := "in_progress"; score := 0%float;
     created_at := "2024-10-01T09:00:00Z"; completed_at := None |}.

(** A test in progress: question 2 on screen, three answers given (two of
    them right), two seconds left. *)
Definition sample_session : State :=
  {| view := test; loading := false; testHistory := [];
     currentTest := Some sample_test; currentQuestionIndex := 1;
     selectedAnswers := [Some "B"; Some "A"; Some "A"; Some ""];
     timeRemaining := 2;
     setup_category := "aptitude"; setup_subcategory := "";
     setup_difficulty := "medium"; numQuestions := 4 |}.

(** The session right after a test of [sample_questions] was started. *)
Definition started_session : State :=
  state_after
    (startTest (Some {| user_id_of := "u1" |}) (generated sample_questions) true
       "t1" "2024-10-01T09:00:00Z"
       {| view := setup; loading := false; testHistory := [];
          currentTest := None; currentQuestionIndex := 0; selectedAnswers := [];
          timeRemaining := 0;
          setup_category := "aptitude"; setup_subcategory := "";
          setup_difficulty := "medium"; numQuestions := 4 |}).

Definition history_screen : State :=
  {| view := history; loading := false;
     testHistory := []; currentTest := None;
     currentQuestionIndex := 0; selectedAnswers := [];
     timeRemaining := 0;
     setup_category := "aptitude"; setup_subcategory := "";
     setup_difficulty := "medium"; numQuestions := 10 |}.

End MockTestSamples.

Definition greeting : MockInterviews.Message :=
  {| MockInterviews.role := MockInterviews.assistant;
     MockInterviews.content := "Tell me about yourself." |}.

(** An interview in progress, the greeting shown and stored, an answer
    typed in. *)
Definition interview_world : MockInterviews.World :=
  {| MockInterviews.ui :=
       {| MockInterviews.view := MockInterviews.interview;
          MockInterviews.loading := false;
          MockInterviews.sendingMessage := false;
          MockInterviews.interviewHistory := [];
          MockInterviews.currentInterview :=
            Some {| MockInterviews.id := "i1";
                    MockInterviews.interview_type := "technical";
                    MockInterviews.target_role := Some "Software Engineer";
                    MockInterviews.difficulty := "medium";
                    MockInterviews.messages_of := [];
                    MockInterviews.questions_asked := 0;
                    MockInterviews.feedback_of := None;
                    MockInterviews.status := "in_progress" |};
          MockInterviews.messages := [greeting];
          MockInterviews.inputMessage := "  I build things. ";
          MockInterviews.feedback := None;
          MockInterviews.interviewType := "technical";
          MockInterviews.targetRole := "Software Engineer";
          MockInterviews.setup_difficulty := "medium" |};
     MockInterviews.stored_messages := [greeting];
     MockInterviews.stored_questions_asked := 1 |}.

Definition line_feed : string := String "010" "".

(** A text written with apostrophes where it has double quotes. *)
Fixpoint dq (s : string) : string :=
  match s with
  | EmptyString => EmptyString
  | String c rest => String (if bool_decide (c = "'"%char) then "034"%char else c) (dq rest)
  end.

(** Two chunks of a stream: two tokens, then the end marker. *)
Definition sample_chunks : list string :=
  [ dq "data: {'choices':[{'delta':{'content':'Good. '}}]}" +:+ line_feed
    +:+ line_feed
    +:+ dq "data: {'choices':[{'delta':{'content':'Why?'}}]}" +:+ line_feed;
    line_feed +:+ "data: [DONE]" +:+ line_feed +:+ line_feed ].

Definition analyze_request : EdgeFunctions.AnalyzeRequest :=
  {| EdgeFunctions.method := "POST";
     EdgeFunctions.resumeText := "Jane Doe. Built a compiler.";
     EdgeFunctions.targetRole := "" |}.

Definition unexpected_token (text : string) : string :=
  "Unexpected token in JSON: " +:+ text.

(** A message for the [TypeError] of taking the members of [null] apart. *)
Definition null_has_no_members : string := "Cannot destructure null".

(** The body that the test page posts to generate-test. *)
Definition generate_request : string :=
  dq "{'category':'aptitude','subcategory':null,'difficulty':'medium','numQuestions':4}".

Definition pasted_resume : ResumeAnalyzer.State :=
  {| ResumeAnalyzer.resumeText := "Jane Doe. Built a compiler.";
     ResumeAnalyzer.customTargetRole := "";
     ResumeAnalyzer.analyzing := false; ResumeAnalyzer.parsing := false;
     ResumeAnalyzer.analysis := None; ResumeAnalyzer.selectedFile := None;
     ResumeAnalyzer.inputMethod := ResumeAnalyzer.paste |}.

Definition resume_pdf : ResumeAnalyzer.File :=
  {| ResumeAnalyzer.file_name := "cv.pdf";
     ResumeAnalyzer.file_type := "application/pdf";
     ResumeAnalyzer.file_size := 120000 |}.

(** The dialog after [resume_pdf] was chosen. *)
Definition resume_chosen : ResumeAnalyzer.State :=
  state_after
    (ResumeAnalyzer.handleFileSelect (Some resume_pdf)
       {| ResumeAnalyzer.resumeText := ""; ResumeAnalyzer.customTargetRole := "";
          ResumeAnalyzer.analyzing := false; ResumeAnalyzer.parsing := false;
          ResumeAnalyzer.analysis := None; ResumeAnalyzer.selectedFile := None;
          ResumeAnalyzer.inputMethod := ResumeAnalyzer.upload |}).

(** A runtime for the samples: zero is written 0, and an object is shown
    as JavaScript shows it. *)
Definition zero_lexeme (lexeme : string) : bool := bool_decide (lexeme = "0").

(** The text of a number whose lexeme is a plain integer is that lexeme. *)
Definition integer_text (lexeme : string) : string := lexeme.

Definition object_text (v : Json) : string := "[object Object]".

(** * Properties *)

(** ** Streak *)

Section StreakFacts.

Implicit Types (today e d : Day) (dates l : list Day).

Lemma ascending_strict l :
  StronglySorted Z.le l → NoDup l → Sorted Z.lt l.
Proof.
  induction 1 as [|x l Hl IH Hx]; intros Hnd; [constructor|].
  apply NoDup_cons in Hnd as [Hnotin Hnd].
  constructor; [auto|].
  destruct l as [|y l']; constructor.
  apply Forall_cons in Hx as [Hxy _].
  assert (x ≠ y) by (intros ->; apply Hnotin; left).
  lia.
Qed.

Lemma sorted_unique_desc_descending dates :
  descending (sorted_unique_desc dates).
Proof.
  unfold descending, sorted_unique_desc.
  apply Sorted_StronglySorted; [intros x y z; unfold flip; lia|].
  apply Sorted_reverse, ascending_strict.
  - apply StronglySorted_merge_sort; [intros x y z; lia | intros x y; lia].
  - rewrite merge_sort_Permutation. apply NoDup_remove_dups.
Qed.

Lemma elem_of_sorted_unique_desc d dates :
  d ∈ sorted_unique_desc dates ↔ d ∈ dates.
Proof.
  unfold sorted_unique_desc.
  rewrite elem_of_reverse, merge_sort_Permutation.
  apply elem_of_remove_dups.
Qed.

Lemma length_sorted_unique_desc dates :
  (length (sorted_unique_desc dates) ≤ length dates)%nat.
Proof.
  unfold sorted_unique_desc.
  rewrite length_reverse, merge_sort_Permutation.
  induction dates as [|x l IH]; simpl; [lia|].
  destruct (decide_rel _ x l); simpl; lia.
Qed.

Lemma streak_loop_test today (i : nat) d :
  (d =? today - Z.of_nat i) || ((i =? 0)%nat && (d =? today))
  = (d =? today - Z.of_nat i).
Proof.
  destruct i as [|i]; [|simpl; by rewrite orb_false_r].
  replace (today - Z.of_nat 0) with today by lia. simpl. apply orb_diag.
Qed.

Lemma days_in_a_row_ext n e l1 l2 :
  (∀ x, x ∈ l1 ↔ x ∈ l2) → days_in_a_row n e l1 = days_in_a_row n e l2.
Proof.
  intros Hext. revert e. induction n as [|n IH]; intros e; simpl; [done|].
  rewrite (bool_decide_ext _ _ (Hext e)), IH. done.
Qed.

Lemma days_in_a_row_later n e d l :
  e < d → days_in_a_row n e (d :: l) = days_in_a_row n e l.
Proof.
  revert e. induction n as [|n IH]; intros e He; simpl; [done|].
  rewrite IH by lia.
  assert (e ∈ d :: l ↔ e ∈ l) as Hiff
    by (rewrite elem_of_cons; intuition lia).
  by rewrite (bool_decide_ext _ _ Hiff).
Qed.

Lemma days_in_a_row_absent n e l :
  e ∉ l → days_in_a_row n e l = 0%nat.
Proof.
  intros He. destruct n; simpl; [done|]. by rewrite bool_decide_eq_false_2.
Qed.

(** On a strictly descending array with nothing after the expected day, the
    loop counts the run of days that ends with the expected day. *)
Lemma streak_loop_days_in_a_row today l : ∀ (i n : nat),
  descending l →
  Forall (λ d, d ≤ today - Z.of_nat i) l →
  (length l ≤ n)%nat →
  streak_loop today i l = days_in_a_row n (today - Z.of_nat i) l.
Proof.
  induction l as [|d l IH]; intros i n Hdesc Hle Hlen.
  - simpl. by rewrite days_in_a_row_absent by apply not_elem_of_nil.
  - apply StronglySorted_cons in Hdesc as [Htl Hdesc].
    apply Forall_cons in Hle as [Hd _].
    cbn [streak_loop]. cbv zeta. rewrite streak_loop_test.
    destruct n as [|n]; [simpl in Hlen; lia|]. simpl in Hlen.
    destruct (Z.eqb_spec d (today - Z.of_nat i)) as [->|Hne].
    + cbn [days_in_a_row]. rewrite bool_decide_eq_true_2 by left.
      f_equal. rewrite days_in_a_row_later by lia.
      replace (today - Z.of_nat i - 1) with (today - Z.of_nat (S i)) by lia.
      apply IH; [done| |lia].
      eapply Forall_impl; [exact Htl|]. unfold flip. intros x Hx. simpl in Hx. lia.
    + symmetry. apply days_in_a_row_absent.
      rewrite elem_of_cons. intros [Heq|Hin]; [lia|].
      rewrite Forall_forall in Htl. specialize (Htl _ Hin).
      unfold flip in Htl. lia.
Qed.

Lemma streak_loop_consecutive today dates :
  Forall (λ d, d ≤ today) dates →
  streak_loop today 0 (sorted_unique_desc dates)
  = consecutive_days_ending today dates.
Proof.
  intros Hle. unfold consecutive_days_ending.
  rewrite (streak_loop_days_in_a_row today _ 0 (length dates)).
  - replace (today - Z.of_nat 0) with today by lia.
    apply days_in_a_row_ext. intros x. apply elem_of_sorted_unique_desc.
  - apply sorted_unique_desc_descending.
  - apply Forall_forall. intros d Hd.
    apply (proj1 (elem_of_sorted_unique_desc d dates)) in Hd.
    rewrite Forall_forall in Hle. specialize (Hle _ Hd). lia.
  - apply length_sorted_unique_desc.
Qed.

(** The run counted by [days_in_a_row] consists of days with an entry. *)
Lemma days_in_a_row_sound n l : ∀ e (j : nat),
  (j < days_in_a_row n e l)%nat → e - Z.of_nat j ∈ l.
Proof.
  induction n as [|n IH]; intros e j Hj; simpl in Hj; [lia|].
  case_bool_decide as He; [|lia].
  destruct j as [|j]; [by replace (e - Z.of_nat 0) with e by lia|].
  replace (e - Z.of_nat (S j)) with (e - 1 - Z.of_nat j) by lia.
  apply IH. lia.
Qed.

Lemma days_in_a_row_stop n l : ∀ e,
  (days_in_a_row n e l < n)%nat → e - Z.of_nat (days_in_a_row n e l) ∉ l.
Proof.
  induction n as [|n IH]; intros e Hlt; simpl in *; [lia|].
  case_bool_decide as He.
  - replace (e - Z.of_nat (S (days_in_a_row n (e - 1) l)))
      with (e - 1 - Z.of_nat (days_in_a_row n (e - 1) l)) by lia.
    apply IH. lia.
  - by replace (e - Z.of_nat 0) with e by lia.
Qed.

Lemma days_in_a_row_le n e l : (days_in_a_row n e l ≤ n)%nat.
Proof.
  revert e. induction n as [|n IH]; intros e; simpl; [lia|].
  case_bool_decide; [specialize (IH (e - 1))|]; lia.
Qed.

(** The fuel [length dates] is enough: [consecutive_days_ending e dates] is
    the length of the longest run of days with an entry that ends with [e]. *)
Lemma consecutive_days_ending_spec e dates :
  let k := consecutive_days_ending e dates in
  (∀ j : nat, (j < k)%nat → e - Z.of_nat j ∈ dates) ∧ e - Z.of_nat k ∉ dates.
Proof.
  unfold consecutive_days_ending. cbv zeta. split.
  - intros j. apply days_in_a_row_sound.
  - pose proof (days_in_a_row_le (length dates) e dates) as Hle.
    destruct (decide (days_in_a_row (length dates) e dates < length dates)%nat)
      as [Hlt|Hge]; [by apply days_in_a_row_stop|].
    assert (days_in_a_row (length dates) e dates = length dates) as Hk by lia.
    rewrite Hk. intros Hin.
    set (run := (λ j : nat, e - Z.of_nat j) <$> seq 0 (S (length dates))).
    assert (NoDup run) as Hnd.
    { apply NoDup_fmap_2; [|apply NoDup_seq].
      intros x y Hxy. lia. }
    assert (run ⊆+ dates) as Hsub.
    { apply NoDup_submseteq; [done|]. intros x Hx.
      apply list_elem_of_fmap in Hx as (j & -> & Hj).
      apply elem_of_seq in Hj.
      destruct (decide (j = length dates)) as [->|Hj']; [done|].
      apply (days_in_a_row_sound (length dates)). lia. }
    apply submseteq_length in Hsub.
    unfold run in Hsub. rewrite length_fmap, length_seq in Hsub. lia.
Qed.

End StreakFacts.

(** C1, as stated, fails: with entries yesterday and the day before and
    none today, the specification's streak is 2, and both copies of the loop
    stop at index 0, where they expect today's date, and report 0. *)
Lemma streak_of_run_ending_yesterday :
  let today := 20000 in
  let dates := [today - 1; today - 2] in
  streak_spec today dates = 2%nat
  ∧ CodingPractice.calculateStreak today (practiced_on <$> dates) = 0%nat
  ∧ Dashboard.fetchStats_streak today (Some (solved_on <$> dates)) = 0%nat.
Proof. by vm_compute. Qed.

(** An entry dated after today sits at index 0 and ends the loop at once,
    whatever was practiced today. *)
Example streak_with_future_entry :
  CodingPractice.calculateStreak 20000 (practiced_on <$> [20000; 20001; 19999]) = 0%nat
  ∧ consecutive_days_ending 20000 [20000; 20001; 19999] = 2%nat.
Proof. by vm_compute. Qed.

(** C1, amended: when no entry is dated after today, [calculateStreak] and
    the loop in [fetchStats] both return the number of consecutive calendar
    days ending today (not yesterday) that have at least one entry; so the
    streak is 0 as soon as today has no entry. *)
Theorem streak_counts_days_ending_today
    today (problemList : list CodingPractice.CodingProblem)
    (rows : list Dashboard.ProblemRow) :
  Forall (λ p, CodingPractice.date_practiced p ≤ today) problemList →
  Forall (λ r, Dashboard.date_practiced r ≤ today) rows →
  CodingPractice.calculateStreak today problemList
  = consecutive_days_ending today (CodingPractice.date_practiced <$> problemList)
  ∧ Dashboard.fetchStats_streak today (Some rows)
  = consecutive_days_ending today (Dashboard.date_practiced <$> rows).
Proof.
  intros Hp Hr. split.
  - unfold CodingPractice.calculateStreak.
    destruct problemList as [|p ps]; [done|].
    change (length (p :: ps) =? 0)%nat with false. cbv iota.
    apply streak_loop_consecutive, Forall_fmap. exact Hp.
  - unfold Dashboard.fetchStats_streak.
    destruct rows as [|r rs]; [done|].
    change (0 <? length (r :: rs))%nat with true. cbv iota.
    apply streak_loop_consecutive, Forall_fmap. exact Hr.
Qed.

Lemma streak_counts_days_ending_today_witness :
  let today := 20000 in
  let dates := [today - 1; today; today - 3; today] in
  Forall (λ p, CodingPractice.date_practiced p ≤ today) (practiced_on <$> dates)
  ∧ Forall (λ r, Dashboard.date_practiced r ≤ today) (solved_on <$> dates)
  ∧ CodingPractice.calculateStreak today (practiced_on <$> dates) = 2%nat
  ∧ Dashboard.fetchStats_streak today (Some (solved_on <$> dates)) = 2%nat.
Proof.
  cbv zeta.
  assert (Forall (λ p, CodingPractice.date_practiced p ≤ 20000)
            (practiced_on <$> [20000 - 1; 20000; 20000 - 3; 20000])) as Hp
    by (repeat (constructor; [simpl; lia|]); constructor).
  assert (Forall (λ r, Dashboard.date_practiced r ≤ 20000)
            (solved_on <$> [20000 - 1; 20000; 20000 - 3; 20000])) as Hr
    by (repeat (constructor; [simpl; lia|]); constructor).
  split; [exact Hp|]. split; [exact Hr|].
  destruct (streak_counts_days_ending_today 20000 _ _ Hp Hr) as [H1 H2].
  rewrite H1, H2. split; reflexivity.
Defined.

(** ** Ordered selects *)

Section TableFacts.
Context {Row : Type} (key : Row → Z).

Lemma Forall_insert_desc (P : Row → Prop) x rows :
  P x → Forall P rows → Forall P (insert_desc key x rows).
Proof.
  intros Hx. induction 1 as [|y rest Hy Hrest IH]; simpl.
  - by constructor.
  - destruct (key y <=? key x); repeat constructor; auto.
Qed.

Lemma insert_desc_sorted x rows :
  desc_by key rows → desc_by key (insert_desc key x rows).
Proof.
  induction 1 as [|y rest Hrest IH Hy]; simpl.
  - repeat constructor.
  - destruct (Z.leb_spec (key y) (key x)) as [Hle|Hgt].
    + constructor; [by constructor|].
      constructor; [done|].
      eapply Forall_impl; [exact Hy|]. simpl. intros z Hz. lia.
    + constructor; [done|].
      apply Forall_insert_desc; [lia|done].
Qed.

Lemma order_desc_sorted rows : desc_by key (order_desc key rows).
Proof.
  induction rows as [|x rows IH]; simpl; [constructor|].
  by apply insert_desc_sorted.
Qed.

Lemma insert_desc_front x rows :
  Forall (λ y, key y ≤ key x) rows → insert_desc key x rows = x :: rows.
Proof.
  destruct 1 as [|y rest Hy _]; simpl; [done|].
  by rewrite (proj2 (Z.leb_le _ _) Hy).
Qed.

(** Dropping rows commutes with inserting into an ordered list. *)
Lemma filter_insert_desc (P : Row → Prop) `{!∀ r, Decision (P r)} x rows :
  desc_by key rows →
  filter P (insert_desc key x rows)
  = if decide (P x) then insert_desc key x (filter P rows) else filter P rows.
Proof.
  induction 1 as [|y rest Hrest IH Hy]; simpl.
  - rewrite filter_cons, filter_nil. by destruct (decide (P x)).
  - destruct (Z.leb_spec (key y) (key x)) as [Hle|Hgt].
    + rewrite (filter_cons _ x). destruct (decide (P x)); [|done].
      rewrite insert_desc_front; [done|].
      apply Forall_forall. intros z Hz.
      apply list_elem_of_filter in Hz as [_ Hz].
      apply elem_of_cons in Hz as [->|Hz]; [done|].
      rewrite Forall_forall in Hy. specialize (Hy _ Hz). simpl in Hy. lia.
    + rewrite (filter_cons _ y), IH. rewrite (filter_cons _ y).
      destruct (decide (P y)), (decide (P x)); simpl; try done.
      by rewrite (proj2 (Z.leb_gt _ _) Hgt).
Qed.

Lemma filter_order_desc (P : Row → Prop) `{!∀ r, Decision (P r)} rows :
  filter P (order_desc key rows) = order_desc key (filter P rows).
Proof.
  induction rows as [|x rows IH]; simpl; [done|].
  rewrite filter_insert_desc by apply order_desc_sorted.
  rewrite filter_cons, IH. by destruct (decide (P x)).
Qed.

Lemma elem_of_insert_desc r x rows :
  r ∈ insert_desc key x rows ↔ r = x ∨ r ∈ rows.
Proof.
  induction rows as [|y rest IH]; simpl.
  - rewrite list_elem_of_singleton, elem_of_nil. tauto.
  - destruct (key y <=? key x).
    + by rewrite elem_of_cons.
    + rewrite !elem_of_cons, IH. tauto.
Qed.

Lemma elem_of_order_desc r rows : r ∈ order_desc key rows ↔ r ∈ rows.
Proof.
  induction rows as [|x rows IH]; simpl; [done|].
  by rewrite elem_of_insert_desc, IH, elem_of_cons.
Qed.

End TableFacts.

(** A delete under the row-level policy, seen through the owner's select:
    exactly the rows with that id are gone and the order of the others is
    kept. *)
Lemma select_own_after_delete {Row} (row_id owner : Row → string) (key : Row → Z)
    (uid x : string) (table : list Row) :
  select_own owner key uid
    (filter (λ r, ¬ (row_id r = x ∧ owner r = uid)) table)
  = filter (λ r, row_id r ≠ x) (select_own owner key uid table).
Proof.
  unfold select_own. rewrite filter_order_desc. f_equal.
  rewrite !list_filter_filter. apply list_filter_iff.
  intros r. split.
  - intros [Hown Hkeep]. split; [|done]. intros Hid. by apply Hkeep.
  - intros [Hid Hown]. split; [done|]. by intros [? _].
Qed.

(** ** Deleting a record *)

Lemma falsy_false s : s ≠ "" → Js.falsy s = false.
Proof. intros. unfold Js.falsy. by apply bool_decide_eq_false_2. Qed.

(** C9, as stated, fails: the handler does not edit the displayed list, it
    fetches it again.  When the delete succeeds and that fetch fails, the
    row is gone from the table and still displayed. *)
Lemma deleted_record_still_displayed :
  let r := CodingPractice.handleDelete (Some {| user_id_of := "u1" |})
             true 20000 false coding_world in
  CodingPractice.id <$> CodingPractice.coding_problems (state_after r) = ["p9"; "p2"]
  ∧ CodingPractice.id <$> CodingPractice.problems (CodingPractice.ui (state_after r))
    = ["p1"; "p2"]
  ∧ toasts (log_of r) = ["Problem deleted"; "Failed to fetch problems"].
Proof. by vm_compute. Qed.

(** C9, amended: when the displayed list is the signed-in user's rows as
    the table holds them, a successful deletion of X followed by a
    successful fetch yields the previous list with exactly the records
    whose id is X removed, the others in their order; when the fetch that
    follows the deletion fails, the displayed list is unchanged, so it
    still shows what the table no longer holds.  This holds on the coding
    page and on the application page. *)
Theorem delete_removes_exactly_that_record
    (u : User) (x y : string) (today : Day) (select_ok select_ok' : bool)
    (w : CodingPractice.World) (a : Applications.World) :
  x ≠ "" → y ≠ "" →
  CodingPractice.problemId (CodingPractice.deleteConfirm (CodingPractice.ui w)) = Some x →
  CodingPractice.problems (CodingPractice.ui w)
  = select_own CodingPractice.user_id CodingPractice.date_practiced (user_id_of u)
      (CodingPractice.coding_problems w) →
  Applications.appId (Applications.deleteConfirm (Applications.ui a)) = Some y →
  Applications.applications (Applications.ui a)
  = select_own Applications.user_id Applications.apply_date (user_id_of u)
      (Applications.table a) →
  let w' := state_after (CodingPractice.handleDelete (Some u) true today select_ok w) in
  let a' := state_after (Applications.handleDelete (Some u) true select_ok' a) in
  let problems' := CodingPractice.problems (CodingPractice.ui w') in
  let applications' := Applications.applications (Applications.ui a') in
  (if select_ok
   then problems'
        = filter (λ r, CodingPractice.id r ≠ x)
            (CodingPractice.problems (CodingPractice.ui w))
        ∧ ∀ r, r ∈ problems'
               ↔ r ∈ CodingPractice.problems (CodingPractice.ui w)
                 ∧ CodingPractice.id r ≠ x
   else problems' = CodingPractice.problems (CodingPractice.ui w)
        ∧ ∀ r, r ∈ problems' → CodingPractice.id r = x →
               r ∉ CodingPractice.coding_problems w')
  ∧ (if select_ok'
     then applications'
          = filter (λ r, Applications.id r ≠ y)
              (Applications.applications (Applications.ui a))
          ∧ ∀ r, r ∈ applications'
                 ↔ r ∈ Applications.applications (Applications.ui a)
                   ∧ Applications.id r ≠ y
     else applications' = Applications.applications (Applications.ui a)
          ∧ ∀ r, r ∈ applications' → Applications.id r = y →
                 r ∉ Applications.table a').
Proof.
  intros Hne Hne' Hx Hsync Hy Hsync' w' a' problems' applications'. split.
  - subst problems' w'. unfold CodingPractice.handleDelete. run_handler.
    rewrite Hx, (falsy_false _ Hne).
    unfold CodingPractice.fetchProblems. destruct select_ok; run_handler; cbn.
    + assert (∀ l, l = filter (λ r, CodingPractice.id r ≠ x)
                           (CodingPractice.problems (CodingPractice.ui w)) →
                   l = filter (λ r, CodingPractice.id r ≠ x)
                         (CodingPractice.problems (CodingPractice.ui w))
                   ∧ ∀ r, r ∈ l ↔ r ∈ CodingPractice.problems (CodingPractice.ui w)
                                  ∧ CodingPractice.id r ≠ x) as Hlist.
      { intros l ->. split; [done|]. intros r. rewrite list_elem_of_filter. tauto. }
      apply Hlist. rewrite Hsync. apply select_own_after_delete.
    + split; [done|]. intros r Hr Hid Htable.
      apply list_elem_of_filter in Htable as [Hkeep _]. apply Hkeep. split; [done|].
      rewrite Hsync in Hr. unfold select_own in Hr.
      apply elem_of_order_desc, list_elem_of_filter in Hr as [Hown _]. exact Hown.
  - subst applications' a'. unfold Applications.handleDelete. run_handler.
    rewrite Hy, (falsy_false _ Hne').
    unfold Applications.fetchApplications. destruct select_ok'; run_handler; cbn.
    + assert (∀ l, l = filter (λ r, Applications.id r ≠ y)
                           (Applications.applications (Applications.ui a)) →
                   l = filter (λ r, Applications.id r ≠ y)
                         (Applications.applications (Applications.ui a))
                   ∧ ∀ r, r ∈ l ↔ r ∈ Applications.applications (Applications.ui a)
                                  ∧ Applications.id r ≠ y) as Hlist.
      { intros l ->. split; [done|]. intros r. rewrite list_elem_of_filter. tauto. }
      apply Hlist. rewrite Hsync'. apply select_own_after_delete.
    + split; [done|]. intros r Hr Hid Htable.
      apply list_elem_of_filter in Htable as [Hkeep _]. apply Hkeep. split; [done|].
      rewrite Hsync' in Hr. unfold select_own in Hr.
      apply elem_of_order_desc, list_elem_of_filter in Hr as [Hown _]. exact Hown.
Qed.

Lemma delete_removes_exactly_that_record_witness :
  let u := {| user_id_of := "u1" |} in
  CodingPractice.id <$>
    CodingPractice.problems
      (CodingPractice.ui
         (state_after (CodingPractice.handleDelete (Some u) true 20000 true coding_world)))
  = ["p2"]
  ∧ Applications.id <$>
      Applications.applications
        (Applications.ui
           (state_after (Applications.handleDelete (Some u) true false applications_world)))
    = ["a1"; "a2"].
Proof.
  cbv zeta.
  destruct (delete_removes_exactly_that_record {| user_id_of := "u1" |} "p1" "a1" 20000
              true false coding_world applications_world) as [[H1 _] [H2 _]];
    [done | done | reflexivity | by vm_compute | reflexivity | by vm_compute |].
  rewrite H1, H2. split; by vm_compute.
Defined.


(** ** Filters *)

Lemma filter_bool_Prop {A} (f : A → bool) (P : A → Prop) `{!∀ x, Decision (P x)}
    (l : list A) :
  (∀ x, f x = true ↔ P x) → List.filter f l = filter P l.
Proof.
  intros Hf. induction l as [|x l IH]; simpl; [done|].
  rewrite filter_cons, IH.
  destruct (decide (P x)) as [HP|HP].
  - by rewrite (proj2 (Hf x) HP).
  - destruct (f x) eqn:Hfx; [|done]. by apply Hf in Hfx.
Qed.

Lemma two_filters_test (s1 v1 s2 v2 : string) :
  (if negb (s1 =? "all")%string && negb (v1 =? s1)%string then false
   else if negb (s2 =? "all")%string && negb (v2 =? s2)%string then false
   else true) = true
  ↔ passes s1 v1 ∧ passes s2 v2.
Proof.
  unfold passes.
  destruct (String.eqb_spec s1 "all"), (String.eqb_spec v1 s1),
    (String.eqb_spec s2 "all"), (String.eqb_spec v2 s2); simpl;
    intuition congruence.
Qed.

(** C7: the displayed list is the naive filter by the conjunction of the
    two predicates over the full list; filtering by one setting and then by
    the other, in either order, gives the same list; a record is shown iff
    it is in the list and passes both settings.  The same holds for the
    coding problems and their two filters. *)
Theorem filtered_lists_are_conjunction_filters
    (st : Applications.State) (cp : CodingPractice.State) :
  let status_ok := λ app, passes (Applications.filterStatus st) (Applications.status app) in
  let type_ok := λ app, passes (Applications.filterType st) (Applications.job_type app) in
  let platform_ok := λ p,
    passes (CodingPractice.filterPlatform cp) (CodingPractice.platform p) in
  let difficulty_ok := λ p,
    passes (CodingPractice.filterDifficulty cp) (CodingPractice.difficulty p) in
  (Applications.filteredApps st
   = filter (λ app, status_ok app ∧ type_ok app) (Applications.applications st)
   ∧ Applications.filteredApps st
     = filter status_ok (filter type_ok (Applications.applications st))
   ∧ Applications.filteredApps st
     = filter type_ok (filter status_ok (Applications.applications st))
   ∧ ∀ app, app ∈ Applications.filteredApps st
            ↔ app ∈ Applications.applications st ∧ status_ok app ∧ type_ok app)
  ∧ (CodingPractice.filteredProblems cp
     = filter (λ p, platform_ok p ∧ difficulty_ok p) (CodingPractice.problems cp)
     ∧ CodingPractice.filteredProblems cp
       = filter platform_ok (filter difficulty_ok (CodingPractice.problems cp))
     ∧ CodingPractice.filteredProblems cp
       = filter difficulty_ok (filter platform_ok (CodingPractice.problems cp))
     ∧ ∀ p, p ∈ CodingPractice.filteredProblems cp
            ↔ p ∈ CodingPractice.problems cp ∧ platform_ok p ∧ difficulty_ok p).
Proof.
  intros status_ok type_ok platform_ok difficulty_ok.
  assert (Applications.filteredApps st
          = filter (λ app, status_ok app ∧ type_ok app) (Applications.applications st))
    as Happs.
  { unfold Applications.filteredApps. apply filter_bool_Prop.
    intros app. apply two_filters_test. }
  assert (CodingPractice.filteredProblems cp
          = filter (λ p, platform_ok p ∧ difficulty_ok p) (CodingPractice.problems cp))
    as Hprobs.
  { unfold CodingPractice.filteredProblems. apply filter_bool_Prop.
    intros p. apply two_filters_test. }
  split; (split; [done|]).
  - rewrite Happs. split; [by rewrite list_filter_filter|]. split.
    + rewrite list_filter_filter. apply list_filter_iff. tauto.
    + intros app. rewrite list_elem_of_filter. tauto.
  - rewrite Hprobs. split; [by rewrite list_filter_filter|]. split.
    + rewrite list_filter_filter. apply list_filter_iff. tauto.
    + intros p. rewrite list_elem_of_filter. tauto.
Qed.

(** ** Required fields *)

Lemma trimStart_all_whitespace s :
  all_whitespace s = true → Js.trimStart s = "".
Proof.
  induction s as [|c s IH]; simpl; [done|].
  intros [Hc Hs]%andb_prop. rewrite Hc. auto.
Qed.

Lemma trim_all_whitespace s : all_whitespace s = true → Js.trim s = "".
Proof.
  intros Hs. unfold Js.trim. by rewrite (trimStart_all_whitespace _ Hs).
Qed.

(** C6: a submission whose company (or role), problem name or topic is empty
    or white space only ends with one error notification and no request;
    nothing but the [submitting] flag, reset to false, is touched. *)
Theorem blank_required_field_is_rejected
    (u : User) (app : Applications.Form) (problem : CodingPractice.Form)
    (goal : Learning.Form)
    (ok ok' : bool) (fresh now : string) (now' : Z) (today : Day)
    (a : Applications.World) (c : CodingPractice.World) (l : Learning.World) :
  all_whitespace (Applications.form_company_name app) = true
  ∨ all_whitespace (Applications.form_role app) = true →
  all_whitespace (CodingPractice.form_problem_name problem) = true →
  all_whitespace (Learning.form_topic_name goal) = true →
  Applications.handleSubmit (Some u) app ok fresh now ok' a
  = (Returned tt, Applications.on_ui (Applications.setSubmitting false) a,
     [toast_error "Company name and role are required"])
  ∧ CodingPractice.handleSubmit (Some u) problem ok fresh now today ok' c
    = (Returned tt, CodingPractice.on_ui (CodingPractice.setSubmitting false) c,
       [toast_error "Problem name is required"])
  ∧ Learning.handleSubmit (Some u) goal ok fresh now' ok' l
    = (Returned tt, Learning.on_ui (Learning.setSubmitting false) l,
       [toast_error "Topic name is required"]).
Proof.
  intros Happ Hproblem Hgoal. repeat split.
  - unfold Applications.handleSubmit. run_handler.
    assert (Js.falsy (Js.trim (Applications.form_company_name app))
            || Js.falsy (Js.trim (Applications.form_role app)) = true) as ->.
    { destruct Happ as [H|H]; rewrite (trim_all_whitespace _ H);
        [done | apply orb_true_r]. }
    reflexivity.
  - unfold CodingPractice.handleSubmit. run_handler.
    rewrite (trim_all_whitespace _ Hproblem). reflexivity.
  - unfold Learning.handleSubmit. run_handler.
    rewrite (trim_all_whitespace _ Hgoal). reflexivity.
Qed.


Lemma blank_required_field_is_rejected_witness :
  let u := {| user_id_of := "u1" |} in
  requests (log_of (Applications.handleSubmit (Some u) blank_application true "x1"
                      "2024-10-02T09:00:00Z" true applications_world)) = []
  ∧ requests (log_of (CodingPractice.handleSubmit (Some u) blank_problem true "x1"
                        "2024-10-02T09:00:00Z" 20000 true coding_world)) = []
  ∧ requests (log_of (Learning.handleSubmit (Some u) blank_goal true "x1"
                        1727859600000 true learning_world)) = [].
Proof.
  cbv zeta.
  edestruct (blank_required_field_is_rejected {| user_id_of := "u1" |}
               blank_application blank_problem blank_goal true true "x1"
               "2024-10-02T09:00:00Z" 1727859600000 20000
               applications_world coding_world learning_world)
    as (Ha & Hc & Hl); [by right | reflexivity | reflexivity |].
  rewrite Ha, Hc, Hl. repeat split; reflexivity.
Defined.

(** ** Mock tests: scoring *)

Section MockTestFacts.
Import MockTests.

Lemma length_filter_shift (f : nat → bool) (l : list nat) :
  length (List.filter f (S <$> l)) = length (List.filter (λ k, f (S k)) l).
Proof.
  induction l as [|k l IH]; [done|].
  rewrite fmap_cons. cbn [List.filter].
  destruct (f (S k)); cbn [length]; by rewrite IH.
Qed.

Lemma count_correct_from selected qs : ∀ index correctCount,
  count_correct selected index qs correctCount
  = (correctCount
     + length (List.filter
                 (λ k, match qs !! k with
                       | Some q => bool_decide (js_get selected (index + k) = Some (correctAnswer q))
                       | None => false
                       end)
                 (seq 0 (length qs))))%nat.
Proof.
  induction qs as [|q rest IH]; intros index correctCount; [simpl; lia|].
  cbn [count_correct length]. rewrite IH.
  change (seq 0 (S (length rest))) with (0%nat :: seq 1 (length rest)).
  rewrite <- fmap_S_seq. cbn [List.filter].
  change ((q :: rest) !! 0%nat) with (Some q). rewrite Nat.add_0_r.
  assert (length (List.filter
                    (λ k, match (q :: rest) !! k with
                          | Some q0 => bool_decide
                              (js_get selected (index + k) = Some (correctAnswer q0))
                          | None => false
                          end)
                    (S <$> seq 0 (length rest)))
          = length (List.filter
                      (λ k, match rest !! k with
                            | Some q0 => bool_decide
                                (js_get selected (S index + k) = Some (correctAnswer q0))
                            | None => false
                            end)
                      (seq 0 (length rest)))) as Hrest.
  { rewrite length_filter_shift. f_equal. apply List.filter_ext.
    intros k. change ((q :: rest) !! S k) with (rest !! k).
    by rewrite Nat.add_succ_r. }
  destruct (bool_decide _); cbn [length]; rewrite Hrest; lia.
Qed.

Lemma count_correct_spec selected qs :
  count_correct selected 0 qs 0 = correct_selections selected qs.
Proof. by rewrite count_correct_from. Qed.

(** C2: for a test with N questions, [handleSubmitTest] issues one update
    of the test's row carrying [correct_answers] = K, the number of indices
    whose selected answer equals the question's correct answer, [score] =
    (K / N) * 100 in the arithmetic of JavaScript numbers, and status
    'completed'; when the update succeeds the same tally is put in
    [currentTest] and the result view is shown. *)
Theorem submit_scores_correct_selections
    (u : User) (now : string) (update_ok : bool) (st : State) (current : MockTest) :
  currentTest st = Some current →
  let K := correct_selections (selectedAnswers st) (questions current) in
  let N := length (questions current) in
  let percent := (number_of K / number_of N * 100)%float in
  let r := handleSubmitTest (Some u) now update_ok st in
  requests (log_of r)
  = [Update "mock_tests" (test_id current)
       (test_result {| res_correct_answers := K;
                       res_time_taken := max_time current - timeRemaining st;
                       res_answers := selectedAnswers st;
                       res_status := "completed";
                       res_score := percent;
                       res_completed_at := now |})]
  ∧ (update_ok = true →
     ∃ completed, currentTest (state_after r) = Some completed
       ∧ correct_answers completed = K
       ∧ score completed = percent
       ∧ status completed = "completed"
       ∧ answers completed = selectedAnswers st
       ∧ view (state_after r) = result).
Proof.
  intros Hcur K N percent r. subst r.
  unfold handleSubmitTest, handleSubmitTest_of. run_handler. rewrite Hcur. run_handler.
  rewrite count_correct_spec. fold K N. fold percent.
  destruct update_ok; cbn.
  - split; [done|]. intros _. eexists. repeat split; reflexivity.
  - split; [done|]. intros [=].
Qed.

Lemma submit_scores_correct_selections_witness :
  let r := handleSubmitTest (Some {| user_id_of := "u1" |}) "2024-10-01T09:03:58Z"
             true sample_session in
  correct_selections (selectedAnswers sample_session) sample_questions = 2%nat
  ∧ requests (log_of r)
    = [Update "mock_tests" "t1"
         (test_result {| res_correct_answers := 2; res_time_taken := 238;
                         res_answers := [Some "B"; Some "A"; Some "A"; Some ""];
                         res_status := "completed"; res_score := 50%float;
                         res_completed_at := "2024-10-01T09:03:58Z" |})].
Proof.
  cbv zeta. split; [by vm_compute|].
  destruct (submit_scores_correct_selections {| user_id_of := "u1" |}
              "2024-10-01T09:03:58Z" true sample_session sample_test eq_refl)
    as [Hreq _].
  rewrite Hreq. by vm_compute.
Defined.

(** ** Mock tests: the countdown *)

(** The Submit button runs the function of the state it is clicked in. *)
Lemma handleSubmitTest_eq who now update_ok st :
  handleSubmitTest who now update_ok st = handleSubmitTest_of st who now update_ok st.
Proof.
  unfold handleSubmitTest, bind, get.
  by destruct (handleSubmitTest_of st who now update_ok st) as [[[] st'] log].
Qed.

(** A tick, case by case. *)
Lemma tick_run render who now update_ok st :
  tick render who now update_ok st
  = if timer_running render then
      if timeRemaining st <=? 1 then
        let r := handleSubmitTest_of render who now update_ok st in
        (Returned true, setTimeRemaining 0 (state_after r), log_of r)
      else (Returned false, setTimeRemaining (timeRemaining st - 1) st, [])
    else (Returned false, st, []).
Proof.
  unfold tick, tick_update, handleSubmitTest_of.
  destruct (timer_running render); [|done]. run_handler.
  destruct (timeRemaining st <=? 1); [|done].
  by destruct (currentTest render), who, update_ok.
Qed.

(** C3: the interval exists while the render it was created in shows a
    test with time left, and that render and the state agree on view, test
    and time left.  A tick then takes exactly one second off
    [timeRemaining] and never takes it below zero.  While the new value is
    not zero nothing else happens: no request, no notification, no other
    change.  At the tick that brings it to zero the test of a signed-in
    user is submitted: one update of the test's row is requested, with the
    tally and the answers of the render the interval was created in, and
    the result view is shown when it succeeds; the answers on screen stay
    as they are. *)
Theorem timer_tick_counts_down
    (render st : State) (current : MockTest) (u : User) (now : string)
    (update_ok : bool) :
  timer_running render = true →
  same_timer render st →
  currentTest render = Some current →
  let K := correct_selections (selectedAnswers render) (questions current) in
  let N := length (questions current) in
  let r := tick render (Some u) now update_ok st in
  timeRemaining (state_after r) = timeRemaining st - 1
  ∧ 0 ≤ timeRemaining (state_after r)
  ∧ (timeRemaining st ≠ 1 →
     r = (Returned false, setTimeRemaining (timeRemaining st - 1) st, []))
  ∧ (timeRemaining st = 1 →
     outcome_of r = Returned true
     ∧ requests (log_of r)
       = [Update "mock_tests" (test_id current)
            (test_result {| res_correct_answers := K;
                            res_time_taken := max_time current - 1;
                            res_answers := selectedAnswers render;
                            res_status := "completed";
                            res_score := (number_of K / number_of N * 100)%float;
                            res_completed_at := now |})]
     ∧ toasts (log_of r)
       = [if update_ok then "Test completed!" else "Failed to submit test"]
     ∧ view (state_after r) = (if update_ok then result else view st)
     ∧ selectedAnswers (state_after r) = selectedAnswers st).
Proof.
  intros Hrun (Hview & Htest & Htime) Hcur K N r. subst r.
  assert (0 < timeRemaining st) as Hpos.
  { unfold timer_running in Hrun. apply andb_prop in Hrun as [_ Hrun]. lia. }
  rewrite tick_run, Hrun.
  destruct (Z.leb_spec (timeRemaining st) 1) as [Hle|Hgt].
  - assert (timeRemaining st = 1) as Hone by lia.
    unfold handleSubmitTest_of. rewrite Hcur, Htime, Hone. run_handler.
    rewrite count_correct_spec. fold K N.
    destruct update_ok; cbn; (split; [lia|]); (split; [lia|]); (split; [done|]);
      intros _; repeat split; reflexivity.
  - cbn. split; [lia|]. split; [lia|]. split; [done|]. lia.
Qed.

Lemma timer_tick_counts_down_witness :
  let render := setTimeRemaining 1 sample_session in
  let st := handleAnswerSelect "C" render in
  let r := tick render (Some {| user_id_of := "u1" |}) "2024-10-01T09:03:59Z" true st in
  selectedAnswers st = [Some "B"; Some "C"; Some "A"; Some ""]
  ∧ timeRemaining (state_after r) = 0
  ∧ requests (log_of r)
    = [Update "mock_tests" "t1"
         (test_result {| res_correct_answers := 2; res_time_taken := 239;
                         res_answers := [Some "B"; Some "A"; Some "A"; Some ""];
                         res_status := "completed"; res_score := 50%float;
                         res_completed_at := "2024-10-01T09:03:59Z" |})]
  ∧ view (state_after r) = result.
Proof.
  cbv zeta. split; [by vm_compute|].
  destruct (timer_tick_counts_down (setTimeRemaining 1 sample_session)
              (handleAnswerSelect "C" (setTimeRemaining 1 sample_session))
              sample_test {| user_id_of := "u1" |} "2024-10-01T09:03:59Z" true)
    as (Hdec & _ & _ & Hzero); [reflexivity | by vm_compute | reflexivity |].
  destruct (Hzero eq_refl) as (_ & Hreq & _ & Hview & _).
  split; [exact Hdec|]. split; [|exact Hview].
  rewrite Hreq. by vm_compute.
Defined.

(** When the render the effect last ran in shows no test with time left,
    no interval exists: nothing ticks. *)
Lemma tick_stopped render who now update_ok st :
  timer_running render = false →
  tick render who now update_ok st = (Returned false, st, []).
Proof. intros Hrun. by rewrite tick_run, Hrun. Qed.

(** ** Mock tests: what holds throughout a test *)

Lemma click_same_timer st st' : click st st' → same_timer st st'.
Proof. by destruct 1. Qed.

Lemma handleSubmitTest_failed_same_timer who now st :
  same_timer st (state_after (handleSubmitTest who now false st)).
Proof.
  unfold handleSubmitTest, handleSubmitTest_of. run_handler.
  by destruct (currentTest st), who.
Qed.

(** The render of the interval and the state agree on what the timer
    effect depends on. *)
Lemma timed_from_same render st : timed_from render st → same_timer render st.
Proof.
  induction 1 as [u qs fresh_id now st0 | render st st' _ IH Hclick
                  | render who now update_ok st _ _ _ | render u now st _ _
                  | render who now st _ IH]; try done.
  - destruct IH as (? & ? & ?), (click_same_timer _ _ Hclick) as (? & ? & ?).
    repeat split; congruence.
  - destruct IH as (? & ? & ?),
      (handleSubmitTest_failed_same_timer who now st) as (? & ? & ?).
    repeat split; congruence.
Qed.

(** A property that holds after a start and is kept by clicks, ticks and
    submissions holds throughout a test. *)
Lemma in_test_invariant (P : State → Prop) :
  (∀ u qs fresh_id now st0,
     P (state_after (startTest (Some u) (generated qs) true fresh_id now st0))) →
  (∀ st st', P st → click st st' → P st') →
  (∀ render who now update_ok st,
     same_timer render st → P st → P (state_after (tick render who now update_ok st))) →
  (∀ who now update_ok st,
     P st → P (state_after (handleSubmitTest who now update_ok st))) →
  ∀ st, in_test st → P st.
Proof.
  intros Hstart Hclick Htick Hsubmit st [render Hin].
  induction Hin as [u qs fresh_id now st0 | render st st' _ IH Hc
                    | render who now update_ok st Hin IH _ | render u now st _ IH
                    | render who now st _ IH]; eauto using timed_from_same.
Qed.

Lemma in_test_clicked st st' : in_test st → click st st' → in_test st'.
Proof. intros [render Hin] Hclick. exists render. by eapply test_clicked. Qed.

Lemma in_test_started u qs fresh_id now st0 :
  in_test (state_after (startTest (Some u) (generated qs) true fresh_id now st0)).
Proof. eexists. apply test_started. Qed.

Lemma handleSubmitTest_of_timeRemaining render who now update_ok st :
  timeRemaining (state_after (handleSubmitTest_of render who now update_ok st))
  = timeRemaining st.
Proof.
  unfold handleSubmitTest_of. run_handler.
  by destruct (currentTest render), who, update_ok.
Qed.

(** Throughout a test the time left is never negative. *)
Lemma time_never_negative st : in_test st → 0 ≤ timeRemaining st.
Proof.
  revert st. apply in_test_invariant.
  - intros u qs fresh_id now st0. unfold startTest. run_handler. cbn. lia.
  - intros st st' IH Hclick. by destruct Hclick.
  - intros render who now update_ok st _ IH. rewrite tick_run.
    destruct (timer_running render); [|exact IH].
    destruct (Z.leb_spec (timeRemaining st) 1) as [Hle|Hgt]; cbn; lia.
  - intros who now update_ok st IH.
    by rewrite handleSubmitTest_eq, handleSubmitTest_of_timeRemaining.
Qed.

(** ** Mock tests: the selected answers *)

(** Past the end the array grows, with holes. *)
Example js_set_past_the_end :
  js_set [Some "A"; Some ""] 4 "C" = [Some "A"; Some ""; None; None; Some "C"].
Proof. reflexivity. Qed.

Lemma js_set_in_range (a : list Slot) i x :
  (i < length a)%nat → js_set a i x = <[i := Some x]> a.
Proof.
  intros Hi. unfold js_set. by rewrite (proj2 (Nat.ltb_lt _ _) Hi).
Qed.

Lemma current_question_in_range st q :
  answers_fit st → currentQuestion st = Some q →
  (currentQuestionIndex st < length (selectedAnswers st))%nat.
Proof.
  intros (current & Hcur & Hlen) Hq. unfold currentQuestion in Hq.
  rewrite Hcur in Hq. simpl in Hq. rewrite Hlen. by eapply lookup_lt_Some.
Qed.

Lemma handleSubmitTest_of_answers_fit render who now update_ok st :
  currentTest render = currentTest st →
  answers_fit st →
  answers_fit (state_after (handleSubmitTest_of render who now update_ok st)).
Proof.
  intros Hsame (current & Hcur & Hlen). unfold handleSubmitTest_of.
  rewrite Hsame, Hcur. destruct who as [u|]; run_handler; [|by exists current].
  destruct update_ok; cbn; [|by exists current].
  eexists. split; [reflexivity|]. exact Hlen.
Qed.

Lemma in_test_answers_fit st : in_test st → answers_fit st.
Proof.
  revert st. apply in_test_invariant.
  - intros u qs fresh_id now st0.
    unfold startTest. run_handler. cbn. eexists. split; [reflexivity|].
    cbn. apply length_replicate.
  - intros st st' (current & Hcur & Hlen) Hclick.
    destruct Hclick as [st key text q Hview Hq Hkey | st | st c | st c index];
      try (exists current; by split).
    exists current. split; [done|]. cbn.
    rewrite js_set_in_range, length_insert; [done|].
    apply (current_question_in_range st q); [by exists current|done].
  - intros render who now update_ok st (_ & Hsame & _) IH. rewrite tick_run.
    destruct (timer_running render); [|exact IH].
    destruct (timeRemaining st <=? 1); [|exact IH].
    exact (handleSubmitTest_of_answers_fit render who now update_ok st Hsame IH).
  - intros who now update_ok st IH. rewrite handleSubmitTest_eq.
    by apply handleSubmitTest_of_answers_fit.
Qed.

(** C10: throughout a test the array of selected answers has one slot per
    question; a click on an option of the current question, at index i,
    puts the chosen key at index i, leaves every other index and the length
    as they were, and touches no other part of the state. *)
Theorem answer_select_replaces_one_slot (st : State) :
  in_test st →
  answers_fit st
  ∧ ∀ key text q,
      test_view st → currentQuestion st = Some q → (key, text) ∈ options q →
      let i := currentQuestionIndex st in
      let st' := handleAnswerSelect key st in
      js_get (selectedAnswers st') i = Some key
      ∧ (∀ j, j ≠ i → selectedAnswers st' !! j = selectedAnswers st !! j)
      ∧ length (selectedAnswers st') = length (selectedAnswers st)
      ∧ st' = setSelectedAnswers (<[i := Some key]> (selectedAnswers st)) st
      ∧ answers_fit st'.
Proof.
  intros Hin. pose proof (in_test_answers_fit st Hin) as Hfit.
  split; [exact Hfit|]. intros key text q Hview Hq Hkey i st'.
  pose proof (current_question_in_range st q Hfit Hq) as Hi. fold i in Hi.
  assert (selectedAnswers st' = <[i := Some key]> (selectedAnswers st)) as Hsel.
  { subst st'. cbn. by apply js_set_in_range. }
  repeat split.
  - unfold js_get. rewrite Hsel, list_lookup_insert_eq by done. done.
  - intros j Hj. rewrite Hsel. by apply list_lookup_insert_ne.
  - rewrite Hsel. apply length_insert.
  - subst st'. unfold handleAnswerSelect. by rewrite js_set_in_range.
  - apply in_test_answers_fit. eapply in_test_clicked; [exact Hin|].
    by eapply click_option.
Qed.

Lemma answer_select_replaces_one_slot_witness :
  selectedAnswers started_session = [Some ""; Some ""; Some ""; Some ""]
  ∧ selectedAnswers (handleAnswerSelect "B" started_session)
    = [Some "B"; Some ""; Some ""; Some ""].
Proof.
  split; [by vm_compute|].
  destruct (answer_select_replaces_one_slot started_session) as [_ Hclick];
    [apply in_test_started|].
  edestruct (Hclick "B" "4") as (_ & _ & _ & Hst & _).
  - split; [by vm_compute|]. by eexists.
  - reflexivity.
  - apply list_elem_of_In. simpl. tauto.
  - rewrite Hst. by vm_compute.
Defined.

End MockTestFacts.


(** ** Mock interviews: the transcript *)

Section InterviewFacts.
Import MockInterviews.

Variable JSON_parse : string → option Json.
Variable is_zero : string → bool.
Variable Number_text : string → string.

Lemma append_assoc (a b c : string) : (a +:+ b) +:+ c = a +:+ (b +:+ c).
Proof.
  induction a as [|x a IH]; [done|].
  change (String x ((a +:+ b) +:+ c) = String x (a +:+ (b +:+ c))).
  by rewrite IH.
Qed.

Lemma append_empty_r (a : string) : a +:+ "" = a.
Proof.
  induction a as [|x a IH]; [done|].
  change (String x (a +:+ "") = String x a). by rewrite IH.
Qed.

Lemma foldr_append_app (xs ys : list string) :
  foldr String.append "" (xs ++ ys)
  = foldr String.append "" xs +:+ foldr String.append "" ys.
Proof.
  induction xs as [|x xs IH]; [done|].
  cbn [foldr app]. by rewrite IH, append_assoc.
Qed.

Lemma shows_refl (w : World) : shows w w.
Proof. exists (messages (ui w)). by destruct w as [[] ? ?]. Qed.

Lemma shows_step w w' m : shows w w' → shows w (on_ui (setMessages m) w').
Proof. intros [m' ->]. by exists m. Qed.

Lemma read_lines_run before lines : ∀ aiMessage w,
  ∃ w', shows w w'
    ∧ read_lines JSON_parse is_zero Number_text before lines aiMessage w
      = (Returned (aiMessage
                   +:+ foldr String.append ""
                         (omap (token JSON_parse is_zero Number_text) lines)),
         w', []).
Proof.
  induction lines as [|line rest IH]; intros aiMessage w; simpl.
  - exists w. split; [apply shows_refl|]. by rewrite append_empty_r.
  - destruct (token JSON_parse is_zero Number_text line) as [content|]; [|apply IH].
    run_handler.
    destruct (IH (aiMessage +:+ content)
                (on_ui (setMessages
                          (before ++ [{| role := assistant;
                                         content := aiMessage +:+ content |}])) w))
      as (w' & [m ->] & ->).
    eexists. split; [|by rewrite append_assoc]. by exists m.
Qed.

Lemma read_chunks_run before chunks : ∀ aiMessage w,
  ∃ w', shows w w'
    ∧ read_chunks JSON_parse is_zero Number_text before chunks aiMessage w
      = (Returned (aiMessage +:+ received_text JSON_parse is_zero Number_text chunks), w', []).
Proof.
  induction chunks as [|chunk rest IH]; intros aiMessage w; simpl.
  - exists w. split; [apply shows_refl|].
    unfold received_text. simpl. by rewrite append_empty_r.
  - run_handler.
    destruct (read_lines_run before (Js.split "010" chunk) aiMessage w)
      as (w1 & [m1 ->] & ->).
    destruct (IH (aiMessage +:+ foldr String.append ""
                                   (omap (token JSON_parse is_zero Number_text)
                                      (Js.split "010" chunk)))
                (on_ui (setMessages m1) w))
      as (w2 & [m2 ->] & ->).
    eexists. split; [by exists m2|].
    unfold received_text. rewrite fmap_cons. simpl.
    by rewrite foldr_append_app, append_assoc.
Qed.

(** After a start that succeeds the transcript shown is the stored one:
    the assistant's first message. *)
Lemma startInterview_in_sync (u : User) (interviewData : MockInterview)
    (chunks : list string) (w : World) :
  let r := startInterview JSON_parse is_zero Number_text (Some u) (Some interviewData)
             (streamed chunks None) true w in
  stored_messages (state_after r)
  = [{| role := assistant; content := received_text JSON_parse is_zero Number_text chunks |}]
  ∧ messages (ui (state_after r)) = stored_messages (state_after r).
Proof.
  intros r. subst r. unfold startInterview. run_handler.
  unfold read_stream. run_handler.
  match goal with
  | |- context [read_chunks JSON_parse is_zero Number_text ?b chunks "" ?w0] =>
      destruct (read_chunks_run b chunks "" w0) as (w' & [m ->] & ->)
  end.
  unfold store. run_handler. cbn. done.
Qed.

Lemma split_go_cut (sep : ascii) (a b : string) : ∀ cur,
  Js.split_go sep cur (a +:+ String sep b)
  = Js.split_go sep cur a ++ Js.split_go sep "" b.
Proof.
  induction a as [|c a IH]; intros cur.
  - change ("" +:+ String sep b) with (String sep b). cbn [Js.split_go].
    by rewrite bool_decide_eq_true_2.
  - change (String c a +:+ String sep b) with (String c (a +:+ String sep b)).
    cbn [Js.split_go]. destruct (bool_decide (c = sep)); by rewrite IH.
Qed.

Lemma at_line_end_inv (s : string) :
  at_line_end s = true → s = "" ∨ ∃ a, s = a +:+ String "010" "".
Proof.
  induction s as [|c s IH]; [by left|]. intros Hend. right.
  destruct s as [|d s].
  - cbn in Hend. apply bool_decide_eq_true in Hend as ->. by exists "".
  - destruct (IH Hend) as [[=]|[a ->]]. by exists (String c a).
Qed.

Lemma split_cut (a b : string) :
  Js.split "010" (a +:+ String "010" b) = Js.split "010" a ++ Js.split "010" b.
Proof. apply split_go_cut. Qed.

(** The tokens of a text that ends with a line feed, followed by another
    text, are those of the first text followed by those of the second. *)
Lemma tokens_after_line_end (chunk rest : string) :
  at_line_end chunk = true →
  omap (token JSON_parse is_zero Number_text) (Js.split "010" (chunk +:+ rest))
  = tokens_of_chunk JSON_parse is_zero Number_text chunk
    ++ omap (token JSON_parse is_zero Number_text) (Js.split "010" rest).
Proof.
  intros [->|[a ->]]%at_line_end_inv; [done|].
  unfold tokens_of_chunk. rewrite append_assoc.
  change (String "010" "" +:+ rest) with (String "010" rest).
  rewrite !split_cut, !omap_app.
  change (omap (token JSON_parse is_zero Number_text) (Js.split "010" ""))
    with (@nil string).
  by rewrite app_nil_r.
Qed.

(** When no line is cut between two chunks the reader gathers the
    concatenation of the tokens of the stream. *)
Lemma received_whole_lines (chunks : list string) :
  whole_lines chunks = true →
  received_text JSON_parse is_zero Number_text chunks
  = streamed_text JSON_parse is_zero Number_text chunks.
Proof.
  unfold received_text, streamed_text.
  intros Hwhole. f_equal.
  induction chunks as [|chunk rest IH]; [done|].
  rewrite fmap_cons. cbn [concat foldr].
  destruct rest as [|next rest].
  - cbn. by rewrite app_nil_r, append_empty_r.
  - cbn [whole_lines] in Hwhole. apply andb_prop in Hwhole as [Hend Hrest].
    by rewrite (tokens_after_line_end _ _ Hend), IH.
Qed.

(** C8, amended: a send that succeeds stores the transcript shown before
    the send followed by exactly two entries, the trimmed user message and
    one assistant message; the content of that message is the text
    gathered from the tokens of the lines that arrived whole within a
    chunk, which is the concatenation of all tokens of the stream when no
    line is cut between two chunks.  So when the transcript shown is the
    stored one, two entries are appended to the stored transcript and its
    earlier entries keep their value and order. *)
Theorem send_appends_user_and_assistant
    (w : World) (current : MockInterview) (chunks : list string) :
  currentInterview (ui w) = Some current →
  Js.trim (inputMessage (ui w)) ≠ "" →
  sendingMessage (ui w) = false →
  let r := sendMessage JSON_parse is_zero Number_text (streamed chunks None) true w in
  let sent := {| role := user; content := Js.trim (inputMessage (ui w)) |} in
  let answer :=
    {| role := assistant;
       content := received_text JSON_parse is_zero Number_text chunks |} in
  stored_messages (state_after r) = messages (ui w) ++ [sent; answer]
  ∧ (whole_lines chunks = true →
     content answer = streamed_text JSON_parse is_zero Number_text chunks)
  ∧ (messages (ui w) = stored_messages w →
     stored_messages (state_after r) = stored_messages w ++ [sent; answer])
  ∧ messages (ui (state_after r)) = stored_messages (state_after r)
  ∧ toasts (log_of r) = [].
Proof.
  intros Hcur Hinput Hidle r sent answer. subst r.
  unfold sendMessage. run_handler.
  rewrite Hcur, (falsy_false _ Hinput), Hidle. cbn [orb].
  unfold read_stream. run_handler.
  match goal with
  | |- context [read_chunks JSON_parse is_zero Number_text ?b chunks "" ?w0] =>
      destruct (read_chunks_run b chunks "" w0) as (w' & [m ->] & ->)
  end.
  unfold store. run_handler. cbn.
  split; [by rewrite <- app_assoc|].
  split; [apply received_whole_lines|].
  split; [|done]. intros <-. by rewrite <- app_assoc.
Qed.

End InterviewFacts.


Lemma send_appends_user_and_assistant_witness :
  let r := MockInterviews.sendMessage JSON_parse zero_lexeme integer_text
             (MockInterviews.streamed sample_chunks None) true interview_world in
  whole_lines sample_chunks = true
  ∧ streamed_text JSON_parse zero_lexeme integer_text sample_chunks = "Good. Why?"
  ∧ MockInterviews.stored_messages (state_after r)
    = [greeting;
       {| MockInterviews.role := MockInterviews.user;
          MockInterviews.content := "I build things." |};
       {| MockInterviews.role := MockInterviews.assistant;
          MockInterviews.content := "Good. Why?" |}].
Proof.
  cbv zeta. split; [reflexivity|].
  edestruct (send_appends_user_and_assistant JSON_parse zero_lexeme integer_text
               interview_world)
    as (_ & Htext & Hstored & _); [reflexivity | by vm_compute | reflexivity |].
  split; [rewrite <- Htext by reflexivity; by vm_compute|].
  rewrite Hstored by reflexivity. by vm_compute.
Defined.

(** What a line carries need not be a string: a number is appended as
    its text, an array as the texts of its elements. *)
Example token_of_a_number :
  MockInterviews.token JSON_parse zero_lexeme integer_text
    (dq "data: {'choices':[{'delta':{'content':42}}]}") = Some "42"
  ∧ MockInterviews.token JSON_parse zero_lexeme integer_text
      (dq "data: {'choices':[{'delta':{'content':['a',null,['b',7]]}}]}") = Some "a,,b,7"
  ∧ MockInterviews.token JSON_parse zero_lexeme integer_text
      (dq "data: {'choices':[{'delta':{'content':0}}]}") = None.
Proof. by vm_compute. Qed.

(** C8, as stated, fails twice.  A send whose request fails leaves the
    user's message on screen and not in the stored transcript, and the next
    send, which succeeds, stores the transcript on screen: three entries
    more than were stored.  And when the stream of [sample_chunks] arrives
    cut inside its first line, the token of that line is lost: the stored
    answer is not the concatenation of all streamed tokens. *)
Lemma send_after_failed_send_stores_three :
  let w1 := state_after
              (MockInterviews.sendMessage JSON_parse zero_lexeme integer_text
                 (MockInterviews.fetch_failed "Failed to fetch") true interview_world) in
  let w2 := MockInterviews.on_ui (MockInterviews.setInputMessage "Hello?") w1 in
  let w3 := state_after
              (MockInterviews.sendMessage JSON_parse zero_lexeme integer_text
                 (MockInterviews.streamed sample_chunks None) true w2) in
  let stream := foldr String.append "" sample_chunks in
  let cut := [Js.take 30 stream; Js.slice 30 stream] in
  let w4 := state_after
              (MockInterviews.sendMessage JSON_parse zero_lexeme integer_text
                 (MockInterviews.streamed cut None) true interview_world) in
  (MockInterviews.stored_messages w2 = [greeting]
   ∧ MockInterviews.stored_messages w3
     = [greeting;
        {| MockInterviews.role := MockInterviews.user;
           MockInterviews.content := "I build things." |};
        {| MockInterviews.role := MockInterviews.user;
           MockInterviews.content := "Hello?" |};
        {| MockInterviews.role := MockInterviews.assistant;
           MockInterviews.content := "Good. Why?" |}])
  ∧ (foldr String.append "" cut = stream
     ∧ streamed_text JSON_parse zero_lexeme integer_text cut = "Good. Why?"
     ∧ MockInterviews.stored_messages w4
       = [greeting;
          {| MockInterviews.role := MockInterviews.user;
             MockInterviews.content := "I build things." |};
          {| MockInterviews.role := MockInterviews.assistant;
             MockInterviews.content := "Why?" |}]).
Proof. by vm_compute. Qed.

(** ** Failed requests *)

(** C4, as stated, fails: a failed fetch of the test history shows no
    notification at all; a stream that breaks after its first chunk leaves
    the partial answer in the transcript on screen; and a failed update of
    the stored transcript goes unnoticed, no notification and the screen as
    after a success. *)
Lemma failed_requests_that_break_the_policy :
  let h := MockTests.fetchTestHistory (Some {| user_id_of := "u1" |}) None
             history_screen in
  let r := MockInterviews.sendMessage JSON_parse zero_lexeme integer_text
             (MockInterviews.streamed (take 1 sample_chunks) (Some "network error"))
             true interview_world in
  let q := MockInterviews.sendMessage JSON_parse zero_lexeme integer_text
             (MockInterviews.streamed sample_chunks None) false interview_world in
  (requests (log_of h) = [Select "mock_tests"] ∧ toasts (log_of h) = [])
  ∧ (toasts (log_of r) = ["network error"]
     ∧ MockInterviews.messages (MockInterviews.ui (state_after r))
       = [greeting;
          {| MockInterviews.role := MockInterviews.user;
             MockInterviews.content := "I build things." |};
          {| MockInterviews.role := MockInterviews.assistant;
             MockInterviews.content := "Good. Why?" |}])
  ∧ (toasts (log_of q) = []
     ∧ MockInterviews.stored_messages (state_after q) = [greeting]
     ∧ length (MockInterviews.messages (MockInterviews.ui (state_after q))) = 3%nat).
Proof. by vm_compute. Qed.

(** The earlier application page closes the dialog and forgets the record
    being edited although the write failed. *)
Lemma early_submit_closes_dialog_on_failure :
  let form := {| Applications.form_company_name := "Acme";
                 Applications.form_role := "Engineer";
                 Applications.form_job_type := "internship";
                 Applications.form_status := "applied";
                 Applications.form_application_link := "";
                 Applications.form_apply_date := Some 20000;
                 Applications.form_interview_date := None;
                 Applications.form_notes := "" |} in
  let r := Applications.handleSubmit_early (Some {| user_id_of := "u1" |}) form
             false "a3" "2024-10-02T09:00:00Z" true applications_world in
  toasts (log_of r) = ["Failed to add application"]
  ∧ Applications.isDialogOpen (Applications.ui applications_world) = true
  ∧ Applications.isDialogOpen (Applications.ui (state_after r)) = false.
Proof. by vm_compute. Qed.

(** C4, amended: a failed mock-test submission shows exactly one
    notification and leaves the session as it was but for the loading flag,
    which is reset; a failed create or edit on the application page (the
    version that validates its form) shows exactly one notification and
    leaves the page and the table as they were but for the submitting flag,
    which is reset. *)
Theorem failed_submission_leaves_state
    (u : User) (now : string) (st : MockTests.State) (current : MockTests.MockTest)
    (form : Applications.Form) (fresh_id : string) (select_ok : bool)
    (a : Applications.World) :
  MockTests.currentTest st = Some current →
  Js.trim (Applications.form_company_name form) ≠ "" →
  Js.trim (Applications.form_role form) ≠ "" →
  let r := MockTests.handleSubmitTest (Some u) now false st in
  let s := Applications.handleSubmit (Some u) form false fresh_id now select_ok a in
  (state_after r = MockTests.setLoading false st
   ∧ toasts (log_of r) = ["Failed to submit test"])
  ∧ (state_after s = Applications.on_ui (Applications.setSubmitting false) a
     ∧ toasts (log_of s)
       = [match Applications.editingApp (Applications.ui a) with
          | Some _ => "Failed to update application"
          | None => "Failed to add application"
          end]).
Proof.
  intros Hcur Hcompany Hrole r s. subst r s. split.
  - unfold MockTests.handleSubmitTest, MockTests.handleSubmitTest_of. run_handler.
    by rewrite Hcur.
  - unfold Applications.handleSubmit. run_handler.
    rewrite (falsy_false _ Hcompany), (falsy_false _ Hrole). cbn [orb].
    unfold Applications.write, Applications.throw_unless.
    destruct (Applications.editingApp (Applications.ui a)); by run_handler.
Qed.

Lemma failed_submission_leaves_state_witness :
  let form := {| Applications.form_company_name := " Acme ";
                 Applications.form_role := "Engineer";
                 Applications.form_job_type := "internship";
                 Applications.form_status := "applied";
                 Applications.form_application_link := "";
                 Applications.form_apply_date := Some 20000;
                 Applications.form_interview_date := None;
                 Applications.form_notes := "" |} in
  let u := {| user_id_of := "u1" |} in
  state_after (MockTests.handleSubmitTest (Some u) "2024-10-01T09:03:58Z" false
                 sample_session)
  = sample_session
  ∧ Applications.isDialogOpen
      (Applications.ui
         (state_after (Applications.handleSubmit (Some u) form false "a3"
                         "2024-10-01T09:03:58Z" true applications_world)))
    = true.
Proof.
  cbv zeta.
  edestruct (failed_submission_leaves_state {| user_id_of := "u1" |}
               "2024-10-01T09:03:58Z" sample_session sample_test)
    as [[Hr _] [Hs _]]; [reflexivity | | |].
  3: { rewrite Hr, Hs. split; reflexivity. }
  - by vm_compute.
  - by vm_compute.
Defined.


(** ** Replies of the AI that do not parse *)

Section EdgeFacts.
Import EdgeFunctions.

Variable JSON_parse : string → option Json.
Variable SyntaxError_message : string → string.
Variable TypeError_message : string.

(** C5, amended: each function answers with an error object when the
    text it extracts from the reply does not parse, whatever the other
    function would extract.  analyze-resume extracts the trimmed inside of
    a Markdown fence, else the trimmed reply; when that does not parse it
    answers 200 with the placeholder analysis that carries the raw reply.
    generate-test extracts the span from the first opening to the last
    closing brace; when there is no such span, or it does not parse, it
    answers 500 with an object whose [error] is the message of what was
    thrown. *)
Theorem unparsable_reply_gives_error_object (key content : string) :
  key ≠ "" →
  (∀ req : AnalyzeRequest,
     (method req =? "OPTIONS")%string = false →
     resumeText req ≠ "" →
     content ≠ "" →
     JSON_parse (jsonStr content) = None →
     analyze_resume JSON_parse req key (gateway_ok (Some content))
     = json_response 200 (placeholder content))
  ∧ (∀ (req_body : string) (request : Json),
       JSON_parse req_body = Some request →
       request ≠ JNull →
       (∀ m, braces content = Some m → JSON_parse m = None) →
       generate_test JSON_parse SyntaxError_message TypeError_message "POST" req_body key
         (gateway_ok (Some content))
       = json_response 500
           (error_object
              match braces content with
              | Some m => SyntaxError_message m
              | None => "Failed to parse questions from AI response"
              end)).
Proof.
  intros Hkey. split.
  - intros req Hmethod Hresume Hcontent Hanalyze.
    unfold analyze_resume, analyze_body, analysis.
    by rewrite Hmethod, (falsy_false _ Hresume), (falsy_false _ Hkey),
      (falsy_false _ Hcontent), Hanalyze.
  - intros req_body request Hbody Hrequest Hgenerate.
    unfold generate_test, generate_body. cbn [String.eqb Ascii.eqb Bool.eqb].
    rewrite Hbody, (falsy_false _ Hkey).
    destruct (braces content) as [m|] eqn:Hm.
    + rewrite (Hgenerate m eq_refl). by destruct request.
    + by destruct request.
Qed.

End EdgeFacts.

Lemma unparsable_reply_gives_error_object_witness :
  let content := "I compared {skills} with {roles, but" in
  let chatty := dq "Here is the analysis: {'score': 90}" in
  (EdgeFunctions.analyze_resume JSON_parse analyze_request "key"
     (EdgeFunctions.gateway_ok (Some content))
   = EdgeFunctions.json_response 200 (EdgeFunctions.placeholder content)
   ∧ EdgeFunctions.generate_test JSON_parse unexpected_token null_has_no_members
       "POST" generate_request "key" (EdgeFunctions.gateway_ok (Some content))
     = EdgeFunctions.json_response 500
         (EdgeFunctions.error_object "Unexpected token in JSON: {skills}"))
  ∧ (EdgeFunctions.analyze_resume JSON_parse analyze_request "key"
       (EdgeFunctions.gateway_ok (Some chatty))
     = EdgeFunctions.json_response 200 (EdgeFunctions.placeholder chatty)
     ∧ EdgeFunctions.generate_test JSON_parse unexpected_token null_has_no_members
         "POST" generate_request "key" (EdgeFunctions.gateway_ok (Some ""))
       = EdgeFunctions.json_response 500
           (EdgeFunctions.error_object "Failed to parse questions from AI response")).
Proof.
  cbv zeta. split; [|split].
  - destruct (unparsable_reply_gives_error_object JSON_parse unexpected_token
                null_has_no_members "key" "I compared {skills} with {roles, but")
      as [Ha Hg]; [done|].
    split.
    + apply Ha; [reflexivity | done | done | by vm_compute].
    + rewrite (Hg generate_request _ eq_refl); [by vm_compute | done |].
      intros m Hm. vm_compute in Hm. injection Hm as <-. by vm_compute.
  - destruct (unparsable_reply_gives_error_object JSON_parse unexpected_token
                null_has_no_members "key" (dq "Here is the analysis: {'score': 90}"))
      as [Ha _]; [done|].
    apply Ha; [reflexivity | done | by vm_compute | by vm_compute].
  - destruct (unparsable_reply_gives_error_object JSON_parse unexpected_token
                null_has_no_members "key" "") as [_ Hg]; [done|].
    rewrite (Hg generate_request _ eq_refl); [reflexivity | done |].
    intros m Hm. vm_compute in Hm. discriminate Hm.
Defined.

(** C5, as stated, fails: a reply that is a fenced JSON object, or JSON
    after a sentence, does not parse as JSON, and each function extracts
    the JSON in it and answers 200 with the parsed value. *)
Lemma reply_with_json_inside_is_not_replaced :
  let fencedReply := "```json" +:+ line_feed +:+ dq "{'score': 90}" +:+ line_feed +:+ "```" in
  let chatty := dq "Here are your questions: {'questions': []}" in
  JSON_parse fencedReply = None
  ∧ EdgeFunctions.analyze_resume JSON_parse analyze_request "key"
      (EdgeFunctions.gateway_ok (Some fencedReply))
    = EdgeFunctions.json_response 200 (JObject [("score", JNumber "90")])
  ∧ JSON_parse chatty = None
  ∧ EdgeFunctions.generate_test JSON_parse unexpected_token null_has_no_members
      "POST" generate_request "key"
      (EdgeFunctions.gateway_ok (Some chatty))
    = EdgeFunctions.json_response 200 (JObject [("questions", JArray [])]).
Proof. by vm_compute. Qed.

(** * Further properties of the pages and the functions *)

(** ** The coding page: counters and streak *)

Section StatsFacts.
Import CodingPractice.

(** X1: the three difficulty counters of the coding page count solved
    problems only and together never show more than the solved counter;
    they add up to it exactly when every solved problem is easy, medium or
    hard; solved and revision together never exceed the total. *)
Theorem solved_splits_by_difficulty (st : State) :
  let s := stats st in
  (easy s + medium s + hard s ≤ solved s)%nat
  ∧ (solved s + revision s ≤ total s)%nat
  ∧ ((easy s + medium s + hard s)%nat = solved s ↔
     Forall (λ p, status p = "solved" →
                  difficulty p = "easy" ∨ difficulty p = "medium" ∨ difficulty p = "hard")
       (problems st)).
Proof.
  cbv zeta. unfold stats. cbn [easy medium hard solved revision total].
  induction (problems st) as [|p l (IH1 & IH2 & IH3)];
    [cbn; split; [lia|split; [lia|done]]|].
  cbn [List.filter length]. rewrite Forall_cons.
  destruct (String.eqb_spec (status p) "solved") as [Hs|Hs];
    destruct (String.eqb_spec (status p) "revision_needed") as [Hr|Hr];
    destruct (String.eqb_spec (difficulty p) "easy") as [He|He];
    destruct (String.eqb_spec (difficulty p) "medium") as [Hm|Hm];
    destruct (String.eqb_spec (difficulty p) "hard") as [Hh|Hh];
    cbn [andb length]; try congruence;
    (split; [lia|]); (split; [lia|]);
    (split;
     [ intros Hsum; first [split; [tauto|apply IH3; lia] | exfalso; lia]
     | intros [Hp Hl]; apply IH3 in Hl;
       first [lia | destruct (Hp Hs) as [?|[?|?]]; congruence] ]).
Qed.

End StatsFacts.

Section LoggingToday.
Import CodingPractice.

Lemma days_in_a_row_present n e l : e ∈ l → (1 ≤ days_in_a_row (S n) e l)%nat.
Proof. intros He. cbn. rewrite bool_decide_eq_true_2 by done. lia. Qed.

(** X2: logging a problem practiced today, when the insert and the fetch
    succeed and none of the user's problems is dated after today, leaves a
    streak of at least one day on screen; the streak shown is the streak of
    the list shown, and the new problem is on that list. *)
Theorem logging_today_gives_a_streak
    (u : User) (form : Form) (fresh_id now : string) (today : Day) (w : World) :
  Js.trim (form_problem_name form) ≠ "" →
  form_platform form ≠ "" →
  form_date_practiced form = Some today →
  editingProblem (ui w) = None →
  Forall (λ p, user_id p = user_id_of u → date_practiced p ≤ today) (coding_problems w) →
  let r := handleSubmit (Some u) form true fresh_id now today true w in
  (1 ≤ streak (ui (state_after r)))%nat
  ∧ streak (ui (state_after r)) = calculateStreak today (problems (ui (state_after r)))
  ∧ (∃ p, p ∈ problems (ui (state_after r)) ∧ id p = fresh_id
          ∧ problem_name p = Js.trim (form_problem_name form)
          ∧ date_practiced p = today)
  ∧ toasts (log_of r) = ["Problem logged successfully"].
Proof.
  intros Hname Hplatform Hdate Hnew Hpast r. subst r.
  unfold handleSubmit. run_handler.
  rewrite (falsy_false _ Hname), (falsy_false _ Hplatform), Hdate, Hnew.
  unfold fetchProblems. run_handler. cbn -[select_own calculateStreak].
  match goal with
  | |- context [select_own user_id date_practiced (user_id_of u) (?t ++ [?p])] =>
      set (new := p); set (rows := select_own user_id date_practiced (user_id_of u)
                                     (t ++ [new]))
  end.
  assert (new ∈ rows) as Hin.
  { unfold rows, select_own. apply elem_of_order_desc, list_elem_of_filter.
    split; [done|]. apply elem_of_app. right. by left. }
  split; [|split; [done|split; [|done]]].
  2: { exists new. split; [exact Hin|]. by repeat split. }
  unfold calculateStreak. destruct rows as [|p0 rest] eqn:Hrows; [by apply elem_of_nil in Hin|].
  cbn [length Nat.eqb]. rewrite <- Hrows.
  rewrite streak_loop_consecutive.
  - unfold consecutive_days_ending. rewrite length_map, Hrows. cbn [length].
    rewrite <- Hrows. apply days_in_a_row_present.
    apply list_elem_of_fmap. exists new. split; [reflexivity|by rewrite Hrows].
  - apply Forall_forall. intros d (p & -> & Hp)%list_elem_of_fmap.
    unfold rows, select_own in Hp.
    apply elem_of_order_desc, list_elem_of_filter in Hp as [Hown Hp].
    apply elem_of_app in Hp as [Hp|Hp%list_elem_of_singleton].
    + rewrite Forall_forall in Hpast. by apply Hpast.
    + subst p. cbn. lia.
Qed.

End LoggingToday.

Lemma logging_today_gives_a_streak_witness :
  let form := {| CodingPractice.form_problem_name := " Two Sum ";
                 CodingPractice.form_platform := "LeetCode";
                 CodingPractice.form_date_practiced := Some 20001;
                 CodingPractice.form_difficulty := "easy";
                 CodingPractice.form_status := "solved";
                 CodingPractice.form_notes := "" |} in
  let r := CodingPractice.handleSubmit (Some {| user_id_of := "u1" |}) form true "p3"
             "2024-10-05T09:00:00Z" 20001 true coding_world in
  CodingPractice.streak (CodingPractice.ui (state_after r)) = 3%nat
  ∧ (1 ≤ CodingPractice.streak (CodingPractice.ui (state_after r)))%nat.
Proof.
  cbv zeta. split; [by vm_compute|].
  apply logging_today_gives_a_streak;
    [by vm_compute | done | reflexivity | reflexivity |].
  repeat (apply Forall_cons; split; [cbn; lia|]). constructor.
Defined.

(** ** The learning page *)

Section LearningFacts.
Import Learning.

(** X3: the goals shown are those that pass the skill setting and the
    status setting, a setting of 'all' letting every goal through; the two
    settings can be applied in either order. *)
Theorem filtered_goals_pass_both_settings (st : State) :
  let skill_ok := λ goal, passes (filterSkill st) (skill_name goal) in
  let status_ok := λ goal, passes (filterStatus st) (status goal) in
  filteredGoals st = filter (λ goal, skill_ok goal ∧ status_ok goal) (goals st)
  ∧ filteredGoals st = filter skill_ok (filter status_ok (goals st))
  ∧ filteredGoals st = filter status_ok (filter skill_ok (goals st))
  ∧ ∀ goal, goal ∈ filteredGoals st ↔ goal ∈ goals st ∧ skill_ok goal ∧ status_ok goal.
Proof.
  intros skill_ok status_ok.
  assert (filteredGoals st = filter (λ goal, skill_ok goal ∧ status_ok goal) (goals st))
    as Hgoals.
  { unfold filteredGoals. apply filter_bool_Prop. intros goal. apply two_filters_test. }
  split; [done|]. rewrite Hgoals. split; [|split].
  - by rewrite list_filter_filter.
  - rewrite list_filter_filter. apply list_filter_iff. tauto.
  - intros goal. rewrite list_elem_of_filter. tauto.
Qed.

Variable Math_round : float → float.

Lemma skillProgress_entries (st : State) (ks : list string) :
  let entry := λ skill,
    let skillGoals := goals_of st skill in
    if (length skillGoals =? 0)%nat then None
    else
      let completed :=
        length (List.filter (λ g, (status g =? "completed")%string) skillGoals) in
      let ratio :=
        (PrimFloat.of_uint63 (Uint63.of_Z (Z.of_nat completed))
         / PrimFloat.of_uint63 (Uint63.of_Z (Z.of_nat (length skillGoals))))%float in
      Some {| skill := skill; total := length skillGoals; completed := completed;
              percentage := Math_round (ratio * 100)%float |} in
  Forall (λ e, (0 < total e)%nat ∧ (completed e ≤ total e)%nat
               ∧ total e = length (goals_of st (skill e)))
    (omap entry ks)
  ∧ skill <$> omap entry ks = List.filter (λ s, negb (length (goals_of st s) =? 0)%nat) ks
  ∧ sum_list (total <$> omap entry ks) = sum_list ((λ s, length (goals_of st s)) <$> ks).
Proof.
  intros entry. induction ks as [|k ks (IH1 & IH2 & IH3)]; [by repeat split|].
  change (omap entry (k :: ks))
    with (match entry k with Some e => e :: omap entry ks | None => omap entry ks end).
  cbn [List.filter fmap list_fmap sum_list sum_list_with].
  destruct (entry k) as [e|] eqn:He; unfold entry in He; cbv zeta in He;
    destruct (Nat.eqb_spec (length (goals_of st k)) 0) as [Hzero|Hpos];
    try discriminate; cbn [negb].
  - injection He as <-. split; [|split].
    + apply Forall_cons. split; [|done]. cbn. split; [lia|]. split; [|done].
      apply filter_length_le.
    + cbn. by rewrite <- IH2.
    + cbn. by rewrite <- IH3.
  - rewrite Hzero. by repeat split.
Qed.

Lemma goals_by_skill (l : list LearningGoal) (ks : list string) :
  NoDup ks →
  sum_list ((λ s, length (List.filter (λ g, (skill_name g =? s)%string) l)) <$> ks)
  = length (filter (λ g, skill_name g ∈ ks) l).
Proof.
  induction 1 as [|k ks Hk _ IH]; cbn [fmap list_fmap sum_list sum_list_with].
  - induction l as [|g l IHl]; [done|].
    rewrite filter_cons_False; [done|]. by intros ?%elem_of_nil.
  - change (foldr _ _ _) with
      (sum_list ((λ s, length (List.filter (λ g, (skill_name g =? s)%string) l)) <$> ks)).
    rewrite IH. clear IH. unfold Datatypes.id.
    induction l as [|g l IHl]; [done|].
    cbn [List.filter]. rewrite !filter_cons.
    destruct (String.eqb_spec (skill_name g) k) as [->|Hne].
    + destruct (decide (k ∈ k :: ks)) as [_|Hn]; [|exfalso; apply Hn; left].
      destruct (decide (k ∈ ks)); [done|]. cbn [length]. lia.
    + destruct (decide (skill_name g ∈ ks)) as [Hin|Hout];
        destruct (decide (skill_name g ∈ k :: ks)) as [Hin'|Hout'].
      * cbn [length]. lia.
      * exfalso. apply Hout'. by right.
      * exfalso. by apply elem_of_cons in Hin' as [?|?].
      * exact IHl.
Qed.

(** X4: the progress cards of the learning page: one card for each of the
    eight skills that has a goal, in the order of the skills; a card never
    shows more completed goals than goals, and never zero goals; together
    the cards count every goal filed under one of the eight skills exactly
    once, and no other goal. *)
Theorem skill_progress_counts_each_goal_once (st : State) :
  let cards := skillProgress Math_round st in
  Forall (λ e, (0 < total e)%nat ∧ (completed e ≤ total e)%nat) cards
  ∧ skill <$> cards
    = filter (λ s, Exists (λ g, skill_name g = s) (goals st)) skills
  ∧ sum_list (total <$> cards)
    = length (filter (λ g, skill_name g ∈ skills) (goals st)).
Proof.
  intros cards. subst cards.
  destruct (skillProgress_entries st skills) as (H1 & H2 & H3).
  split; [|split].
  - eapply Forall_impl; [exact H1|]. cbn. tauto.
  - etransitivity; [exact H2|]. apply filter_bool_Prop. intros s.
    unfold goals_of.
    destruct (Nat.eqb_spec (length (List.filter (λ g, (skill_name g =? s)%string) (goals st))) 0)
      as [Hzero|Hpos]; cbn [negb].
    + split; [done|]. intros (g & Hg & Hs)%Exists_exists. exfalso.
      apply length_zero_iff_nil in Hzero.
      assert (In g (List.filter (λ g, (skill_name g =? s)%string) (goals st))) as Hin.
      { apply List.filter_In. split; [by apply list_elem_of_In|].
        by apply String.eqb_eq. }
      by rewrite Hzero in Hin.
    + split; [|done]. intros _.
      destruct (List.filter (λ g, (skill_name g =? s)%string) (goals st))
        as [|g rest] eqn:Hf; [done|].
      assert (In g (List.filter (λ g, (skill_name g =? s)%string) (goals st))) as Hin
        by (rewrite Hf; left; done).
      apply List.filter_In in Hin as [Hin Hs].
      apply Exists_exists. exists g.
      split; [by apply list_elem_of_In|by apply String.eqb_eq].
  - etransitivity; [exact H3|]. apply goals_by_skill.
    apply (bool_decide_unpack (NoDup skills)). by vm_compute.
Qed.

End LearningFacts.

Section LearningSubmit.
Import Learning.

(** X5: a goal created with a topic and a skill, when the insert and the
    fetch that follows succeed, is on the list afterwards, its topic
    trimmed and its owner the signed-in user; the list then holds exactly
    the user's rows of the table, newest first; the dialog is closed and
    the one notification is the success message. *)
Theorem created_goal_is_listed
    (u : User) (form : Form) (fresh_id : string) (now : Z) (w : World) :
  Js.trim (form_topic_name form) ≠ "" →
  form_skill_name form ≠ "" →
  editingGoal (ui w) = None →
  let r := handleSubmit (Some u) form true fresh_id now true w in
  let shown := goals (ui (state_after r)) in
  (∃ goal, goal ∈ shown ∧ id goal = fresh_id ∧ user_id goal = user_id_of u
     ∧ topic_name goal = Js.trim (form_topic_name form)
     ∧ skill_name goal = form_skill_name form ∧ created_at goal = now
     ∧ learning_goals (state_after r) = learning_goals w ++ [goal])
  ∧ (∀ goal, goal ∈ shown
             ↔ goal ∈ learning_goals (state_after r) ∧ user_id goal = user_id_of u)
  ∧ desc_by created_at shown
  ∧ isDialogOpen (ui (state_after r)) = false
  ∧ toasts (log_of r) = ["Goal created successfully"].
Proof.
  intros Htopic Hskill Hnew r shown. subst shown r.
  unfold handleSubmit. run_handler.
  rewrite (falsy_false _ Htopic), (falsy_false _ Hskill), Hnew.
  unfold fetchGoals. run_handler. cbn -[select_own].
  split; [|split; [|split; [|done]]].
  - eexists. split; [|repeat split; reflexivity].
    unfold select_own. apply elem_of_order_desc, list_elem_of_filter.
    split; [done|]. apply elem_of_app. right. by left.
  - intros goal. unfold select_own.
    rewrite elem_of_order_desc, list_elem_of_filter. tauto.
  - apply order_desc_sorted.
Qed.

End LearningSubmit.

Section LearningDelete.
Import Learning.

(** X27: on the learning page, when the list shown is the signed-in
    user's rows as the table holds them, a confirmed deletion that succeeds,
    followed by a fetch that succeeds, leaves the previous list without the
    goals of that id, the others in their order; a deletion that fails
    leaves list and table as they were and shows one error.  Either way the
    confirmation is closed. *)
Theorem deleted_goal_leaves_the_list
    (u : User) (x : string) (delete_ok : bool) (w : World) :
  x ≠ "" →
  goalId (deleteConfirm (ui w)) = Some x →
  goals (ui w) = select_own user_id created_at (user_id_of u) (learning_goals w) →
  let r := handleDelete (Some u) delete_ok true w in
  (if delete_ok
   then goals (ui (state_after r)) = filter (λ g, id g ≠ x) (goals (ui w))
        ∧ toasts (log_of r) = ["Goal deleted"]
   else goals (ui (state_after r)) = goals (ui w)
        ∧ learning_goals (state_after r) = learning_goals w
        ∧ toasts (log_of r) = ["Failed to delete goal"])
  ∧ deleteConfirm (ui (state_after r)) = {| open := false; goalId := None |}.
Proof.
  intros Hx Hconfirm Hsync r. subst r. unfold handleDelete. run_handler.
  rewrite Hconfirm, (falsy_false _ Hx).
  destruct delete_ok; run_handler; [|by cbn].
  unfold fetchGoals. run_handler. cbn -[select_own].
  split; [|done]. split; [|done].
  rewrite Hsync. apply select_own_after_delete.
Qed.

End LearningDelete.

Lemma deleted_goal_leaves_the_list_witness :
  let goal := λ x, {| Learning.id := x; Learning.user_id := "u1";
                      Learning.skill_name := "DSA"; Learning.topic_name := "Graphs";
                      Learning.status := "not_started"; Learning.start_date := None;
                      Learning.target_date := None; Learning.resource_links := None;
                      Learning.notes := None; Learning.created_at := 1700000000 |} in
  let w := {| Learning.ui :=
                Learning.setDeleteConfirm
                  {| Learning.open := true; Learning.goalId := Some "g1" |}
                  (Learning.setGoals [goal "g1"; goal "g2"] (Learning.ui learning_world));
              Learning.learning_goals := [goal "g1"; goal "g2"] |} in
  Learning.id <$> Learning.goals
                    (Learning.ui (state_after (Learning.handleDelete
                                                 (Some {| user_id_of := "u1" |}) true true w)))
  = ["g2"].
Proof.
  cbv zeta.
  edestruct (deleted_goal_leaves_the_list {| user_id_of := "u1" |} "g1" true)
    as [[Hgoals _] _]; [done | | | rewrite Hgoals; by vm_compute].
  - reflexivity.
  - by vm_compute.
Defined.

Lemma created_goal_is_listed_witness :
  let form := {| Learning.form_topic_name := "  Graphs ";
                 Learning.form_skill_name := "DSA";
                 Learning.form_status := "not_started";
                 Learning.form_start_date := None;
                 Learning.form_target_date := None;
                 Learning.form_resource_links := "";
                 Learning.form_notes := "" |} in
  let r := Learning.handleSubmit (Some {| user_id_of := "u1" |}) form true "g1" 1700000000
             true learning_world in
  Learning.topic_name <$> Learning.goals (Learning.ui (state_after r)) = ["Graphs"]
  ∧ toasts (log_of r) = ["Goal created successfully"].
Proof.
  cbv zeta.
  edestruct (created_goal_is_listed {| user_id_of := "u1" |}
               {| Learning.form_topic_name := "  Graphs ";
                  Learning.form_skill_name := "DSA";
                  Learning.form_status := "not_started";
                  Learning.form_start_date := None;
                  Learning.form_target_date := None;
                  Learning.form_resource_links := "";
                  Learning.form_notes := "" |} "g1" 1700000000 learning_world)
    as (_ & _ & _ & _ & Htoast); [by vm_compute | done | reflexivity |].
  split; [by vm_compute | exact Htoast].
Defined.

(** ** The dashboard *)

Section DashboardFacts.
Import Dashboard.

Lemma count_on_first (d : Day) (days : list DayActivity) :
  NoDup (date <$> days) →
  count_on d days
  = (λ day, if date day =? d
            then {| name := name day; date := date day; problems := S (problems day) |}
            else day) <$> days.
Proof.
  induction days as [|day rest IH]; [done|].
  rewrite fmap_cons. intros [Hfirst Hrest]%NoDup_cons.
  cbn [count_on fmap list_fmap].
  destruct (Z.eqb_spec (date day) d) as [Heq|Hne]; [|by rewrite IH].
  f_equal. clear IH Hrest. induction rest as [|e rest IH]; [done|].
  cbn [fmap list_fmap].
  rewrite fmap_cons, not_elem_of_cons in Hfirst. destruct Hfirst as [Hne Hfirst].
  destruct (Z.eqb_spec (date e) d) as [Heq'|_]; [congruence|].
  f_equal. by apply IH.
Qed.

Lemma week_counted_fold (rows : list ProblemRow) : ∀ days,
  NoDup (date <$> days) →
  foldl (λ days p, count_on (date_practiced p) days) days rows
  = add_problems (practiced rows) <$> days.
Proof.
  induction rows as [|p rows IH]; intros days Hnd.
  - cbn [foldl]. induction days as [|[nm d n] days IHd]; [done|].
    rewrite fmap_cons. apply NoDup_cons in Hnd as [_ Hnd].
    rewrite <- IHd by done.
    unfold add_problems, practiced. cbn. by rewrite Nat.add_0_r.
  - cbn [foldl]. rewrite count_on_first by done. rewrite IH.
    + rewrite <- list_fmap_compose. apply list_fmap_ext. intros _ [nm d n] _.
      unfold add_problems, practiced, compose. cbn [date name problems].
      rewrite filter_cons.
      destruct (Z.eqb_spec d (date_practiced p)) as [->|Hne]; cbn [date name problems].
      * rewrite decide_True by done. cbn [length]. f_equal. lia.
      * rewrite decide_False by done. done.
    + rewrite <- list_fmap_compose.
      erewrite list_fmap_ext; [exact Hnd|].
      intros _ [nm d n] _. cbn. by destruct (d =? date_practiced p).
Qed.

Lemma last7Days_unfold weekday today :
  last7Days weekday today
  = [ {| name := weekday 0%nat; date := today - 6; problems := 0 |};
      {| name := weekday 1%nat; date := today - 5; problems := 0 |};
      {| name := weekday 2%nat; date := today - 4; problems := 0 |};
      {| name := weekday 3%nat; date := today - 3; problems := 0 |};
      {| name := weekday 4%nat; date := today - 2; problems := 0 |};
      {| name := weekday 5%nat; date := today - 1; problems := 0 |};
      {| name := weekday 6%nat; date := today - 0; problems := 0 |} ].
Proof. reflexivity. Qed.

Lemma practiced_in_week (rows : list ProblemRow) (today : Day) :
  (practiced rows (today - 6) + practiced rows (today - 5) + practiced rows (today - 4)
   + practiced rows (today - 3) + practiced rows (today - 2) + practiced rows (today - 1)
   + practiced rows (today - 0))%nat
  = length (filter (λ p, today - 6 ≤ date_practiced p ≤ today) rows).
Proof.
  unfold practiced. induction rows as [|p rows IH]; [done|].
  rewrite !filter_cons.
  repeat (match goal with
          | |- context [decide (date_practiced p = ?d)] =>
              destruct (decide (date_practiced p = d))
          end);
    destruct (decide (today - 6 ≤ date_practiced p ≤ today));
    cbn [length]; lia.
Qed.

(** X6: after [fetchStats] the weekly chart has seven bars, for the seven
    days ending today, oldest first; each bar counts the problems practiced
    on its day, so a problem dated within those days is counted exactly
    once and a problem dated earlier, or later than today, is counted
    nowhere. *)
Theorem weekly_chart_counts_each_day
    (u : User) (weekday : nat → string) (today : Day)
    (learningGoals applications : option (list StatusRow))
    (rows : list ProblemRow) (st : State) :
  let st' := state_after (fetchStats (Some u) today weekday learningGoals (Some rows)
                            applications st) in
  weeklyActivity st'
  = (λ i, (weekday i,
           length (filter (λ p, date_practiced p = today - 6 + Z.of_nat i) rows)))
      <$> seq 0 7
  ∧ sum_list (snd <$> weeklyActivity st')
    = length (filter (λ p, today - 6 ≤ date_practiced p ≤ today) rows).
Proof.
  intros st'. subst st'. unfold fetchStats. run_handler.
  cbn [weeklyActivity setLoading setApplicationStatus setWeeklyActivity].
  unfold week_counted.
  rewrite last7Days_unfold, week_counted_fold.
  2: { cbn [fmap list_fmap date].
       repeat (apply NoDup_cons; split;
               [rewrite ?elem_of_cons, elem_of_nil; lia|]).
       constructor. }
  unfold add_problems. cbn [fmap list_fmap seq name date problems Nat.add].
  split.
  - unfold practiced.
    replace (today - 6 + Z.of_nat 0) with (today - 6) by lia.
    replace (today - 6 + Z.of_nat 1) with (today - 5) by lia.
    replace (today - 6 + Z.of_nat 2) with (today - 4) by lia.
    replace (today - 6 + Z.of_nat 3) with (today - 3) by lia.
    replace (today - 6 + Z.of_nat 4) with (today - 2) by lia.
    replace (today - 6 + Z.of_nat 5) with (today - 1) by lia.
    replace (today - 6 + Z.of_nat 6) with (today - 0) by lia.
    reflexivity.
  - rewrite <- practiced_in_week. cbn. lia.
Qed.

Lemma status_counts_partition (apps : list StatusRow) :
  let counted (s : string) := length (List.filter (λ a, (row_status a =? s)%string) apps) in
  (counted "applied" + counted "oa" + counted "interview" + counted "rejected"
   + counted "selected")%nat
  = length (filter (λ a, row_status a ∈ ["applied"; "oa"; "interview"; "rejected"; "selected"])
              apps).
Proof.
  cbv zeta. induction apps as [|a apps IH]; [done|].
  cbn [List.filter]. rewrite filter_cons.
  destruct (decide (row_status a ∈ ["applied"; "oa"; "interview"; "rejected"; "selected"]))
    as [Hin|Hout].
  - rewrite !elem_of_cons, elem_of_nil in Hin.
    destruct Hin as [->|[->|[->|[->|[->|[]]]]]]; cbn [String.eqb Ascii.eqb Bool.eqb length];
      lia.
  - rewrite !elem_of_cons, elem_of_nil in Hout.
    destruct (String.eqb_spec (row_status a) "applied"); [tauto|].
    destruct (String.eqb_spec (row_status a) "oa"); [tauto|].
    destruct (String.eqb_spec (row_status a) "interview"); [tauto|].
    destruct (String.eqb_spec (row_status a) "rejected"); [tauto|].
    destruct (String.eqb_spec (row_status a) "selected"); [tauto|].
    exact IH.
Qed.

Lemma positive_slices_sum (P : Slice → Prop) `{!∀ s, Decision (P s)} (l : list Slice) :
  sum_list (value <$> filter P (List.filter (λ s, (0 <? value s)%nat) l))
  = sum_list (value <$> filter P l).
Proof.
  unfold sum_list. induction l as [|s l IH]; [done|].
  cbn [List.filter]. destruct (Nat.ltb_spec 0 (value s)) as [Hpos|Hzero].
  - rewrite !filter_cons. destruct (decide (P s)); [|done].
    cbn [fmap list_fmap sum_list_with]. by rewrite IH.
  - rewrite filter_cons. destruct (decide (P s)); [|done].
    cbn [fmap list_fmap sum_list_with]. rewrite IH.
    unfold Datatypes.id. lia.
Qed.

Lemma positive_slices_total (l : list Slice) :
  sum_list (value <$> List.filter (λ s, (0 <? value s)%nat) l) = sum_list (value <$> l).
Proof.
  unfold sum_list. induction l as [|s l IH]; [done|].
  cbn [List.filter]. destruct (Nat.ltb_spec 0 (value s)) as [Hpos|Hzero];
    cbn [fmap list_fmap sum_list_with]; rewrite IH; [done|].
  unfold Datatypes.id. lia.
Qed.

Lemma interview_or_selected (apps : list StatusRow) :
  length (List.filter (λ a, (row_status a =? "interview")%string
                            || (row_status a =? "selected")%string) apps)
  = (length (List.filter (λ a, (row_status a =? "interview")%string) apps)
     + length (List.filter (λ a, (row_status a =? "selected")%string) apps))%nat.
Proof.
  induction apps as [|a apps IH]; [done|]. cbn [List.filter].
  destruct (String.eqb_spec (row_status a) "interview") as [Heq|_].
  - rewrite Heq. cbn [String.eqb Ascii.eqb Bool.eqb orb length]. lia.
  - destruct (String.eqb_spec (row_status a) "selected") as [Heq|_];
      cbn [orb length]; lia.
Qed.

(** X7: after [fetchStats] the status chart has no empty slice; its slices
    add up to the number of applications whose status is one of applied,
    oa, interview, rejected, selected, which is at most the number of
    applications sent; the interviews attended are the applications in the
    chart's Interview and Selected slices. *)
Theorem status_chart_has_no_empty_slice
    (u : User) (weekday : nat → string) (today : Day)
    (learningGoals : option (list StatusRow)) (codingProblems : option (list ProblemRow))
    (apps : list StatusRow) (st : State) :
  let st' := state_after (fetchStats (Some u) today weekday learningGoals codingProblems
                            (Some apps) st) in
  let chart := applicationStatus st' in
  let slice_of (n : string) := sum_list (value <$> filter (λ s, slice_name s = n) chart) in
  Forall (λ s, (0 < value s)%nat) chart
  ∧ sum_list (value <$> chart)
    = length (filter (λ a, row_status a ∈ ["applied"; "oa"; "interview"; "rejected";
                                           "selected"]) apps)
  ∧ (sum_list (value <$> chart) ≤ applicationsSent (stats st'))%nat
  ∧ interviewsAttended (stats st') = (slice_of "Interview" + slice_of "Selected")%nat.
Proof.
  intros st' chart slice_of.
  assert (chart = List.filter (λ s, (0 <? value s)%nat) (status_slices (Some apps)))
    as Hchart by done.
  assert (sum_list (value <$> chart)
          = length (filter (λ a, row_status a ∈ ["applied"; "oa"; "interview"; "rejected";
                                                 "selected"]) apps)) as Hsum.
  { rewrite <- status_counts_partition, Hchart.
    rewrite positive_slices_total.
    unfold status_slices, count_where. cbn. lia. }
  split; [|split; [exact Hsum|split]].
  - rewrite Hchart. apply Forall_forall.
    intros s Hs%list_elem_of_In%List.filter_In.
    destruct Hs as [_ Hs]. by apply Nat.ltb_lt.
  - rewrite Hsum. apply length_filter.
  - subst slice_of. cbv beta. rewrite Hchart, !positive_slices_sum.
    change (interviewsAttended (stats st'))
      with (length (List.filter (λ a, (row_status a =? "interview")%string
                                      || (row_status a =? "selected")%string) apps)).
    rewrite interview_or_selected.
    rewrite <- !(filter_bool_Prop (λ s, (slice_name s =? _)%string))
      by (intros s; apply String.eqb_eq).
    unfold status_slices, count_where.
    cbn [List.filter slice_name String.eqb Ascii.eqb Bool.eqb].
    cbn [fmap list_fmap value sum_list sum_list_with]. unfold Datatypes.id. lia.
Qed.

End DashboardFacts.

(** ** The application pages *)

Section UpcomingFacts.
Import Applications.

(** X8: the upcoming interviews are applications of the list with status
    'interview' and an interview date after today (the UTC date of the
    clock) and at most seven days ahead; every such application dated one
    to six days ahead is listed.  An interview dated today is never
    listed. *)
Theorem upcoming_interviews_start_tomorrow (now : Z) (st : State) (app : Application) :
  let today := now `div` ms_per_day in
  (app ∈ upcomingInterviews now st →
   app ∈ applications st ∧ status app = "interview"
   ∧ ∃ d, interview_date app = Some d ∧ today < d ≤ today + 7)
  ∧ (∀ d, app ∈ applications st → status app = "interview" →
          interview_date app = Some d → today < d < today + 7 →
          app ∈ upcomingInterviews now st)
  ∧ (interview_date app = Some today → app ∉ upcomingInterviews now st).
Proof.
  intros today.
  pose proof (Z.div_mod now ms_per_day ltac:(done)) as Hnow.
  pose proof (Z.mod_pos_bound now ms_per_day ltac:(done)) as Hrem.
  fold today in Hnow. unfold ms_per_day in *.
  assert (app ∈ upcomingInterviews now st →
          app ∈ applications st ∧ status app = "interview"
          ∧ ∃ d, interview_date app = Some d ∧ today < d ≤ today + 7) as Hlisted.
  { unfold upcomingInterviews. intros [Hin Htest]%list_elem_of_In%List.filter_In.
    split; [by apply list_elem_of_In|].
    destruct (interview_date app) as [d|]; [|done].
    apply andb_prop in Htest as [[Hstatus Hafter]%andb_prop Hbefore].
    split; [by apply String.eqb_eq|]. exists d. split; [done|].
    unfold midnight, addDays, ms_per_day in *. lia. }
  split; [exact Hlisted|]. split.
  - intros d Hin Hstatus Hdate Hd. unfold upcomingInterviews.
    apply list_elem_of_In, List.filter_In. split; [by apply list_elem_of_In|].
    rewrite Hdate. apply andb_true_intro. split; [apply andb_true_intro; split|].
    + by apply String.eqb_eq.
    + unfold midnight, ms_per_day. lia.
    + unfold midnight, addDays, ms_per_day. lia.
  - intros Hdate Hin. destruct (Hlisted Hin) as (_ & _ & d & Hd & Hrange).
    rewrite Hdate in Hd. injection Hd as <-. lia.
Qed.

End UpcomingFacts.

Section EarlyPage.
Import Applications.

(** X9: the earlier application page sends the form as it is typed: for
    every form, blank fields included, the first request is the insert or
    update carrying company and role untrimmed; whether or not the write
    succeeds the dialog is closed and the record being edited forgotten;
    after a write that fails the table is as before, nothing is fetched
    and the one notification is the error. *)
Theorem early_page_sends_the_form_as_typed
    (u : User) (form : Form) (write_ok : bool) (fresh_id now : string)
    (select_ok : bool) (w : World) :
  let r := handleSubmit_early (Some u) form write_ok fresh_id now select_ok w in
  (∃ d, head (requests (log_of r))
        = Some match editingApp (ui w) with
               | Some editing => Update "applications" (id editing) d
               | None => Insert "applications" d
               end
        ∧ data_company_name d = form_company_name form
        ∧ data_role d = form_role form)
  ∧ isDialogOpen (ui (state_after r)) = false
  ∧ editingApp (ui (state_after r)) = None
  ∧ (write_ok = false →
     table (state_after r) = table w
     ∧ length (requests (log_of r)) = 1%nat
     ∧ toasts (log_of r)
       = [match editingApp (ui w) with
          | Some _ => "Failed to update application"
          | None => "Failed to add application"
          end]).
Proof.
  intros r. subst r. unfold handleSubmit_early, write, fetchApplications_early.
  run_handler.
  destruct (editingApp (ui w)) as [editing|], write_ok, (form_apply_date form),
    select_ok; run_handler; cbn;
    (split; [eexists; split; [reflexivity|by split]|]);
    (split; [done|]); (split; [done|]); by intros.
Qed.

End EarlyPage.

(** ** Mock tests: clock, review, start and navigation *)

Section MockTestMore.
Import MockTests.

Lemma formatTime_checked :
  forallb (λ n, bool_decide (clock_reading (formatTime (Z.of_nat n)) = Some (Z.of_nat n)))
    (seq 0 (60 * 100)) = true.
Proof. by vm_compute. Qed.

(** X10: for every number of seconds from 0 up to 99 minutes 59 seconds the
    clock text is two digits of minutes, a colon and two digits of seconds
    below 60, and reads back as that number of seconds. *)
Theorem clock_text_reads_back (seconds : Z) :
  0 ≤ seconds < 6000 → clock_reading (formatTime seconds) = Some seconds.
Proof.
  intros Hrange.
  pose proof (proj1 (forallb_forall _ _) formatTime_checked (Z.to_nat seconds)) as Hn.
  cbv beta in Hn. rewrite Z2Nat.id in Hn by lia.
  eapply bool_decide_eq_true_1, Hn, in_seq. lia.
Qed.

Lemma clock_text_reads_back_witness :
  formatTime 754 = "12:34" ∧ clock_reading (formatTime 754) = Some 754.
Proof.
  split; [by vm_compute|]. apply clock_text_reads_back. lia.
Defined.

Lemma count_correct_review (selected : list Slot) (qs : list Question) :
  ∀ index correctCount,
    count_correct selected index qs correctCount
    = (correctCount
       + length (List.filter isCorrect
                   (imap (λ i q,
                            {| reviewed := q; userAnswer := js_get selected (index + i);
                               isCorrect := bool_decide (js_get selected (index + i)
                                                         = Some (correctAnswer q)) |})
                      qs)))%nat.
Proof.
  induction qs as [|q rest IH]; intros index correctCount; [cbn; lia|].
  cbn [count_correct imap List.filter isCorrect]. rewrite Nat.add_0_r.
  rewrite (imap_ext _ (λ i q0, {| reviewed := q0;
                                 userAnswer := js_get selected (S index + i);
                                 isCorrect := bool_decide (js_get selected (S index + i)
                                                           = Some (correctAnswer q0)) |})).
  2: { intros i q0 _. cbn. by rewrite Nat.add_succ_r. }
  rewrite IH.
  destruct (bool_decide _); cbn [length]; lia.
Qed.

(** X11: after a submission that succeeds, the number of questions the
    review marks as correct is the number of correct answers the result
    shows, and it is at most the number of questions. *)
Theorem review_marks_agree_with_tally
    (u : User) (now : string) (st : State) (current : MockTest) :
  currentTest st = Some current →
  ∃ completed,
    currentTest (state_after (handleSubmitTest (Some u) now true st)) = Some completed
    ∧ length (List.filter isCorrect (review completed)) = correct_answers completed
    ∧ (correct_answers completed ≤ length (questions completed))%nat
    ∧ length (review completed) = length (questions completed).
Proof.
  intros Hcur. unfold handleSubmitTest, handleSubmitTest_of. run_handler.
  rewrite Hcur. run_handler.
  cbn [currentTest setLoading setView setCurrentTest].
  eexists. split; [reflexivity|].
  unfold review. cbn [questions answers correct_answers].
  rewrite count_correct_review. cbn [Nat.add].
  split; [done|]. split; [|by rewrite length_imap].
  etransitivity; [apply filter_length_le|]. by rewrite length_imap.
Qed.

Lemma review_marks_agree_with_tally_witness :
  ∃ completed,
    currentTest (state_after (handleSubmitTest (Some {| user_id_of := "u1" |})
                                "2024-10-01T09:03:58Z" true sample_session))
    = Some completed
    ∧ isCorrect <$> review completed = [true; false; true; false]
    ∧ correct_answers completed = 2%nat.
Proof.
  destruct (review_marks_agree_with_tally {| user_id_of := "u1" |} "2024-10-01T09:03:58Z"
              sample_session sample_test eq_refl) as (completed & Hcur & _).
  exists completed. split; [exact Hcur|].
  vm_compute in Hcur. injection Hcur as <-. by vm_compute.
Defined.

(** X12: a start that fails, because the generator cannot be reached, or
    answers with an error, or because the new test cannot be inserted,
    leaves the page as it was but for the loading flag, which is reset, and
    shows one notification: the message of what went wrong, or 'Failed to
    generate test' when the generator gave none, or 'Failed to start test'
    for a failed insert.  The insert is requested only after a generation
    that succeeded. *)
Theorem failed_start_leaves_setup
    (u : User) (response : Generated) (insert_ok : bool) (fresh_id now : string)
    (st : State) :
  (∀ qs, response = generated qs → insert_ok = false) →
  let r := startTest (Some u) response insert_ok fresh_id now st in
  state_after r = setLoading false st
  ∧ toasts (log_of r)
    = [match response with
       | fetch_failed message => message
       | not_ok error => if Js.falsy error then "Failed to generate test" else error
       | generated _ => "Failed to start test"
       end]
  ∧ length (requests (log_of r))
    = match response with generated _ => 2%nat | _ => 1%nat end.
Proof.
  intros Hfailed r. subst r. unfold startTest. run_handler.
  destruct response as [message|error|qs]; run_handler.
  - by cbn.
  - cbn. unfold Js.or_else. by destruct (Js.falsy error).
  - rewrite (Hfailed qs eq_refl). by cbn.
Qed.

Lemma failed_start_leaves_setup_witness :
  let r := startTest (Some {| user_id_of := "u1" |}) (not_ok "") true "t1"
             "2024-10-01T09:00:00Z" history_screen in
  state_after r = history_screen
  ∧ toasts (log_of r) = ["Failed to generate test"].
Proof.
  cbv zeta.
  destruct (failed_start_leaves_setup {| user_id_of := "u1" |} (not_ok "") true "t1"
              "2024-10-01T09:00:00Z" history_screen) as (Hstate & Htoast & _);
    [by intros qs [=]|].
  split; [exact Hstate|exact Htoast].
Defined.

Lemma handleSubmitTest_of_within_limit render who now update_ok st :
  currentTest render = currentTest st →
  within_limit st →
  within_limit (state_after (handleSubmitTest_of render who now update_ok st)).
Proof.
  intros Hsame (current & Hcur & Hrange & Hmax). unfold handleSubmitTest_of.
  rewrite Hsame, Hcur. destruct who as [u|]; run_handler; [|by exists current].
  destruct update_ok; cbn; [|by exists current].
  eexists. split; [reflexivity|]. cbn. done.
Qed.

Lemma in_test_within_limit st : in_test st → within_limit st.
Proof.
  revert st. apply in_test_invariant.
  - intros u qs fresh_id now st0.
    unfold startTest. run_handler. cbn. eexists. split; [reflexivity|]. cbn. lia.
  - intros st st' (current & Hcur & Hrange & Hmax) Hclick.
    destruct Hclick as [st key text q Hview Hq Hkey | st | st c | st c index];
      exists current; (split; [exact Hcur|]); (split; [exact Hrange|exact Hmax]).
  - intros render who now update_ok st (_ & Hsame & _) IH. rewrite tick_run.
    destruct (timer_running render); [|exact IH].
    destruct (Z.leb_spec (timeRemaining st) 1) as [Hle|Hgt].
    + pose proof (handleSubmitTest_of_within_limit render who now update_ok st Hsame IH)
        as (current & Hcur & Hrange & Hmax).
      exists current. cbn in *. split; [done|]. split; [lia|done].
    + destruct IH as (current & Hcur & Hrange & Hmax).
      exists current. cbn. split; [done|]. split; [lia|done].
  - intros who now update_ok st IH. rewrite handleSubmitTest_eq.
    by apply handleSubmitTest_of_within_limit.
Qed.

(** X13: throughout a test the time left stays between zero and the time
    allowed, one minute for each question asked for; so the time taken
    that a submission writes is never negative and never more than the
    time allowed. *)
Theorem time_taken_within_limit
    (who : option User) (now : string) (update_ok : bool) (st : State) :
  in_test st →
  ∃ current, currentTest st = Some current
    ∧ 0 ≤ timeRemaining st ≤ max_time current
    ∧ max_time current = Z.of_nat (total_questions current) * 60
    ∧ ∀ x body,
        Update "mock_tests" x (test_result body)
        ∈ requests (log_of (handleSubmitTest who now update_ok st)) →
        0 ≤ res_time_taken body ≤ max_time current.
Proof.
  intros (current & Hcur & Hrange & Hmax)%in_test_within_limit.
  exists current. split; [done|]. split; [done|]. split; [done|].
  intros x body. unfold handleSubmitTest, handleSubmitTest_of. run_handler. rewrite Hcur.
  destruct who as [u|]; run_handler; [|by intros ?%elem_of_nil].
  destruct update_ok; cbn; intros Hin%list_elem_of_singleton;
    injection Hin as _ ->; cbn; lia.
Qed.

Lemma time_taken_within_limit_witness :
  ∃ current, currentTest started_session = Some current
    ∧ timeRemaining started_session = 240 ∧ max_time current = 240.
Proof.
  destruct (time_taken_within_limit None "" true started_session)
    as (current & Hcur & _); [apply in_test_started|].
  exists current. split; [exact Hcur|].
  vm_compute in Hcur. injection Hcur as <-. by vm_compute.
Defined.

End MockTestMore.

Section Navigation.
Import MockTests.

Lemma handleSubmitTest_of_on_a_question render who now update_ok st :
  currentTest render = currentTest st →
  on_a_question st →
  on_a_question (state_after (handleSubmitTest_of render who now update_ok st)).
Proof.
  intros Hsame (current & Hcur & Hindex). unfold handleSubmitTest_of.
  rewrite Hsame, Hcur. destruct who as [u|]; run_handler; [|by exists current].
  destruct update_ok; cbn; [|by exists current].
  eexists. split; [reflexivity|]. cbn. done.
Qed.

Lemma in_test_on_a_question st : in_test st → on_a_question st.
Proof.
  revert st. apply in_test_invariant.
  - intros u qs fresh_id now st0.
    unfold startTest. run_handler. cbn. eexists. split; [reflexivity|]. cbn. lia.
  - intros st st' (current & Hcur & Hindex) Hclick.
    destruct Hclick as [st key text q Hview Hq Hkey | st Hview Hfirst
                        | st c Hview Hc Hnext | st c index Hview Hc Hnav];
      exists current; (split; [exact Hcur|]); cbn; try exact Hindex; intros Htotal.
    + specialize (Hindex Htotal). lia.
    + rewrite Hcur in Hc. injection Hc as <-. lia.
    + rewrite Hcur in Hc. injection Hc as <-. lia.
  - intros render who now update_ok st (_ & Hsame & _) IH. rewrite tick_run.
    destruct (timer_running render); [|exact IH].
    destruct (timeRemaining st <=? 1); [|exact IH].
    exact (handleSubmitTest_of_on_a_question render who now update_ok st Hsame IH).
  - intros who now update_ok st IH. rewrite handleSubmitTest_eq.
    by apply handleSubmitTest_of_on_a_question.
Qed.

(** X14: when the generator returned as many questions as were asked for,
    and at least one, the navigation never leaves them: throughout the
    test the index on screen is the index of a question of the test. *)
Theorem navigation_stays_on_a_question (st : State) :
  in_test st →
  ∃ current, currentTest st = Some current
    ∧ (total_questions current = length (questions current) →
       questions current ≠ [] →
       (currentQuestionIndex st < length (questions current))%nat
       ∧ is_Some (currentQuestion st)).
Proof.
  intros (current & Hcur & Hindex)%in_test_on_a_question.
  exists current. split; [exact Hcur|]. intros Htotal Hsome.
  specialize (Hindex Htotal).
  assert (currentQuestionIndex st < length (questions current))%nat as Hlt.
  { destruct (questions current); [done|]. cbn in *. lia. }
  split; [exact Hlt|]. unfold currentQuestion. rewrite Hcur. cbn.
  by apply lookup_lt_is_Some.
Qed.

Lemma navigation_stays_on_a_question_witness :
  currentQuestionIndex started_session = 0%nat
  ∧ is_Some (currentQuestion started_session).
Proof.
  split; [reflexivity|].
  destruct (navigation_stays_on_a_question started_session) as (current & Hcur & Hon);
    [apply in_test_started|].
  vm_compute in Hcur. injection Hcur as <-.
  apply Hon; [reflexivity|discriminate].
Defined.

End Navigation.

(** ** Mock interviews: guards, stored transcript and the stream *)

Section InterviewMore.
Import MockInterviews.
Variable JSON_parse : string → option Json.
Variable is_zero : string → bool.
Variable Number_text : string → string.

Lemma read_lines_app before (l1 l2 : list string) : ∀ aiMessage w text w1,
  read_lines JSON_parse is_zero Number_text before l1 aiMessage w = (Returned text, w1, []) →
  read_lines JSON_parse is_zero Number_text before (l1 ++ l2) aiMessage w
  = read_lines JSON_parse is_zero Number_text before l2 text w1.
Proof.
  induction l1 as [|line l1 IH]; intros aiMessage w text w1; cbn [app read_lines].
  - by intros [= <- <-].
  - destruct (token JSON_parse is_zero Number_text line) as [content|]; [|apply IH].
    run_handler.
    destruct (read_lines_run JSON_parse is_zero Number_text before l1 (aiMessage +:+ content)
                (on_ui (setMessages
                          (before ++ [{| role := assistant;
                                         content := aiMessage +:+ content |}])) w))
      as (w' & _ & Hrun).
    rewrite Hrun. intros [= <- <-].
    rewrite (IH _ _ _ _ Hrun).
    by destruct (read_lines JSON_parse is_zero Number_text before l2 _ w') as [[o st2] log2].
Qed.

(** X15: a chunk that is cut in two right after one of its line feeds
    gives the same run of the reader as the chunk in one piece: the same
    text returned, the same final state, and the same outcome and events,
    whatever was read before and whatever chunks follow. *)
Theorem stream_can_be_cut_at_line_ends
    (before : list Message) (a b : string) (rest : list string)
    (aiMessage : string) (w : World) :
  read_chunks JSON_parse is_zero Number_text before
    ((a +:+ String "010" b) :: rest) aiMessage w
  = read_chunks JSON_parse is_zero Number_text before
      ((a +:+ String "010" "") :: b :: rest) aiMessage w.
Proof.
  cbn [read_chunks]. rewrite !split_cut. run_handler.
  destruct (read_lines_run JSON_parse is_zero Number_text before
              (Js.split "010" a) aiMessage w)
    as (w1 & _ & Hrun).
  rewrite !(read_lines_app _ _ _ _ _ _ _ Hrun).
  change (read_lines JSON_parse is_zero Number_text before (Js.split "010" "") ?t w1)
    with (@ret World (Effect Body) string t w1).
  cbv beta iota delta [ret].
  destruct (read_lines JSON_parse is_zero Number_text before (Js.split "010" b) _ w1)
    as [[[text|e] w2] log2]; [|done].
  destruct (read_chunks JSON_parse is_zero Number_text before rest text w2)
    as [[o w3] log3].
  by rewrite app_nil_l.
Qed.

(** X16: without an interview in progress, with an input that is empty or
    white space only, or while an answer is awaited, sending does nothing:
    no request, no notification, no change of state. *)
Theorem nothing_is_sent_without_a_message
    (reply : Reply) (update_ok : bool) (w : World) :
  currentInterview (ui w) = None
  ∨ all_whitespace (inputMessage (ui w)) = true
  ∨ sendingMessage (ui w) = true →
  sendMessage JSON_parse is_zero Number_text reply update_ok w = (Returned tt, w, []).
Proof.
  intros Hguard. unfold sendMessage. run_handler.
  destruct (currentInterview (ui w)) as [current|]; [|done].
  destruct Hguard as [?|[Hblank|Hbusy]]; [done| |].
  - by rewrite (trim_all_whitespace _ Hblank).
  - rewrite Hbusy. by destruct (Js.falsy _).
Qed.

Lemma read_lines_shown before lines : ∀ aiMessage w,
  ∃ m, (m = messages (ui w) ∨ ∃ s, m = before ++ [{| role := assistant; content := s |}])
    ∧ read_lines JSON_parse is_zero Number_text before lines aiMessage w
      = (Returned (aiMessage
                   +:+ foldr String.append ""
                         (omap (token JSON_parse is_zero Number_text) lines)),
         on_ui (setMessages m) w, []).
Proof.
  induction lines as [|line rest IH]; intros aiMessage w; simpl.
  - exists (messages (ui w)). split; [by left|].
    rewrite append_empty_r. by destruct w as [[] ? ?].
  - destruct (token JSON_parse is_zero Number_text line) as [content|]; [|apply IH].
    run_handler.
    destruct (IH (aiMessage +:+ content)
                (on_ui (setMessages
                          (before ++ [{| role := assistant;
                                         content := aiMessage +:+ content |}])) w))
      as (m & Hm & ->).
    exists m. split.
    + destruct Hm as [->|Hm]; [|by right]. right. by eexists.
    + cbn [foldr]. by rewrite append_assoc.
Qed.

Lemma read_chunks_shown before chunks : ∀ aiMessage w,
  ∃ m, (m = messages (ui w) ∨ ∃ s, m = before ++ [{| role := assistant; content := s |}])
    ∧ read_chunks JSON_parse is_zero Number_text before chunks aiMessage w
      = (Returned (aiMessage +:+ received_text JSON_parse is_zero Number_text chunks),
         on_ui (setMessages m) w, []).
Proof.
  induction chunks as [|chunk rest IH]; intros aiMessage w; cbn [read_chunks].
  - exists (messages (ui w)). split; [by left|].
    unfold received_text. cbn. rewrite append_empty_r. by destruct w as [[] ? ?].
  - run_handler.
    destruct (read_lines_shown before (Js.split "010" chunk) aiMessage w)
      as (m1 & Hm1 & ->).
    destruct (IH (aiMessage +:+ foldr String.append ""
                                   (omap (token JSON_parse is_zero Number_text)
                                      (Js.split "010" chunk)))
                (on_ui (setMessages m1) w))
      as (m2 & Hm2 & ->).
    exists m2. split.
    + destruct Hm2 as [->|Hm2]; [exact Hm1|by right].
    + unfold received_text. rewrite fmap_cons. cbn [concat].
      unfold tokens_of_chunk at 1.
      by rewrite foldr_append_app, append_assoc.
Qed.

Lemma sendMessage_keeps reply update_ok w :
  transcript_kept w →
  transcript_kept
    (state_after (sendMessage JSON_parse is_zero Number_text reply update_ok w)).
Proof.
  intros [Hasked Hprefix]. unfold sendMessage. run_handler.
  destruct (currentInterview (ui w)) as [current|]; [|done].
  destruct (Js.falsy (Js.trim (inputMessage (ui w))) || sendingMessage (ui w)); [done|].
  run_handler.
  assert (∀ tail, stored_messages w `prefix_of` messages (ui w) ++ tail) as Hmore.
  { intros tail. etransitivity; [exact Hprefix|]. by apply prefix_app_r. }
  destruct reply as [message|error|chunks broken]; run_handler.
  - split; [exact Hasked|apply Hmore].
  - split; [exact Hasked|apply Hmore].
  - unfold read_stream. run_handler.
    match goal with
    | |- context [read_chunks JSON_parse is_zero Number_text ?b chunks "" ?w0] =>
        destruct (read_chunks_shown b chunks "" w0) as (m & Hm & ->)
    end.
    destruct broken as [message|]; run_handler.
    + split; [exact Hasked|]. cbn.
      destruct Hm as [->|[s ->]]; [apply Hmore|]. rewrite <- app_assoc. apply Hmore.
    + unfold store. run_handler. destruct update_ok; cbn.
      * split; [|done]. unfold asked.
        rewrite <- (filter_bool_Prop (λ m, bool_decide (role m = assistant))); [done|].
        intros m0. apply bool_decide_eq_true.
      * split; [exact Hasked|]. rewrite <- app_assoc. apply Hmore.
Qed.

(** X17: throughout an interview the stored count of questions is the
    number of assistant messages in the stored transcript, and the stored
    transcript is the beginning of the transcript on screen: what is
    stored was shown, in that order, and is still shown. *)
Theorem stored_transcript_is_shown (w : World) :
  in_interview JSON_parse is_zero Number_text w →
  stored_questions_asked w
  = length (filter (λ m, role m = assistant) (stored_messages w))
  ∧ stored_messages w `prefix_of` messages (ui w).
Proof.
  change (in_interview JSON_parse is_zero Number_text w → transcript_kept w).
  induction 1 as [u interviewData chunks update_ok w0 | text w _ IH
                  | reply update_ok w _ IH].
  - unfold startInterview. run_handler. unfold read_stream. run_handler.
    match goal with
    | |- context [read_chunks JSON_parse is_zero Number_text ?b chunks "" ?w0] =>
        destruct (read_chunks_shown b chunks "" w0) as (m & Hm & ->)
    end.
    unfold store. run_handler. destruct update_ok; cbn.
    + split; [done|done].
    + split; [done|]. apply prefix_nil.
  - exact IH.
  - by apply sendMessage_keeps.
Qed.

End InterviewMore.

Lemma nothing_is_sent_without_a_message_witness :
  let w := MockInterviews.on_ui (MockInterviews.setInputMessage "   ") interview_world in
  MockInterviews.sendMessage JSON_parse zero_lexeme integer_text
    (MockInterviews.streamed sample_chunks None) true w
  = (Returned tt, w, []).
Proof.
  cbv zeta. apply nothing_is_sent_without_a_message. right. left. reflexivity.
Defined.

Lemma stored_transcript_is_shown_witness :
  let w := state_after
             (MockInterviews.sendMessage JSON_parse zero_lexeme integer_text
                (MockInterviews.streamed (take 1 sample_chunks) (Some "network error")) true
                (MockInterviews.on_ui (MockInterviews.setInputMessage "I build things.")
                   (state_after
                      (MockInterviews.startInterview JSON_parse zero_lexeme integer_text
                         (Some {| user_id_of := "u1" |})
                         (MockInterviews.currentInterview (MockInterviews.ui interview_world))
                         (MockInterviews.streamed sample_chunks None) true
                         interview_world)))) in
  MockInterviews.stored_questions_asked w = 1%nat
  ∧ length (MockInterviews.stored_messages w) = 1%nat
  ∧ length (MockInterviews.messages (MockInterviews.ui w)) = 3%nat
  ∧ MockInterviews.stored_messages w `prefix_of` MockInterviews.messages (MockInterviews.ui w).
Proof.
  cbv zeta.
  split; [by vm_compute|]. split; [by vm_compute|]. split; [by vm_compute|].
  apply (stored_transcript_is_shown JSON_parse zero_lexeme integer_text).
  apply interview_sent, interview_typed.
  apply (interview_started JSON_parse zero_lexeme integer_text {| user_id_of := "u1" |}).
Defined.

(** ** The edge functions: answers and extraction *)

(** A property of status codes that holds of the first 430 codes and of
    all later ones holds of every code. *)
Lemma by_code (P : nat → bool) :
  forallb P (seq 0 430) = true → (∀ k, P (430 + k)%nat = true) → ∀ code, P code = true.
Proof.
  intros Hlow Hhigh code. destruct (le_lt_dec 430 code) as [Hge|Hlt].
  - replace code with (430 + (code - 430))%nat by lia. apply Hhigh.
  - apply (proj1 (forallb_forall _ _) Hlow). apply in_seq. lia.
Qed.

Section EdgeMore.
Import EdgeFunctions.

Variable JSON_parse : string → option Json.
Variable SyntaxError_message : string → string.
Variable TypeError_message : string.

Lemma refused_inv (r : Response + string) :
  refused r = true →
  (∃ message, r = inr message)
  ∨ (∃ code message, r = inl (json_response code (error_object message))
       ∧ (code = 429 ∨ code = 402)%nat).
Proof.
  destruct r as [[code [[| | | | |[|[k [| | |s| |]] [|]]]|]]|message]; try done;
    [|by left; eexists].
  cbn. intros [Hcode Hk%String.eqb_eq]%andb_prop. subst k.
  right. exists code, s. split; [done|].
  apply orb_prop in Hcode as [?%Nat.eqb_eq|?%Nat.eqb_eq]; auto.
Qed.

Lemma refused_http_inv (r : HttpResponse + string) :
  refused_http r = true →
  (∃ message, r = inr message)
  ∨ (∃ code message,
       r = inl {| http_status := code; http_body := payload_json (error_object message) |}
       ∧ (code = 429 ∨ code = 402)%nat).
Proof.
  destruct r as [[code [|[| | | | |[|[k [| | |s| |]] [|]]]|]]|message]; try done;
    [|by left; eexists].
  cbn. intros [Hcode Hk%String.eqb_eq]%andb_prop. subst k.
  right. exists code, s. split; [done|].
  apply orb_prop in Hcode as [?%Nat.eqb_eq|?%Nat.eqb_eq]; auto.
Qed.

Lemma analyze_body_refuses (code : nat) :
  refused (analyze_body JSON_parse (gateway_status code)) = true.
Proof. revert code. apply by_code; [by vm_compute|]. intros k. reflexivity. Qed.

Lemma generate_body_refuses (code : nat) :
  refused (generate_body JSON_parse SyntaxError_message (gateway_status code)) = true.
Proof. revert code. apply by_code; [by vm_compute|]. intros k. reflexivity. Qed.

Lemma interview_body_refuses (action stream : string) (code : nat) :
  refused_http (interview_body action (gateway_status code) stream) = true.
Proof. revert code. apply by_code; [by vm_compute|]. intros k. reflexivity. Qed.

(** A response of generate-test with another status than 200 carries an
    error object. *)
Lemma generate_test_refusal (req_body key : string) (gateway : Gateway) :
  let r := generate_test JSON_parse SyntaxError_message TypeError_message "POST" req_body
             key gateway in
  status r ≠ 200%nat → ∃ message, body r = Some (error_object message).
Proof.
  intros r. subst r. unfold generate_test. cbn [String.eqb Ascii.eqb Bool.eqb].
  destruct (JSON_parse req_body) as [request|]; [|by eexists].
  assert (request = JNull ∨ request ≠ JNull) as [->|Hrequest]
    by (destruct request; auto); [by eexists|].
  assert (∀ x : Response + string,
            match request with
            | JNull => inr TypeError_message
            | _ => x
            end = x) as -> by (by destruct request).
  destruct (Js.falsy key); [by eexists|].
  destruct gateway as [code|[content|]]; [| |by eexists].
  - destruct (refused_inv _ (generate_body_refuses code))
      as [[message ->]|(c & message & -> & Hc)]; by eexists.
  - cbn [generate_body].
    destruct (braces content) as [jsonMatch|]; [|by eexists].
    destruct (JSON_parse jsonMatch) as [questions|]; [done|by eexists].
Qed.

(** X18: generate-test answers a preflight request with status 200 and no
    body.  To any other request it answers 200 exactly when the body of the
    request is JSON other than null, the key is configured and the span
    from the first opening to the last closing brace of the AI's reply
    parses, and then the body of the answer is the parsed value; in every
    other case the status is 429, 402 or 500 and the body is an object with
    an [error] message. *)
Theorem generate_test_answers (req_method req_body key : string) (gateway : Gateway) :
  let r := generate_test JSON_parse SyntaxError_message TypeError_message req_method
             req_body key gateway in
  (req_method = "OPTIONS" → r = {| status := 200; body := None |})
  ∧ (req_method ≠ "OPTIONS" →
     (status r = 200%nat ↔ is_Some (questions_in JSON_parse req_body key gateway))
     ∧ match questions_in JSON_parse req_body key gateway with
       | Some questions => r = json_response 200 questions
       | None =>
           (status r = 429 ∨ status r = 402 ∨ status r = 500)%nat
           ∧ ∃ message, body r = Some (error_object message)
       end).
Proof.
  intros r. subst r. unfold generate_test. split.
  { intros ->. reflexivity. }
  intros Hmethod. rewrite (proj2 (String.eqb_neq _ _) Hmethod).
  match goal with
  | |- (status ?r = _ ↔ _) ∧ ?Q =>
      assert Q as Hcases; [|split; [|exact Hcases]]
  end.
  - unfold questions_in.
    destruct (JSON_parse req_body) as [request|]; [|split; [auto|by eexists]].
    assert (request = JNull ∨ request ≠ JNull) as [->|Hrequest]
      by (destruct request; auto); [split; [auto|by eexists]|].
    assert (∀ x : Response + string,
              match request with
              | JNull => inr TypeError_message
              | _ => x
              end = x) as -> by (by destruct request).
    assert (∀ x : option Json,
              match request with
              | JNull => None
              | _ => x
              end = x) as -> by (by destruct request).
    destruct (Js.falsy key); [split; [auto|by eexists]|].
    destruct gateway as [code|[content|]]; [| |split; [auto|by eexists]].
    + destruct (refused_inv _ (generate_body_refuses code))
        as [[message ->]|(c & message & -> & Hc)];
        (split; [cbn; tauto|by eexists]).
    + cbn [generate_body mbind option_bind].
      destruct (braces content) as [jsonMatch|]; cbn [mbind option_bind];
        [|split; [auto|by eexists]].
      destruct (JSON_parse jsonMatch) as [questions|]; [done|].
      split; [auto|by eexists].
  - destruct (questions_in JSON_parse req_body key gateway) as [questions|].
    + rewrite Hcases. split; [by eexists|done].
    + destruct Hcases as [Hcode _]. split; [|by intros [? [=]]].
      intros H200. rewrite H200 in Hcode. by destruct Hcode as [|[|]].
Qed.

End EdgeMore.

Section ExtractionFacts.
Import EdgeFunctions.

Variable JSON_parse : string → option Json.
Variable SyntaxError_message : string → string.
Variable TypeError_message : string.

Lemma append_cons (c : ascii) (a b : string) : String c a +:+ b = String c (a +:+ b).
Proof. reflexivity. Qed.

Lemma indexOf_after (c : ascii) (pre rest : string) :
  lacks c pre = true →
  Js.indexOf (String c "") (pre +:+ String c rest) = Some (String.length pre).
Proof.
  induction pre as [|d pre IH]; intros Hpre.
  - change ("" +:+ String c rest) with (String c rest).
    cbn [Js.indexOf String.prefix String.length].
    destruct (ascii_dec c c); [by destruct rest|congruence].
  - cbn in Hpre. apply andb_prop in Hpre as [Hd Hpre].
    rewrite append_cons. cbn [Js.indexOf String.prefix String.length].
    rewrite (IH Hpre).
    destruct (ascii_dec c d) as [->|_]; [|done].
    by rewrite bool_decide_eq_true_2 in Hd.
Qed.

Lemma slice_length (pre rest : string) : Js.slice (String.length pre) (pre +:+ rest) = rest.
Proof. induction pre as [|d pre IH]; [by destruct rest|]. by rewrite append_cons. Qed.

Lemma take_length (pre rest : string) : Js.take (String.length pre) (pre +:+ rest) = pre.
Proof.
  induction pre as [|d pre IH]; [by destruct rest|].
  rewrite append_cons. cbn [String.length Js.take]. by rewrite IH.
Qed.

Lemma take_through (c : ascii) (a post : string) :
  Js.take (S (String.length a)) (a +:+ String c post) = a +:+ String c "".
Proof.
  induction a as [|d a IH]; [by destruct post|].
  rewrite !append_cons.
  change (Js.take (S (String.length (String d a))) (String d (a +:+ String c post)))
    with (String d (Js.take (S (String.length a)) (a +:+ String c post))).
  by rewrite IH.
Qed.

Lemma lastIndexOf_lacks (c : ascii) (s : string) :
  lacks c s = true → lastIndexOf c s = None.
Proof.
  induction s as [|d s IH]; [done|]. cbn.
  intros [Hd Hs]%andb_prop. rewrite (IH Hs).
  by destruct (bool_decide (d = c)).
Qed.

Lemma lastIndexOf_before (c : ascii) (mid post : string) :
  lacks c post = true →
  lastIndexOf c (mid +:+ String c post) = Some (String.length mid).
Proof.
  intros Hpost. induction mid as [|d mid IH].
  - change ("" +:+ String c post) with (String c post). cbn [lastIndexOf String.length].
    rewrite (lastIndexOf_lacks _ _ Hpost). by rewrite bool_decide_eq_true_2.
  - rewrite append_cons. cbn [lastIndexOf String.length]. by rewrite IH.
Qed.

Lemma braces_span (pre mid post : string) :
  lacks "{" pre = true → lacks "}" post = true →
  braces (pre +:+ String "{" (mid +:+ String "}" post)) = Some (String "{" (mid +:+ "}")).
Proof.
  intros Hpre Hpost. unfold braces.
  rewrite (indexOf_after "{" pre _ Hpre). cbn [mbind option_bind].
  rewrite slice_length.
  change (String "{" (mid +:+ String "}" post))
    with (String "{" mid +:+ String "}" post).
  rewrite (lastIndexOf_before "}" _ _ Hpost). cbn [mbind option_bind].
  by rewrite take_through.
Qed.

(** X19: words around the object do not matter as long as they hold no
    brace: when the AI's reply is an object text with text before it that
    has no opening brace and text after it that has no closing brace,
    generate-test answers 200 with what the object text parses to, and
    mock-interview answers a feedback request with the object text
    itself. *)
Theorem object_is_found_among_words
    (req_body key pre mid post stream : string) (request questions : Json) :
  JSON_parse req_body = Some request →
  request ≠ JNull →
  key ≠ "" →
  lacks "{" pre = true →
  lacks "}" post = true →
  JSON_parse (String "{" (mid +:+ "}")) = Some questions →
  let reply := gateway_ok (Some (pre +:+ String "{" (mid +:+ String "}" post))) in
  generate_test JSON_parse SyntaxError_message TypeError_message "POST" req_body key reply
  = json_response 200 questions
  ∧ mock_interview "POST" "feedback" key reply stream
    = {| http_status := 200; http_body := payload_text (String "{" (mid +:+ "}")) |}.
Proof.
  intros Hbody Hrequest Hkey Hpre Hpost Hparse reply. subst reply.
  unfold generate_test, mock_interview, generate_body, interview_body.
  cbn [String.eqb Ascii.eqb Bool.eqb].
  rewrite Hbody, (falsy_false _ Hkey), (braces_span _ _ _ Hpre Hpost), Hparse.
  by destruct request.
Qed.

Lemma prefix_lacks (c : ascii) (p s : string) :
  lacks c s = true → String.prefix (String c p) s = false.
Proof.
  destruct s as [|d s]; [done|]. cbn. intros [Hd _]%andb_prop.
  destruct (ascii_dec c d) as [->|_]; [|done].
  by rewrite bool_decide_eq_true_2 in Hd.
Qed.

Lemma fenced_lacks (content : string) : lacks "`" content = true → fenced content = None.
Proof.
  induction content as [|d content IH]; intros Hlacks.
  - reflexivity.
  - cbn [fenced]. unfold fence_here. rewrite (prefix_lacks _ _ _ Hlacks).
    cbn in Hlacks. apply andb_prop in Hlacks as [_ Hlacks]. by apply IH.
Qed.

(** X20: a reply of the AI without a backquote is handed to [JSON.parse]
    trimmed and whole: when the key is configured and the resume and the
    reply are not empty, analyze-resume answers 200 with what the trimmed
    reply parses to, and with the placeholder when it does not parse; what
    the AI writes never makes the function fail. *)
Theorem plain_reply_is_parsed_trimmed (req : AnalyzeRequest) (key content : string) :
  (method req =? "OPTIONS")%string = false →
  resumeText req ≠ "" →
  key ≠ "" →
  content ≠ "" →
  lacks "`" content = true →
  analyze_resume JSON_parse req key (gateway_ok (Some content))
  = json_response 200
      match JSON_parse (Js.trim content) with
      | Some parsed => parsed
      | None => placeholder content
      end.
Proof.
  intros Hmethod Hresume Hkey Hcontent Hplain.
  unfold analyze_resume, analyze_body, analysis, jsonStr.
  rewrite Hmethod, (falsy_false _ Hresume), (falsy_false _ Hkey),
    (falsy_false _ Hcontent), (fenced_lacks _ Hplain).
  unfold Js.or_else. by destruct (Js.falsy (Js.trim content)).
Qed.

End ExtractionFacts.

Lemma object_is_found_among_words_witness :
  EdgeFunctions.generate_test JSON_parse unexpected_token null_has_no_members
      "POST" generate_request "key"
    (EdgeFunctions.gateway_ok
       (Some (dq "Sure! {'questions': []} Good luck.")))
  = EdgeFunctions.json_response 200 (JObject [("questions", JArray [])]).
Proof.
  edestruct (object_is_found_among_words JSON_parse unexpected_token null_has_no_members
               generate_request "key" "Sure! " (dq "'questions': []") " Good luck." "")
    as [Hquestions _];
    [by vm_compute | done | done | reflexivity | reflexivity | by vm_compute |].
  exact Hquestions.
Defined.

Lemma plain_reply_is_parsed_trimmed_witness :
  EdgeFunctions.analyze_resume JSON_parse analyze_request "key"
    (EdgeFunctions.gateway_ok (Some (line_feed +:+ dq " {'score': 72} " +:+ line_feed)))
  = EdgeFunctions.json_response 200 (JObject [("score", JNumber "72")]).
Proof.
  rewrite (plain_reply_is_parsed_trimmed JSON_parse analyze_request "key");
    [by vm_compute | reflexivity | done | done | done | reflexivity].
Defined.

Section FenceFacts.
Import EdgeFunctions.

Variable JSON_parse : string → option Json.

Lemma trimStart_before (s rest : string) (c : ascii) :
  Ascii.is_space c = false →
  Js.trimStart (s +:+ String c rest) = Js.trimStart s +:+ String c rest.
Proof.
  intros Hc. induction s as [|d s IH].
  - change ("" +:+ String c rest) with (String c rest). cbn [Js.trimStart].
    by rewrite Hc.
  - rewrite append_cons. cbn [Js.trimStart]. by destruct (Ascii.is_space d).
Qed.

Lemma trimStart_idempotent (s : string) : Js.trimStart (Js.trimStart s) = Js.trimStart s.
Proof.
  induction s as [|d s IH]; [done|]. cbn [Js.trimStart].
  destruct (Ascii.is_space d) eqn:Hd; [exact IH|]. cbn [Js.trimStart]. by rewrite Hd.
Qed.

Lemma trim_trimStart (s : string) : Js.trim (Js.trimStart s) = Js.trim s.
Proof. unfold Js.trim. by rewrite trimStart_idempotent. Qed.

Lemma lacks_trimStart (c : ascii) (s : string) :
  lacks c s = true → lacks c (Js.trimStart s) = true.
Proof.
  induction s as [|d s IH]; [done|]. cbn [Js.trimStart]. intros Hs.
  destruct (Ascii.is_space d); [|exact Hs].
  cbn in Hs. apply andb_prop in Hs as [_ Hs]. by apply IH.
Qed.

Lemma prefix_other (c d : ascii) (p s : string) :
  d ≠ c → String.prefix (String c p) (String d s) = false.
Proof. intros Hd. cbn. by destruct (ascii_dec c d) as [->|_]. Qed.

Lemma indexOf_fence (s rest : string) :
  lacks "`" s = true → Js.indexOf "```" (s +:+ "```" +:+ rest) = Some (String.length s).
Proof.
  induction s as [|d s IH]; intros Hs.
  - change ("" +:+ "```" +:+ rest) with (String "`" (String "`" (String "`" rest))).
    cbn. by destruct rest.
  - rewrite append_cons. cbn [Js.indexOf String.length].
    cbn in Hs. apply andb_prop in Hs as [Hd Hs].
    rewrite (prefix_other "`" d "``"), (IH Hs); [done|].
    intros ->. by rewrite bool_decide_eq_true_2 in Hd.
Qed.

Lemma fenced_first (pre inner post : string) :
  lacks "`" pre = true → lacks "`" inner = true →
  fenced (pre +:+ "```json" +:+ inner +:+ "```" +:+ post) = Some (Js.trimStart inner).
Proof.
  intros Hpre Hinner. induction pre as [|d pre IH].
  - change ("" +:+ "```json" +:+ inner +:+ "```" +:+ post)
      with (String "`" (String "`" (String "`" (String "j" (String "s" (String "o"
              (String "n" (inner +:+ "```" +:+ post)))))))).
    cbn [fenced]. unfold fence_here.
    cbn [String.prefix Js.slice]. cbn.
    replace (String.prefix "" (inner +:+ "```" +:+ post)) with true
      by (by destruct (inner +:+ "```" +:+ post)).
    change (inner +:+ "```" +:+ post) with (inner +:+ String "`" ("``" +:+ post)).
    rewrite trimStart_before by done.
    change (Js.trimStart inner +:+ String "`" ("``" +:+ post))
      with (Js.trimStart inner +:+ "```" +:+ post).
    rewrite indexOf_fence by (by apply lacks_trimStart).
    cbn [mbind option_bind]. by rewrite take_length.
  - rewrite append_cons. cbn [fenced]. unfold fence_here at 1.
    cbn in Hpre. apply andb_prop in Hpre as [Hd Hpre].
    rewrite (prefix_other "`" d "``"); [by apply IH|].
    intros ->. by rewrite bool_decide_eq_true_2 in Hd.
Qed.

(** X21: a reply that holds a fence opened with three backquotes and
    'json', with no backquote before it or inside it, is parsed from the
    inside of that fence, trimmed, whatever follows the closing backquotes:
    analyze-resume answers 200 with what the inside parses to, and with the
    placeholder when it does not parse. *)
Theorem fenced_reply_is_parsed_from_the_inside
    (req : AnalyzeRequest) (key pre inner post : string) :
  (method req =? "OPTIONS")%string = false →
  resumeText req ≠ "" →
  key ≠ "" →
  lacks "`" pre = true →
  lacks "`" inner = true →
  Js.trim inner ≠ "" →
  let content := pre +:+ "```json" +:+ inner +:+ "```" +:+ post in
  analyze_resume JSON_parse req key (gateway_ok (Some content))
  = json_response 200
      match JSON_parse (Js.trim inner) with
      | Some parsed => parsed
      | None => placeholder content
      end.
Proof.
  intros Hmethod Hresume Hkey Hpre Hinner Htrim content.
  assert (content ≠ "") as Hcontent.
  { subst content. by destruct pre. }
  unfold analyze_resume, analyze_body, analysis, jsonStr.
  rewrite Hmethod, (falsy_false _ Hresume), (falsy_false _ Hkey),
    (falsy_false _ Hcontent).
  subst content. rewrite (fenced_first _ _ _ Hpre Hinner).
  unfold Js.or_else. by rewrite trim_trimStart, (falsy_false _ Htrim).
Qed.

End FenceFacts.

Lemma fenced_reply_is_parsed_from_the_inside_witness :
  EdgeFunctions.analyze_resume JSON_parse analyze_request "key"
    (EdgeFunctions.gateway_ok
       (Some ("Here you go:" +:+ line_feed +:+ "```json" +:+ line_feed
              +:+ dq "{'score': 90}" +:+ line_feed +:+ "```" +:+ " Bye.")))
  = EdgeFunctions.json_response 200 (JObject [("score", JNumber "90")]).
Proof.
  refine (fenced_reply_is_parsed_from_the_inside JSON_parse analyze_request "key"
            ("Here you go:" +:+ line_feed) (line_feed +:+ dq "{'score': 90}" +:+ line_feed)
            " Bye." _ _ _ _ _ _);
    [reflexivity | done | done | reflexivity | reflexivity | by vm_compute].
Defined.

(** ** From the edge functions to the pages *)

Section Compositions.

Variable JSON_parse : string → option Json.
Variable SyntaxError_message : string → string.
Variable TypeError_message : string.

(** X22: when generate-test refuses (any status but 200), the test page
    shows the function's own error message in its one notification, or
    'Failed to generate test' when that message is empty, requests no
    insert, and stays as it was but for the loading flag, which is
    reset. *)
Theorem generation_error_reaches_the_user
    (u : User) (req_body key : string) (gateway : EdgeFunctions.Gateway)
    (insert_ok : bool) (fresh_id now : string) (st : MockTests.State) :
  let response := EdgeFunctions.generate_test JSON_parse SyntaxError_message
                    TypeError_message "POST" req_body key gateway in
  EdgeFunctions.status response ≠ 200%nat →
  let r := MockTests.startTest (Some u) (refused_generation response) insert_ok fresh_id
             now st in
  ∃ message,
    EdgeFunctions.body response = Some (EdgeFunctions.error_object message)
    ∧ toasts (log_of r) = [if Js.falsy message then "Failed to generate test" else message]
    ∧ length (requests (log_of r)) = 1%nat
    ∧ state_after r = MockTests.setLoading false st.
Proof.
  intros response Hstatus r.
  destruct (generate_test_refusal JSON_parse SyntaxError_message TypeError_message
              req_body key gateway Hstatus)
    as [message Hbody].
  exists message. split; [exact Hbody|].
  subst r response. unfold refused_generation. rewrite Hbody.
  change (json_get "error" (Some (EdgeFunctions.error_object message)))
    with (Some (JString message)).
  unfold MockTests.startTest. run_handler. cbn. unfold Js.or_else.
  by destruct (Js.falsy message).
Qed.

Section EndInterview.
Import MockInterviews.

(** X23: ending an interview shows the feedback only when the
    mock-interview function holds a key and the span from the first opening
    to the last closing brace of the AI's reply parses to a value other
    than null; then that value is the feedback on screen and in the update
    sent to the backend.  In every other case the one notification is
    'Failed to get feedback. Please try again.', no update is sent and the
    view stays.  The transcript on screen is untouched either way. *)
Theorem feedback_needs_an_object_that_parses
    (key stream now : string) (gateway : EdgeFunctions.Gateway)
    (w : World) (current : MockInterview) :
  currentInterview (ui w) = Some current →
  let r := endInterview JSON_parse SyntaxError_message
             (feedback_answered
                (EdgeFunctions.mock_interview "POST" "feedback" key gateway stream))
             now w in
  match feedback_in JSON_parse key gateway with
  | Some v =>
      view (ui (state_after r)) = feedback_view
      ∧ feedback (ui (state_after r)) = Some v
      ∧ toasts (log_of r) = ["Interview completed!"]
      ∧ ∃ rating, requests (log_of r)
          = [Post "mock-interview"
               (feedback_chat {| chat_messages := messages (ui w);
                                 chat_interviewType := interview_type current;
                                 chat_targetRole := target_role current;
                                 chat_difficulty := difficulty current;
                                 chat_action := "feedback" |});
             Update "mock_interviews" (id current)
               (completion {| upd_feedback := v; upd_overall_rating := rating;
                              upd_status := "completed"; upd_completed_at := now |})]
  | None =>
      view (ui (state_after r)) = view (ui w)
      ∧ toasts (log_of r) = ["Failed to get feedback. Please try again."]
      ∧ length (requests (log_of r)) = 1%nat
  end
  ∧ messages (ui (state_after r)) = messages (ui w)
  ∧ loading (ui (state_after r)) = false.
Proof.
  intros Hcur r. subst r. unfold endInterview. run_handler. rewrite Hcur.
  unfold feedback_in, EdgeFunctions.mock_interview.
  cbn [String.eqb Ascii.eqb Bool.eqb].
  unfold Js.falsy. destruct (decide (key = "")) as [->|Hkey].
  { rewrite bool_decide_eq_true_2 by done. run_handler. cbn.
    by destruct gateway as [code|[content|]]. }
  rewrite bool_decide_eq_false_2 by done.
  destruct gateway as [code|[content|]].
  - destruct (refused_http_inv _
                (interview_body_refuses "feedback" stream code))
      as [[message ->]|(c & message & -> & [->| ->])]; by run_handler.
  - unfold EdgeFunctions.interview_body. cbn [String.eqb Ascii.eqb Bool.eqb].
    destruct (EdgeFunctions.braces content) as [jsonMatch|]; [|by run_handler].
    cbn [mbind option_bind]. run_handler. unfold response_json. cbn [http_body].
    destruct (JSON_parse jsonMatch) as [v|]; [|by run_handler].
    cbn [mbind option_bind].
    destruct v; run_handler; cbn; (split; [|done]); repeat split; by eexists.
  - by run_handler.
Qed.

End EndInterview.

End Compositions.

Lemma generation_error_reaches_the_user_witness :
  toasts (log_of (MockTests.startTest (Some {| user_id_of := "u1" |})
                    (refused_generation
                       (EdgeFunctions.generate_test JSON_parse unexpected_token
                          null_has_no_members "POST" generate_request "key"
                          (EdgeFunctions.gateway_status 429)))
                    true "t1" "2024-10-01T09:00:00Z" history_screen))
  = ["Rate limit exceeded. Please try again later."].
Proof.
  destruct (generation_error_reaches_the_user JSON_parse unexpected_token
              null_has_no_members {| user_id_of := "u1" |} generate_request "key"
              (EdgeFunctions.gateway_status 429)
              true "t1" "2024-10-01T09:00:00Z" history_screen)
    as (message & Hbody & Htoast & _); [by vm_compute|].
  rewrite Htoast. vm_compute in Hbody. injection Hbody as <-. reflexivity.
Defined.

Lemma feedback_needs_an_object_that_parses_witness :
  let r := MockInterviews.endInterview JSON_parse unexpected_token
             (MockInterviews.feedback_answered
                (EdgeFunctions.mock_interview "POST" "feedback" "key"
                   (EdgeFunctions.gateway_ok
                      (Some (dq "Here it is: {'overallRating': 7, 'tips': ["))) ""))
             "2024-10-01T10:00:00Z" interview_world in
  MockInterviews.view (MockInterviews.ui (state_after r)) = MockInterviews.interview
  ∧ toasts (log_of r) = ["Failed to get feedback. Please try again."].
Proof.
  cbv zeta.
  edestruct (feedback_needs_an_object_that_parses JSON_parse unexpected_token
               "key" "" "2024-10-01T10:00:00Z"
               (EdgeFunctions.gateway_ok
                  (Some (dq "Here it is: {'overallRating': 7, 'tips': [")))
               interview_world) as [Hfeedback _]; [reflexivity|].
  vm_compute (feedback_in _ _ _) in Hfeedback.
  destruct Hfeedback as (Hview & Htoast & _). split; [exact Hview|exact Htoast].
Defined.

(** ** The resume analyzer *)

Section AnalyzerFacts.
Import ResumeAnalyzer.

Variable JSON_parse : string → option Json.
Variable is_zero : string → bool.
Variable rendered : Json → string.

Lemma analyze_resume_refuses (req : EdgeFunctions.AnalyzeRequest) (key : string)
    (gateway : EdgeFunctions.Gateway) :
  let r := EdgeFunctions.analyze_resume JSON_parse req key gateway in
  EdgeFunctions.status r = 200%nat
  ∨ ((EdgeFunctions.status r = 400 ∨ EdgeFunctions.status r = 429
      ∨ EdgeFunctions.status r = 402 ∨ EdgeFunctions.status r = 500)%nat
     ∧ ∃ message, EdgeFunctions.body r = Some (EdgeFunctions.error_object message)).
Proof.
  intros r. subst r. unfold EdgeFunctions.analyze_resume.
  destruct (EdgeFunctions.method req =? "OPTIONS")%string; [by left|].
  destruct (Js.falsy (EdgeFunctions.resumeText req));
    [right; split; [auto|by eexists]|].
  destruct (Js.falsy key); [right; split; [auto|by eexists]|].
  destruct gateway as [code|[content|]].
  - right.
    destruct (refused_inv _ (analyze_body_refuses JSON_parse code))
      as [[message ->]|(c & message & -> & Hc)].
    + split; [auto|]. by eexists.
    + split; [cbn; tauto|]. by eexists.
  - cbn [EdgeFunctions.analyze_body].
    destruct (Js.falsy content); [right; split; [auto|by eexists]|by left].
  - right. split; [auto|]. by eexists.
Qed.

Lemma trim_not_blank (s : string) : Js.trim s ≠ "" → s ≠ "".
Proof. by intros Htrim ->. Qed.

(** X24: when analyze-resume refuses a pasted resume (any status but
    200: no key, rate limit, credits, gateway error, no reply), the
    dialog shows 'Failed to analyze resume. Please try again.' and nothing
    else: the message the function put in its answer is not shown, and no
    analysis is kept. *)
Theorem function_error_is_replaced_by_a_generic_one
    (key : string) (gateway : EdgeFunctions.Gateway) (parsed : Parsed) (st : State) :
  Js.trim (resumeText st) ≠ "" →
  let response :=
    EdgeFunctions.analyze_resume JSON_parse
      {| EdgeFunctions.method := "POST"; EdgeFunctions.resumeText := resumeText st;
         EdgeFunctions.targetRole := customTargetRole st |} key gateway in
  EdgeFunctions.status response ≠ 200%nat →
  let r := handleAnalyzeWithParse is_zero rendered
             (invoke_analyze_resume JSON_parse key gateway) parsed st in
  toasts (log_of r) = ["Failed to analyze resume. Please try again."]
  ∧ analysis (state_after r) = None
  ∧ analyzing (state_after r) = false
  ∧ ∃ message, EdgeFunctions.body response = Some (EdgeFunctions.error_object message).
Proof.
  intros Htext response Hstatus r.
  destruct (analyze_resume_refuses
              {| EdgeFunctions.method := "POST"; EdgeFunctions.resumeText := resumeText st;
                 EdgeFunctions.targetRole := customTargetRole st |} key gateway)
    as [H200|[Hcode [message Hbody]]]; [done|].
  fold response in Hcode, Hbody.
  assert (invoke_analyze_resume JSON_parse key gateway
            {| body_resumeText := resumeText st; body_targetRole := customTargetRole st |}
          = invoke_error) as Hinvoke.
  { unfold invoke_analyze_resume, invoked, http_ok, EdgeFunctions.sent.
    cbn [body_resumeText body_targetRole http_status]. fold response.
    by destruct Hcode as [->|[->|[->| ->]]]. }
  split; [|split; [|split; [|by exists message]]]; subst r;
    unfold handleAnalyzeWithParse, handleAnalyze, analyze; run_handler;
    destruct (inputMethod st), (selectedFile st);
    repeat first [rewrite (falsy_false _ Htext) | rewrite Hinvoke | progress run_handler];
    by cbn.
Qed.

(** X25: when the AI's reply to a pasted resume does not parse,
    analyze-resume answers 200 with its placeholder, and the dialog treats
    it as an analysis: the notification is 'Resume analyzed successfully!'
    and the placeholder, score 0, is what is shown. *)
Theorem placeholder_is_shown_as_an_analysis
    (key content : string) (parsed : Parsed) (st : State) :
  Js.trim (resumeText st) ≠ "" →
  key ≠ "" →
  content ≠ "" →
  JSON_parse (EdgeFunctions.jsonStr content) = None →
  let r := handleAnalyzeWithParse is_zero rendered
             (invoke_analyze_resume JSON_parse key
                (EdgeFunctions.gateway_ok (Some content))) parsed st in
  toasts (log_of r) = ["Resume analyzed successfully!"]
  ∧ analysis (state_after r) = Some (EdgeFunctions.placeholder content)
  ∧ json_get "score" (analysis (state_after r)) = Some (JNumber "0").
Proof.
  intros Htext Hkey Hcontent Hparse r.
  assert (invoke_analyze_resume JSON_parse key (EdgeFunctions.gateway_ok (Some content))
            {| body_resumeText := resumeText st; body_targetRole := customTargetRole st |}
          = invoke_data (EdgeFunctions.placeholder content)) as Hinvoke.
  { unfold invoke_analyze_resume, EdgeFunctions.analyze_resume,
      EdgeFunctions.analyze_body, EdgeFunctions.analysis.
    cbn [body_resumeText body_targetRole EdgeFunctions.method EdgeFunctions.resumeText
         String.eqb Ascii.eqb Bool.eqb].
    by rewrite (falsy_false _ (trim_not_blank _ Htext)), (falsy_false _ Hkey),
      (falsy_false _ Hcontent), Hparse. }
  subst r. unfold handleAnalyzeWithParse, handleAnalyze, analyze. run_handler.
  destruct (inputMethod st), (selectedFile st);
    repeat first [rewrite (falsy_false _ Htext) | rewrite Hinvoke | progress run_handler];
    unfold take_analysis;
    change (json_get "error" (Some (EdgeFunctions.placeholder content))) with (@None Json);
    run_handler; by cbn.
Qed.

Lemma tidy_ret {A} sel (a : A) : tidy sel (ret a).
Proof. intros st Hsel. by split. Qed.

Lemma tidy_throw {A} sel e : tidy (A := A) sel (throw e).
Proof. intros st Hsel. by split. Qed.

Lemma tidy_emit sel (e : Effect Body) :
  (∀ file, e = request (Post "parse-resume-pdf" (parse_body file)) → sel = Some file) →
  tidy sel (emit e).
Proof. intros He st Hsel. split; [done|]. by apply Forall_singleton. Qed.

Lemma tidy_set sel (f : State → State) :
  (∀ st, selectedFile (f st) = selectedFile st) → tidy sel (set f).
Proof. intros Hf st Hsel. split; [|done]. cbn. by rewrite Hf. Qed.

Lemma tidy_bind {A B} sel (m : Action A) (k : A → Action B) :
  tidy sel m → (∀ a, tidy sel (k a)) → tidy sel (bind m k).
Proof.
  intros Hm Hk st Hsel. specialize (Hm st Hsel). unfold bind, state_after, log_of in *.
  destruct (m st) as [[[a|e] st1] log1]; cbn in *; [|done].
  destruct Hm as [Hsel1 Hlog1]. specialize (Hk a st1 Hsel1).
  unfold state_after, log_of in Hk.
  destruct (k a st1) as [[o st2] log2]; cbn in *.
  destruct Hk as [Hsel2 Hlog2]. split; [done|]. by apply Forall_app.
Qed.

Lemma tidy_get {A} sel (k : State → Action A) :
  (∀ st, selectedFile st = sel → tidy sel (k st)) → tidy sel (bind get k).
Proof.
  intros Hk st Hsel. specialize (Hk st Hsel st Hsel).
  unfold bind, get, state_after, log_of in *.
  by destruct (k st st) as [[o st2] log2].
Qed.

Lemma tidy_try_catch {A} sel (m : Action A) (h : Thrown → Action A) :
  tidy sel m → (∀ e, tidy sel (h e)) → tidy sel (try_catch m h).
Proof.
  intros Hm Hh st Hsel. specialize (Hm st Hsel).
  unfold try_catch, state_after, log_of in *.
  destruct (m st) as [[[a|e] st1] log1]; cbn in *; [done|].
  destruct Hm as [Hsel1 Hlog1]. specialize (Hh e st1 Hsel1).
  unfold state_after, log_of in Hh.
  destruct (h e st1) as [[o st2] log2]; cbn in *.
  destruct Hh as [Hsel2 Hlog2]. split; [done|]. by apply Forall_app.
Qed.

Lemma tidy_finally {A} sel (m : Action A) (f : Action unit) :
  tidy sel m → tidy sel f → tidy sel (finally m f).
Proof.
  intros Hm Hf st Hsel. specialize (Hm st Hsel).
  unfold finally, state_after, log_of in *.
  destruct (m st) as [[o st1] log1]; cbn in *.
  destruct Hm as [Hsel1 Hlog1]. specialize (Hf st1 Hsel1).
  unfold state_after, log_of in Hf.
  destruct (f st1) as [[o' st2] log2]; cbn in *.
  destruct Hf as [Hsel2 Hlog2]. split; [done|]. by apply Forall_app.
Qed.

(** Decomposes a handler along its combinators. *)
Ltac tidy_step :=
  lazymatch goal with
  | |- tidy _ (bind get _) => apply tidy_get; intros ? ?
  | |- tidy _ (bind _ _) => apply tidy_bind; [|intros ?]
  | |- tidy _ (finally _ _) => apply tidy_finally
  | |- tidy _ (try_catch _ _) => apply tidy_try_catch; [|intros ?]
  | |- tidy _ (ret _) => apply tidy_ret
  | |- tidy _ (throw _) => apply tidy_throw
  | |- tidy _ (set _) => apply tidy_set; reflexivity
  | |- tidy _ (emit _) => apply tidy_emit; intros ? [=]; congruence
  end.

Lemma take_analysis_tidy sel data : tidy sel (take_analysis is_zero rendered data).
Proof.
  unfold take_analysis.
  destruct data; try apply tidy_throw;
    destruct (truthy _ _); repeat tidy_step.
Qed.

Lemma handleParsePdf_tidy sel parsed : tidy sel (handleParsePdf parsed).
Proof.
  unfold handleParsePdf. tidy_step.
  destruct (selectedFile _) as [file|] eqn:Hfile; repeat tidy_step.
  destruct parsed as [|error text]; [tidy_step|].
  destruct (negb _); repeat tidy_step.
Qed.

Lemma analyze_tidy sel invoke_analyze st0 :
  tidy sel (analyze is_zero rendered invoke_analyze st0).
Proof.
  unfold analyze. repeat tidy_step.
  destruct (invoke_analyze _); [tidy_step|apply take_analysis_tidy].
Qed.

Lemma handleAnalyze_tidy sel invoke_analyze parsed :
  tidy sel (handleAnalyze is_zero rendered invoke_analyze parsed).
Proof.
  unfold handleAnalyze. tidy_step.
  destruct (Js.falsy _); [|apply analyze_tidy].
  destruct (selectedFile _); [destruct (inputMethod _)|]; repeat tidy_step.
  apply handleParsePdf_tidy.
Qed.

Lemma handleAnalyzeWithParse_tidy sel invoke_analyze parsed :
  tidy sel (handleAnalyzeWithParse is_zero rendered invoke_analyze parsed).
Proof.
  unfold handleAnalyzeWithParse. tidy_step.
  destruct (inputMethod _); [apply handleAnalyze_tidy|].
  destruct (selectedFile _) as [file|] eqn:Hfile; [|apply handleAnalyze_tidy].
  destruct (Js.falsy _); [|apply handleAnalyze_tidy].
  repeat tidy_step.
  destruct parsed as [|error text]; [tidy_step|].
  destruct (negb _); repeat tidy_step.
  destruct (invoke_analyze _); [tidy_step|apply take_analysis_tidy].
Qed.

Lemma reachable_accepted (st : State) :
  reachable is_zero rendered st → ∀ file, selectedFile st = Some file → accepted file.
Proof.
  induction 1 as [targetRole | chosen st _ IH | text st _ IH | text st _ IH | tab st _ IH
                  | invoke_analyze parsed st _ IH | st _ IH]; try done.
  - unfold handleFileSelect. destruct chosen as [chosen|]; [|exact IH].
    destruct (includes (file_type chosen) "pdf") eqn:Hpdf; [|exact IH]. cbn [negb].
    destruct (Z.ltb_spec (10 * 1024 * 1024) (file_size chosen)) as [Hbig|Hfits];
      [exact IH|].
    run_handler. cbn. intros file [= <-]. by split.
  - intros file.
    rewrite (proj1 (handleAnalyzeWithParse_tidy _ invoke_analyze parsed st eq_refl)).
    apply IH.
Qed.

(** X26: whatever is done in the dialog, a file sent to the PDF parser
    is the file selected at that moment, and one the dialog accepted: its
    type contains 'pdf' and it has at most 10 * 1024 * 1024 bytes. *)
Theorem only_accepted_files_are_parsed
    (invoke_analyze : AnalyzeBody → Invoked) (parsed : Parsed) (st : State) (file : File) :
  reachable is_zero rendered st →
  request (Post "parse-resume-pdf" (parse_body file))
  ∈ log_of (handleAnalyzeWithParse is_zero rendered invoke_analyze parsed st) →
  selectedFile st = Some file
  ∧ includes (file_type file) "pdf" = true
  ∧ file_size file ≤ 10 * 1024 * 1024.
Proof.
  intros Hreach Hsent.
  assert (selectedFile st = Some file) as Hfile.
  { destruct (handleAnalyzeWithParse_tidy _ invoke_analyze parsed st eq_refl) as [_ Hlog].
    rewrite Forall_forall in Hlog. by apply (Hlog _ Hsent). }
  split; [exact Hfile|]. by apply (reachable_accepted st Hreach).
Qed.

End AnalyzerFacts.

Lemma function_error_is_replaced_by_a_generic_one_witness :
  let r := ResumeAnalyzer.handleAnalyzeWithParse zero_lexeme object_text
             (invoke_analyze_resume JSON_parse "key" (EdgeFunctions.gateway_status 429))
             ResumeAnalyzer.parse_failed pasted_resume in
  EdgeFunctions.body
    (EdgeFunctions.analyze_resume JSON_parse analyze_request "key"
       (EdgeFunctions.gateway_status 429))
  = Some (EdgeFunctions.error_object "Rate limit exceeded. Please try again later.")
  ∧ toasts (log_of r) = ["Failed to analyze resume. Please try again."].
Proof.
  cbv zeta. split; [by vm_compute|].
  edestruct (function_error_is_replaced_by_a_generic_one JSON_parse zero_lexeme object_text
               "key" (EdgeFunctions.gateway_status 429) ResumeAnalyzer.parse_failed
               pasted_resume) as [Htoast _]; [by vm_compute | by vm_compute |].
  exact Htoast.
Defined.

Lemma placeholder_is_shown_as_an_analysis_witness :
  let r := ResumeAnalyzer.handleAnalyzeWithParse zero_lexeme object_text
             (invoke_analyze_resume JSON_parse "key"
                (EdgeFunctions.gateway_ok (Some "I compared {skills} with {roles, but")))
             ResumeAnalyzer.parse_failed pasted_resume in
  toasts (log_of r) = ["Resume analyzed successfully!"]
  ∧ json_get "summary" (ResumeAnalyzer.analysis (state_after r))
    = Some (JString "Unable to parse analysis. Please try again.").
Proof.
  cbv zeta.
  edestruct (placeholder_is_shown_as_an_analysis JSON_parse zero_lexeme object_text
               "key" "I compared {skills} with {roles, but" ResumeAnalyzer.parse_failed
               pasted_resume) as (Htoast & Hanalysis & _);
    [by vm_compute | done | done | by vm_compute |].
  split; [exact Htoast|]. rewrite Hanalysis. by vm_compute.
Defined.

Lemma only_accepted_files_are_parsed_witness :
  ResumeAnalyzer.selectedFile resume_chosen = Some resume_pdf
  ∧ ResumeAnalyzer.includes (ResumeAnalyzer.file_type resume_pdf) "pdf" = true
  ∧ ResumeAnalyzer.file_size resume_pdf ≤ 10 * 1024 * 1024.
Proof.
  apply (only_accepted_files_are_parsed zero_lexeme object_text
           (λ _, ResumeAnalyzer.invoke_error) ResumeAnalyzer.parse_failed).
  - apply (file_chosen zero_lexeme object_text (Some resume_pdf)), dialog_opened.
  - vm_compute. by left.
Defined.
